(** * Beeswax QA automation: brief extraction, reconciliation and rule checks

    A shallow embedding of the rule engines of the repository
    ([brief_extractor.py], [name_assign.py], [targeting_general.py],
    [targeting.py]) together with the properties its specification states
    about them.

    Conventions of the embedding.
    - A Python [str] is a [string]; characters are the codes below 256
      and case folding acts on the ASCII letters.
    - A Python [float] is a primitive binary64 [float]; arithmetic and
      comparisons are the IEEE ones of [PrimFloat].
    - A spreadsheet cell or a Python scalar is a [pyval].
    - A pandas row ([Series]) is an association list from column label to
      [pyval]; a missing label is what [row.get] answers its default for.
    - A function that may raise returns an [option] or a [result]. *)

From Stdlib Require Import ZArith List String Ascii Bool Lia Permutation.
From Stdlib Require Import DecimalString DecimalZ PrimFloat FloatOps SpecFloat FloatAxioms.
Import ListNotations.

Set Warnings "-inexact-float".

Local Open Scope string_scope.
Local Open Scope Z_scope.

(* ================================================================== *)
(** ** Python string primitives *)

Module Py.

(** [str.isspace] on one character: HT, LF, VT, FF, CR, the four
    separators 0x1c-0x1f, the blank, NEL (0x85) and the no-break space
    (0xa0). *)
Definition is_space (c : ascii) : bool :=
  let n := N_of_ascii c in
  ((9 <=? n) && (n <=? 13) || (28 <=? n) && (n <=? 32) || (n =? 133) || (n =? 160))%N.

Definition is_digit (c : ascii) : bool :=
  let n := N_of_ascii c in ((48 <=? n) && (n <=? 57))%N.

Definition is_lower (c : ascii) : bool :=
  let n := N_of_ascii c in ((97 <=? n) && (n <=? 122))%N.

Definition is_upper (c : ascii) : bool :=
  let n := N_of_ascii c in ((65 <=? n) && (n <=? 90))%N.

Definition is_alnum (c : ascii) : bool :=
  is_digit c || is_lower c || is_upper c.

Definition upper_char (c : ascii) : ascii :=
  if is_lower c then ascii_of_N (N_of_ascii c - 32) else c.

Definition lower_char (c : ascii) : ascii :=
  if is_upper c then ascii_of_N (N_of_ascii c + 32) else c.

Fixpoint smap (f : ascii -> ascii) (s : string) : string :=
  match s with
  | EmptyString => EmptyString
  | String c t => String (f c) (smap f t)
  end.

(** [s.upper()] and [s.lower()]. *)
Definition upper : string -> string := smap upper_char.
Definition lower : string -> string := smap lower_char.

(** [s.lstrip(chars)], [s.rstrip(chars)], [s.strip(chars)] with the set of
    characters given as a predicate. *)
Fixpoint lstrip_by (p : ascii -> bool) (s : string) : string :=
  match s with
  | EmptyString => EmptyString
  | String c t => if p c then lstrip_by p t else s
  end.

Fixpoint rstrip_by (p : ascii -> bool) (s : string) : string :=
  match s with
  | EmptyString => EmptyString
  | String c t =>
      match rstrip_by p t with
      | EmptyString => if p c then EmptyString else String c EmptyString
      | t' => String c t'
      end
  end.

Definition strip_by (p : ascii -> bool) (s : string) : string :=
  rstrip_by p (lstrip_by p s).

(** [s.strip()]. *)
Definition strip : string -> string := strip_by is_space.

Definition one_of (cs : string) (c : ascii) : bool :=
  existsb (Ascii.eqb c) (list_ascii_of_string cs).

(** [s.startswith(p)]. *)
Definition startswith (s p : string) : bool := String.prefix p s.

(** [sub in s]. *)
Fixpoint contains (sub s : string) : bool :=
  String.prefix sub s
  || match s with
     | EmptyString => false
     | String _ t => contains sub t
     end.

Definition srev (s : string) : string :=
  string_of_list_ascii (rev (list_ascii_of_string s)).

(** [s.endswith(p)]. *)
Definition endswith (s p : string) : bool := String.prefix (srev p) (srev s).

(** Splitting at every separator character, the separators given as a
    predicate ([re.split] with a character class): never the empty list. *)
Fixpoint split_by (p : ascii -> bool) (s : string) : list string :=
  match s with
  | EmptyString => [EmptyString]
  | String a t =>
      if p a then EmptyString :: split_by p t
      else match split_by p t with
           | h :: r => String a h :: r
           | [] => [String a EmptyString]
           end
  end.

(** [s.split(c)] for a one-character separator. *)
Definition split_on (c : ascii) : string -> list string :=
  split_by (fun a => Ascii.eqb a c).

(** [s.split(c, 1)]: the text before the first [c] and the text after it,
    or [None] when [c] does not occur in [s]. *)
Fixpoint split_once (c : ascii) (s : string) : option (string * string) :=
  match s with
  | EmptyString => None
  | String a t =>
      if Ascii.eqb a c then Some (EmptyString, t)
      else match split_once c t with
           | Some (h, r) => Some (String a h, r)
           | None => None
           end
  end.

(** [sep.join(parts)]. *)
Definition join (sep : string) (parts : list string) : string :=
  String.concat sep parts.

(** [s.replace(c, '')] and [s.replace(c, d)] for single characters. *)
Fixpoint remove_char (c : ascii) (s : string) : string :=
  match s with
  | EmptyString => EmptyString
  | String a t => if Ascii.eqb a c then remove_char c t else String a (remove_char c t)
  end.

Definition replace_char (c d : ascii) : string -> string :=
  smap (fun a => if Ascii.eqb a c then d else a).

Definition is_empty (s : string) : bool :=
  match s with EmptyString => true | _ => false end.

(** [str(n)] for an [int]. *)
Definition str_of_Z (z : Z) : string := NilZero.string_of_int (Z.to_int z).

(** [x in xs] for a list of strings. *)
Definition mem (x : string) (xs : list string) : bool := existsb (String.eqb x) xs.

(** The double quote, as a character. *)
Definition dquote : ascii := ascii_of_N 34.
Definition squote : ascii := ascii_of_N 39.

(** [s.isascii()]. *)
Definition isascii (s : string) : bool :=
  forallb (fun c => (N_of_ascii c <? 128)%N) (list_ascii_of_string s).

End Py.

(* ================================================================== *)
(** ** Python floats (binary64) *)

Module PyFloat.

(** The exact value of a finite non-zero float is [m * 2 ^ e]. *)
Definition pow2 (e : Z) : Z := Z.shiftl 1 e.

(** Nearest float (ties to even) of the rational [n / d], for [n, d > 0]. *)
Definition round_ratio (neg : bool) (n d : Z) : float :=
  let s := Z.max 0 (64 + Z.log2 d - Z.log2 n) in
  let n' := Z.shiftl n s in
  let q := n' / d in
  let r := n' mod d in
  let loc := if r =? 0 then loc_Exact else loc_Inexact (2 * r ?= d) in
  SF2Prim (binary_round_aux prec emax neg q (- s) loc).

(** Nearest float of an integer: [float(n)]. *)
Definition float_of_Z (z : Z) : float :=
  SF2Prim (binary_normalize prec emax z 0 false).

(** Nearest float of the decimal [m * 10 ^ k] with [m >= 0] written with
    [nd] digits. *)
Definition float_of_decimal (neg : bool) (m k nd : Z) : float :=
  if m =? 0 then (if neg then neg_zero else zero)
  else if 0 <=? k then
    if 400 <? k then (if neg then neg_infinity else infinity)
    else SF2Prim (binary_normalize prec emax ((if neg then -1 else 1) * (m * 10 ^ k)) 0 false)
  else if nd + k <? -400 then (if neg then neg_zero else zero)
  else round_ratio neg m (10 ^ (- k)).

Definition digit_val (c : ascii) : Z := Z.of_N (N_of_ascii c) - 48.

Definition Z_of_digits (ds : list ascii) : Z :=
  fold_left (fun acc c => 10 * acc + digit_val c) ds 0.

(** [digit (["_"] digit)*] after its first digit. *)
Fixpoint digits_tail (l : list ascii) : list ascii * list ascii :=
  match l with
  | c :: t =>
      if Py.is_digit c then
        let (ds, r) := digits_tail t in (c :: ds, r)
      else if Ascii.eqb c "_" then
        match t with
        | d :: t' =>
            if Py.is_digit d then
              let (ds, r) := digits_tail t' in (d :: ds, r)
            else ([], l)
        | [] => ([], l)
        end
      else ([], l)
  | [] => ([], [])
  end.

Definition digitpart (l : list ascii) : option (list ascii * list ascii) :=
  match l with
  | c :: t =>
      if Py.is_digit c then
        let (ds, r) := digits_tail t in Some (c :: ds, r)
      else None
  | [] => None
  end.

Definition take_sign (l : list ascii) : bool * list ascii :=
  match l with
  | c :: t =>
      if Ascii.eqb c "-" then (true, t)
      else if Ascii.eqb c "+" then (false, t)
      else (false, l)
  | [] => (false, [])
  end.

(** [exponent ::= ("e" | "E") [sign] digitpart], up to the end of the text. *)
Definition parse_exponent (l : list ascii) : option Z :=
  match l with
  | [] => Some 0
  | c :: t =>
      if Ascii.eqb (Py.lower_char c) "e" then
        let (neg, t') := take_sign t in
        match digitpart t' with
        | Some (ds, []) => Some ((if neg then -1 else 1) * Z_of_digits ds)
        | _ => None
        end
      else None
  end.

(** [number ::= [digitpart] "." digitpart | digitpart ["."]], then the
    exponent: the mantissa digits, the number of fraction digits, the
    exponent. *)
Definition parse_number (l : list ascii) : option (list ascii * Z * Z) :=
  match digitpart l with
  | Some (ids, r) =>
      match r with
      | c :: r' =>
          if Ascii.eqb c "." then
            let (fds, r'') :=
              match digitpart r' with
              | Some p => p
              | None => ([], r')
              end in
            option_map (fun e => ((ids ++ fds)%list, Z.of_nat (List.length fds), e))
                       (parse_exponent r'')
          else option_map (fun e => (ids, 0, e)) (parse_exponent r)
      | [] => Some (ids, 0, 0)
      end
  | None =>
      match l with
      | c :: r' =>
          if Ascii.eqb c "." then
            match digitpart r' with
            | Some (fds, r'') =>
                option_map (fun e => (fds, Z.of_nat (List.length fds), e))
                           (parse_exponent r'')
            | None => None
            end
          else None
      | [] => None
      end
  end.

(** [float(s)] for a string; [None] is [ValueError]. *)
Definition py_float (s : string) : option float :=
  let (neg, body) := take_sign (list_ascii_of_string (Py.strip s)) in
  let word := Py.lower (string_of_list_ascii body) in
  if String.eqb word "inf" || String.eqb word "infinity" then
    Some (if neg then neg_infinity else infinity)
  else if String.eqb word "nan" then Some nan
  else
    match parse_number body with
    | Some (ds, nfrac, e) =>
        Some (float_of_decimal neg (Z_of_digits ds) (e - nfrac)
                               (Z.of_nat (List.length ds)))
    | None => None
    end.

(** [x.is_integer()] and [int(x)] (truncation), read off the exact value. *)
Definition is_integer (x : float) : bool :=
  match Prim2SF x with
  | S754_zero _ => true
  | S754_finite _ m e =>
      if 0 <=? e then true else Z.pos m mod pow2 (- e) =? 0
  | _ => false
  end.

Definition trunc (x : float) : Z :=
  match Prim2SF x with
  | S754_finite s m e =>
      let a := if 0 <=? e then Z.pos m * pow2 e else Z.pos m / pow2 (- e) in
      if s then - a else a
  | _ => 0
  end.

(** [math.floor(x)] for a finite [x]. *)
Definition floor (x : float) : Z :=
  match Prim2SF x with
  | S754_finite s m e =>
      if 0 <=? e then (if s then - (Z.pos m * pow2 e) else Z.pos m * pow2 e)
      else if s then - ((Z.pos m + pow2 (- e) - 1) / pow2 (- e))
      else Z.pos m / pow2 (- e)
  | _ => 0
  end.

(** Round half to even of the rational [n / d], [n >= 0], [d > 0]. *)
Definition round_half_even (n d : Z) : Z :=
  let q := n / d in
  match 2 * (n mod d) ?= d with
  | Lt => q
  | Gt => q + 1
  | Eq => if Z.even q then q else q + 1
  end.

Fixpoint zeros (n : nat) : string :=
  match n with O => EmptyString | S k => String "0" (zeros k) end.

Definition pad_left (width : nat) (s : string) : string :=
  zeros (width - String.length s) ++ s.

(** [format(x, '.pf')]: the exact binary value rounded half to even at
    [p] decimals. *)
Definition format_fixed (p : nat) (x : float) : string :=
  match Prim2SF x with
  | S754_nan => "nan"
  | S754_infinity s => if s then "-inf" else "inf"
  | S754_zero s =>
      (if s then "-" else "") ++ "0" ++
      (match p with O => "" | _ => "." ++ zeros p end)
  | S754_finite s m e =>
      let scale := 10 ^ Z.of_nat p in
      let n :=
        if 0 <=? e then Z.pos m * pow2 e * scale
        else round_half_even (Z.pos m * scale) (pow2 (- e)) in
      (if s then "-" else "") ++ Py.str_of_Z (n / scale) ++
      (match p with
       | O => ""
       | _ => "." ++ pad_left p (Py.str_of_Z (n mod scale))
       end)
  end.

(** The largest [E] with [10 ^ E <= n / d], searched from the estimate
    that the binary logarithms give. *)
Fixpoint adjust_exp10 (fuel : nat) (n d E : Z) : Z :=
  let ge (k : Z) := if 0 <=? k then d * 10 ^ k <=? n else d <=? n * 10 ^ (- k) in
  match fuel with
  | O => E
  | S f =>
      if negb (ge E) then adjust_exp10 f n d (E - 1)
      else if ge (E + 1) then adjust_exp10 f n d (E + 1)
      else E
  end.

Definition exp10 (n d : Z) : Z :=
  adjust_exp10 8 n d (((Z.log2 n - Z.log2 d) * 30103) / 100000).

(** The shortest decimal [D * 10 ^ k] that reads back as [x = n / d]
    (the nearest to [x] among those of that length), trying 1 to 17
    significant digits. *)
Fixpoint shortest_from (fuel : nat) (x : float) (n d E p : Z) : Z * Z :=
  let k := E - (p - 1) in
  let qn := if 0 <=? k then n else n * 10 ^ (- k) in
  let qd := if 0 <=? k then d * 10 ^ k else d in
  let lo := qn / qd in
  let r := qn mod qd in
  let back (D : Z) := PrimFloat.eqb (float_of_decimal false D k 17) x in
  match fuel with
  | O => (round_half_even qn qd, k)
  | S f =>
      if r =? 0 then (lo, k)
      else
        match back lo, back (lo + 1) with
        | true, true =>
            (match 2 * r ?= qd with
             | Lt => lo
             | Gt => lo + 1
             | Eq => if Z.even lo then lo else lo + 1
             end, k)
        | true, false => (lo, k)
        | false, true => (lo + 1, k)
        | false, false => shortest_from f x n d E (p + 1)
        end
  end.

Fixpoint strip_zeros (fuel : nat) (D k : Z) : Z * Z :=
  match fuel with
  | O => (D, k)
  | S f => if (D mod 10 =? 0) && negb (D =? 0) then strip_zeros f (D / 10) (k + 1) else (D, k)
  end.

Fixpoint sdrop (n : nat) (s : string) : string :=
  match n, s with
  | S k, String _ t => sdrop k t
  | _, _ => s
  end.

(** [repr(x)], which is also [str(x)]: the shortest digits that read back
    as [x], in fixed notation when the decimal point falls within
    [-4 < decpt <= 16] and in exponent notation otherwise. *)
Definition repr (x : float) : string :=
  match Prim2SF x with
  | S754_nan => "nan"
  | S754_infinity s => if s then "-inf" else "inf"
  | S754_zero s => if s then "-0.0" else "0.0"
  | S754_finite s m e =>
      let n := if 0 <=? e then Z.pos m * pow2 e else Z.pos m in
      let d := if 0 <=? e then 1 else pow2 (- e) in
      let '(D0, k0) := shortest_from 17 (PrimFloat.abs x) n d (exp10 n d) 1 in
      let '(D, k) := strip_zeros 400 D0 k0 in
      let ds := Py.str_of_Z D in
      let nd := Z.of_nat (String.length ds) in
      let decpt := nd + k in
      let body :=
        if (decpt <=? -4) || (16 <? decpt) then
          let ex := decpt - 1 in
          String.substring 0 1 ds
          ++ (if 1 <? nd then "." ++ sdrop 1 ds else "")
          ++ "e" ++ (if ex <? 0 then "-" else "+")
          ++ pad_left 2 (Py.str_of_Z (Z.abs ex))
        else if decpt <=? 0 then "0." ++ zeros (Z.to_nat (- decpt)) ++ ds
        else if nd <=? decpt then ds ++ zeros (Z.to_nat (decpt - nd)) ++ ".0"
        else String.substring 0 (Z.to_nat decpt) ds ++ "." ++ sdrop (Z.to_nat decpt) ds in
      (if s then "-" else "") ++ body
  end.

(** [int(s)] for a text: an optional sign and decimal digits, single
    underscores allowed between digits; [None] is [ValueError]. *)
Definition py_int (s : string) : option Z :=
  let (neg, body) := take_sign (list_ascii_of_string (Py.strip s)) in
  match digitpart body with
  | Some (ds, []) => Some ((if neg then -1 else 1) * Z_of_digits ds)
  | _ => None
  end.

End PyFloat.

(* ================================================================== *)
(** ** Scalars, cells and rows *)

(** A calendar date, as a [datetime] or a pandas [Timestamp] carries it
    (the time of day plays no role in the functions below). *)
Record date := mkDate { year : Z; month : Z; day : Z }.

(** A Python scalar as a spreadsheet cell or a table entry holds it. *)
Inductive pyval :=
| PNone                 (* None *)
| PNaN                  (* a missing value: NaN, NA, NaT *)
| PStr (s : string)
| PInt (n : Z)
| PFloat (x : float)
| PBool (b : bool)
| PDate (d : date).

Definition two_digits (n : Z) : string := PyFloat.pad_left 2 (Py.str_of_Z n).
Definition four_digits (n : Z) : string := PyFloat.pad_left 4 (Py.str_of_Z n).

(** [str(v)]. *)
Definition py_str (v : pyval) : string :=
  match v with
  | PNone => "None"
  | PNaN => "nan"
  | PStr s => s
  | PInt n => Py.str_of_Z n
  | PFloat x => PyFloat.repr x
  | PBool b => if b then "True" else "False"
  | PDate d =>
      four_digits (year d) ++ "-" ++ two_digits (month d) ++ "-"
      ++ two_digits (day d) ++ " 00:00:00"
  end.

(** [pd.isna(v)] and [pd.notna(v)] on a scalar. *)
Definition isna (v : pyval) : bool :=
  match v with
  | PNone | PNaN => true
  | PFloat x => PrimFloat.is_nan x
  | _ => false
  end.

Definition notna (v : pyval) : bool := negb (isna v).

(** [bool(v)]. *)
Definition truthy (v : pyval) : bool :=
  match v with
  | PNone => false
  | PNaN => true
  | PStr s => negb (Py.is_empty s)
  | PInt n => negb (n =? 0)
  | PFloat x => negb (PrimFloat.is_zero x)
  | PBool b => b
  | PDate _ => true
  end.

(** A row of a table: column label to value, in column order. *)
Definition row := list (string * pyval).

Fixpoint lookup (r : row) (k : string) : option pyval :=
  match r with
  | [] => None
  | (k', v) :: t => if String.eqb k' k then Some v else lookup t k
  end.

(** [row.get(k, default)]; [row.get(k)] is [get r k PNone]. *)
Definition get (r : row) (k : string) (default : pyval) : pyval :=
  match lookup r k with Some v => v | None => default end.

(* ================================================================== *)
(** ** Tables *)

Module Frame.

(** A pandas [DataFrame]: its column labels and its rows; every row has an
    entry for every column. *)
Record frame := mkFrame { columns : list string; rows : list row }.

Definition has_col (df : frame) (c : string) : bool := Py.mem c (columns df).

Fixpoint set (r : row) (k : string) (v : pyval) : row :=
  match r with
  | [] => [(k, v)]
  | (k', v') :: t =>
      if String.eqb k' k then (k, v) :: t else (k', v') :: set t k v
  end.

(** [df[c] = ...], computed row by row. *)
Definition assign (df : frame) (c : string) (f : row -> pyval) : frame :=
  mkFrame (if has_col df c then columns df else (columns df ++ [c])%list)
          (map (fun r => set r c (f r)) (rows df)).

(** [df.drop(columns=[c], errors='ignore')]. *)
Definition drop (df : frame) (c : string) : frame :=
  mkFrame (filter (fun c' => negb (String.eqb c' c)) (columns df))
          (map (filter (fun kv : string * pyval => negb (String.eqb (fst kv) c)))
               (rows df)).

(** Equality of two join keys; both key columns hold texts. *)
Definition key_eqb (a b : pyval) : bool :=
  match a, b with
  | PStr x, PStr y => String.eqb x y
  | _, _ => false
  end.

(** [pd.merge(left, right, left_on, right_on, how='left')]: every left row
    once per matching right row, and once with missing values when no
    right row matches. *)
Definition merge_left (left right : frame) (left_on right_on : string) : frame :=
  mkFrame
    (columns left ++ columns right)%list
    (flat_map
       (fun l =>
          match
            filter (fun r => key_eqb (get l left_on PNaN) (get r right_on PNaN))
                   (rows right)
          with
          | [] => [(l ++ map (fun c => (c, PNaN)) (columns right))%list]
          | matches => map (fun r => (l ++ r)%list) matches
          end)
       (rows left)).

(** [df[c] = df[c].fillna(v)]. *)
Definition fillna (df : frame) (c : string) (v : pyval) : frame :=
  assign df c (fun r => let x := get r c PNaN in if isna x then v else x).

(** [df[c].astype(str).str.strip().str.lower()] on one value. *)
Definition text_key (v : pyval) : pyval := PStr (Py.lower (Py.strip (py_str v))).

End Frame.

(* ================================================================== *)
(** ** targeting.py: branch-table validators *)

Module Targeting.

(** [check_line_item_type]: the line-item type read off the name's prefix,
    and whether the name holds [_RM_]. *)
Definition check_line_item_type (line_item_name : pyval) : option string * bool :=
  match line_item_name with
  | PStr name =>
      let name := Py.strip (Py.upper name) in
      let is_rm := Py.contains "_RM_" name in
      if Py.startswith name "MOA_" then (Some "MOA", is_rm)
      else if Py.startswith name "CTV_" then (Some "CTV", is_rm)
      else if Py.startswith name "MOW_" then (Some "MOW", is_rm)
      else if Py.startswith name "DE_" then (Some "DE", is_rm)
      else (None, is_rm)
  | _ => (None, false)
  end.

(** Whether the name, read as [check_line_item_type] reads it (upper-cased
    and trimmed), starts with one of the four platform prefixes. *)
Definition has_platform_prefix (line_item_name : pyval) : bool :=
  match line_item_name with
  | PStr name =>
      existsb (Py.startswith (Py.strip (Py.upper name))) ["MOA_"; "MOW_"; "DE_"; "CTV_"]
  | _ => false
  end.

(** [line_type in [a, b]] for the optional type. *)
Definition type_in (t : option string) (ts : list string) : bool :=
  match t with Some s => Py.mem s ts | None => false end.

Fixpoint insert_sorted (s : string) (l : list string) : list string :=
  match l with
  | [] => [s]
  | h :: t => if String.leb s h then s :: l else h :: insert_sorted s t
  end.

(** [sorted(values)] on strings. *)
Definition sorted (l : list string) : list string :=
  fold_right insert_sorted [] l.

(** A list in ascending order, as [sorted] leaves it. *)
Inductive ascending : list string -> Prop :=
| ascending_nil : ascending []
| ascending_cons (x : string) (l : list string) :
    (forall y, In y l -> String.leb x y = true) -> ascending l -> ascending (x :: l).

(** One item of a list value: trimmed, lower-cased, and a numeric item
    rewritten without a trailing [.0]. *)
Definition normalize_item (v : string) : string :=
  let v := Py.lower (Py.strip v) in
  match PyFloat.py_float v with
  | Some x =>
      if PyFloat.is_integer x then Py.str_of_Z (PyFloat.trunc x)
      else PyFloat.repr x
  | None => v
  end.

(** [normalize_list_values]. *)
Definition normalize_list_values (value : pyval) : string :=
  if isna value then ""
  else
    match value with
    | PStr EmptyString => ""
    | _ =>
        let text :=
          match value with
          | PInt n => Py.str_of_Z n
          | PBool b => if b then "1" else "0"
          | PFloat x =>
              if PyFloat.is_integer x then Py.str_of_Z (PyFloat.trunc x)
              else PyFloat.repr x
          | _ => py_str value
          end in
        Py.join ";" (sorted (map normalize_item (Py.split_on ";" text)))
    end.

Definition subset (a b : list string) : bool :=
  forallb (fun x => Py.mem x b) a.

(** [compare_lists]: equality as sets of the normalized items. *)
Definition compare_lists (actual expected : pyval) : bool :=
  if isna actual && isna expected then true
  else
    let actual_norm := normalize_list_values actual in
    let expected_norm := normalize_list_values expected in
    if Py.is_empty actual_norm && Py.is_empty expected_norm then true
    else
      let actual_set :=
        if Py.is_empty actual_norm then [] else Py.split_on ";" actual_norm in
      let expected_set :=
        if Py.is_empty expected_norm then [] else Py.split_on ";" expected_norm in
      subset actual_set expected_set && subset expected_set actual_set.

(** The nested helper [is_effectively_empty]. *)
Definition is_effectively_empty (value : pyval) : bool :=
  negb (truthy value) || isna value
  || Py.is_empty (Py.strip (py_str value))
  || String.eqb (Py.strip (Py.lower (py_str value))) "nan".

(** [validate_app_bundle_list]. *)
Definition validate_app_bundle_list (r : row) : bool :=
  let '(line_type, is_rm) := check_line_item_type (get r "Line Item Name" PNone) in
  let app_bundle := get r "Exclude App Bundle List" PNone in
  let advertiser_id := Py.strip (py_str (get r "Advertiser ID" (PStr ""))) in
  let lda_compliant := Py.lower (Py.strip (py_str (get r "brief_lda_compliant" (PStr "")))) in
  if type_in line_type ["MOA"; "CTV"] then
    if String.eqb lda_compliant "yes" then compare_lists app_bundle (PStr "353")
    else
      let expected_values :=
        (["174"]
         ++ (if is_rm && type_in line_type ["MOA"] then ["1351"] else [])
         ++ (if String.eqb advertiser_id "90" then ["1358"] else []))%list in
      compare_lists app_bundle (PStr (Py.join ";" expected_values))
  else if type_in line_type ["MOW"; "DE"] then is_effectively_empty app_bundle
  else false.

(** [validate_domain_list]. *)
Definition validate_domain_list (r : row) : bool :=
  let '(line_type, is_rm) := check_line_item_type (get r "Line Item Name" PNone) in
  let domain_list := get r "Exclude Domain List ID" PNone in
  let advertiser_id := Py.strip (py_str (get r "Advertiser ID" (PStr ""))) in
  let lda_compliant := Py.lower (Py.strip (py_str (get r "brief_lda_compliant" (PStr "")))) in
  if type_in line_type ["MOW"; "DE"] then
    if String.eqb lda_compliant "yes" then compare_lists domain_list (PStr "352")
    else
      let expected_values :=
        (["94"]
         ++ (if is_rm && type_in line_type ["MOW"] then ["1352"] else [])
         ++ (if String.eqb advertiser_id "90" then ["1357"] else []))%list in
      compare_lists domain_list (PStr (Py.join ";" expected_values))
  else if type_in line_type ["MOA"; "CTV"] then is_effectively_empty domain_list
  else false.

(** [validate_environment_type]. *)
Definition validate_environment_type (r : row) : bool :=
  let '(line_type, _) := check_line_item_type (get r "Line Item Name" PNone) in
  let env_type := Py.strip (py_str (get r "Include Environment Type" (PStr ""))) in
  if type_in line_type ["MOA"; "CTV"] then String.eqb env_type "1"
  else if type_in line_type ["MOW"; "DE"] then String.eqb env_type "0"
  else false.

(** The nested helper [is_empty] of [validate_operating_system], on the
    text of a cell. *)
Definition is_empty (value : string) : bool :=
  Py.is_empty value || String.eqb (Py.lower value) "nan".

(** [validate_operating_system]. *)
Definition validate_operating_system (r : row) : bool :=
  let '(line_type, _) := check_line_item_type (get r "Line Item Name" PNone) in
  let os_value := Py.strip (py_str (get r "Include Operating System" (PStr ""))) in
  let device_type := Py.strip (py_str (get r "Include Device Type" (PStr ""))) in
  if type_in line_type ["CTV"] then
    if negb (is_empty os_value) then false
    else if is_empty device_type then false
    else compare_lists (PStr device_type) (PStr "6;3;8;7")
  else if type_in line_type ["MOA"; "MOW"] then
    if negb (is_empty device_type) then false
    else if is_empty os_value then false
    else compare_lists (PStr os_value) (PStr "android;ios")
  else if type_in line_type ["DE"] then
    if negb (is_empty device_type) then false
    else if is_empty os_value then false
    else compare_lists (PStr os_value) (PStr "os x;windows;chrome os")
  else false.

(** A row whose line item carries no platform prefix. *)
Definition unnamed_prefix_row : row :=
  [("Line Item Name", PStr "XX_SBV_Q1_24_BA_"); ("Exclude App Bundle List", PStr "174");
   ("Exclude Domain List ID", PStr "94"); ("Include Environment Type", PInt 1)].

End Targeting.

(* ================================================================== *)
(** ** name_assign.py: naming rules *)

Module NameAssign.

(** A brief section in Field/Value shape ([campaign_data]); [None] when the
    section is absent. *)
Definition field_table := option (list (pyval * pyval)).

(** [get_field_value(df, field_pattern, default)]: the value of the first
    row whose field holds the pattern, case-insensitively. *)
Definition get_field_value (df : field_table) (field_pattern : string)
    (default : pyval) : pyval :=
  match df with
  | None => default
  | Some rows =>
      match
        find (fun fv => Py.contains (Py.upper field_pattern) (Py.upper (py_str (fst fv))))
             rows
      with
      | Some (_, value) => if notna value then value else default
      | None => default
      end
  end.

(** [extract_product_type_shortform]. *)
Definition short_forms : list (string * string) :=
  [ ("all outlet rewards", "AOR"); ("ad2ecomm", "A2E"); ("ad2survey", "A2S");
    ("connected tv", "CTV"); ("sequential", "SQ"); ("volume maximizer", "VMR");
    ("standard bv", "SBV"); ("post campaign measurement", "PCM");
    ("circular personalizer", "CircP"); ("price promoter", "CircP_PP");
    ("trip driver", "CircP_TD") ].

Definition extract_product_type_shortform (product_type : pyval) : option string :=
  match product_type with
  | PStr s =>
      let product_type := Py.lower (Py.strip s) in
      if Py.contains "price promoter" product_type then Some "CircP_PP"
      else if Py.contains "trip driver" product_type then Some "CircP_TD"
      else
        match find (fun kf => Py.contains (fst kf) product_type) short_forms with
        | Some (_, form) => Some form
        | None =>
            if Py.contains "bv" product_type && Py.contains "standard" product_type
            then Some "SBV"
            else None
        end
  | _ => None
  end.

(** The short forms [main] derives from the account's product-type text:
    one per part between the delimiters [;,|/+], without repeats. *)
Definition derive_product_short_forms (product_type : pyval) : list string :=
  if notna product_type then
    let text := Py.strip (py_str product_type) in
    fold_left
      (fun acc pt =>
         let pt := Py.strip pt in
         if Py.is_empty pt then acc
         else match extract_product_type_shortform (PStr pt) with
              | Some short_form =>
                  if Py.is_empty short_form || Py.mem short_form acc then acc
                  else (acc ++ [short_form])%list
              | None => acc
              end)
      (Py.split_by (Py.one_of ";,|/+") text) []
  else [].

(** The HUB, IFO and LDA flags [main] reads off the campaign section. *)
Definition derive_is_hub (campaign_data : field_table) : bool :=
  match get_field_value campaign_data "Measurement Type" PNone with
  | PStr m => negb (Py.is_empty m) && Py.contains "HUB:" (Py.upper m)
  | _ => false
  end.

Definition derive_is_ifo (campaign_data : field_table) : bool :=
  match get_field_value campaign_data "Measurement Type" PNone with
  | PStr m =>
      negb (Py.is_empty m)
      && (Py.contains "IFO:" (Py.upper m)
          || Py.contains "IN-FLIGHT OPTIMIZATION" (Py.upper m))
  | _ => false
  end.

Definition derive_is_lda_required (campaign_data : field_table) : bool :=
  match get_field_value campaign_data "LDA or Age Compliant" PNone with
  | PStr v => negb (Py.is_empty v) && String.eqb (Py.lower (Py.strip v)) "yes"
  | _ => false
  end.

(** [extract_viewability_percentage]. *)

(** The first [n] characters of a text when they are digits, and the rest. *)
Fixpoint digits_then (n : nat) (s : string) : option (string * string) :=
  match n with
  | O => Some (EmptyString, s)
  | S k =>
      match s with
      | String c t =>
          if Py.is_digit c then
            match digits_then k t with
            | Some (ds, rest) => Some (String c ds, rest)
            | None => None
            end
          else None
      | EmptyString => None
      end
  end.

Definition first_of {A : Type} (tries : list (option A)) : option A :=
  fold_right (fun a later => match a with Some _ => a | None => later end) None tries.

(** A match of [(\d{1,3})\s*%] at the start of the text: the longest run
    of one to three digits that blanks and a percent sign follow. *)
Definition percent_at (s : string) : option string :=
  first_of
    (map (fun n =>
            match digits_then n s with
            | Some (ds, rest) =>
                if Py.startswith (Py.lstrip_by Py.is_space rest) "%" then Some ds else None
            | None => None
            end)
         [3%nat; 2%nat; 1%nat]).

(** [re.search(r'(\d{1,3})\s*%', s)]: the digits of the leftmost match. *)
Fixpoint search_percent (s : string) : option string :=
  match percent_at s with
  | Some ds => Some ds
  | None =>
      match s with
      | String _ t => search_percent t
      | EmptyString => None
      end
  end.

(** A character of a word, [\w]. *)
Definition is_word (c : ascii) : bool := Py.is_alnum c || Ascii.eqb c "_".

(** A match of [(\d{1,3})\b] at the start of the text. *)
Definition number_at (s : string) : option string :=
  first_of
    (map (fun n =>
            match digits_then n s with
            | Some (ds, rest) =>
                match rest with
                | String c _ => if is_word c then None else Some ds
                | EmptyString => Some ds
                end
            | None => None
            end)
         [3%nat; 2%nat; 1%nat]).

(** [re.search(r'\b(\d{1,3})\b', s)], the text read from a position whose
    previous character is a character of a word or not. *)
Fixpoint search_number (after_word : bool) (s : string) : option string :=
  match (if after_word then None else number_at s) with
  | Some ds => Some ds
  | None =>
      match s with
      | String c t => search_number (is_word c) t
      | EmptyString => None
      end
  end.

(** A percentage read by a pattern is kept when it is in range. *)
Definition in_percent_range (found : option string) : option Z :=
  match found with
  | Some ds =>
      let percentage := PyFloat.Z_of_digits (list_ascii_of_string ds) in
      if (0 <=? percentage) && (percentage <=? 100) then Some percentage else None
  | None => None
  end.

Definition extract_viewability_percentage (viewability_text : pyval) : option Z :=
  match viewability_text with
  | PStr text =>
      let input_str := Py.strip text in
      if Py.is_empty input_str then None
      else
        let from_decimal :=
          match PyFloat.py_float input_str with
          | Some float_val =>
              if PrimFloat.ltb 0 float_val && PrimFloat.leb float_val 1 then
                Some (PyFloat.trunc (PrimFloat.mul float_val 100))
              else if PrimFloat.ltb 1 float_val && PrimFloat.leb float_val 100 then
                if PyFloat.is_integer float_val then Some (PyFloat.trunc float_val) else None
              else None
          | None => None
          end in
        first_of
          [ from_decimal;
            in_percent_range (search_percent text);
            in_percent_range (search_number false input_str) ]
  | _ => None
  end.

(** The goals of the sweeps below: a whole percentage with a percent sign,
    with a blank before the sign, and alone; and a decimal fraction of two
    digits. *)
Definition percent_texts_ok (n : Z) : bool :=
  let gives (text : string) (p : Z) :=
    match extract_viewability_percentage (PStr text) with
    | Some q => q =? p
    | None => false
    end in
  gives (Py.str_of_Z n ++ "%") n
  && gives (" " ++ Py.str_of_Z n ++ " %") n
  && gives (Py.str_of_Z n) (if n =? 1 then 100 else n).

Definition truncated_goals : list Z := [29; 57; 58].

Definition decimal_text_ok (k : Z) : bool :=
  match extract_viewability_percentage (PStr ("0." ++ two_digits k)) with
  | Some q => q =? (if existsb (Z.eqb k) truncated_goals then k - 1 else k)
  | None => false
  end.

(** [extract_platform_media_type]. *)
Definition extract_platform_media_type (platform_media_text : pyval)
    : option string * option string :=
  match platform_media_text with
  | PStr s =>
      let text := Py.strip s in
      match Py.split_once "/" text with
      | Some (a, b) => (Some (Py.lower (Py.strip a)), Some (Py.lower (Py.strip b)))
      | None =>
          let text_lower := Py.lower text in
          let platform :=
            if Py.contains "mobile" text_lower then Some "mobile"
            else if Py.contains "desktop" text_lower then Some "desktop"
            else if Py.contains "ctv" text_lower || Py.contains "connected tv" text_lower
            then Some "ctv"
            else None in
          let media_type :=
            if Py.contains "banner" text_lower then Some "banner"
            else if Py.contains "rich media" text_lower then Some "rich media"
            else if Py.contains "video" text_lower then Some "video"
            else None in
          (platform, media_type)
      end
  | _ => (None, None)
  end.

(** [get_platform_prefix] and [get_media_type_code]. *)
Definition get_platform_prefix (platform : option string) : option (list string) :=
  match platform with
  | None => None
  | Some p =>
      let platform := Py.lower p in
      if Py.contains "mobile" platform then Some ["MOA_"; "MOW_"; "MO_"]
      else if Py.contains "desktop" platform then Some ["DE_"]
      else if Py.contains "ctv" platform then Some ["CTV_"]
      else None
  end.

Definition get_media_type_code (media_type : option string) : option string :=
  match media_type with
  | None => None
  | Some m =>
      let media_type := Py.lower m in
      if Py.contains "banner" media_type then Some "_BA_"
      else if Py.contains "rich media" media_type then Some "_RM_"
      else if Py.contains "video" media_type then Some "_VI_"
      else None
  end.

Inductive check_type := Campaign | LineItem | Creative.

(** The [checks] dictionary of [check_naming_format]. The year pattern is
    the pair of alternatives of the pattern [_YYYY|_YY] that [main] builds
    from the campaign year. *)
Record checks := mkChecks {
  c_type : option check_type;
  year_pattern : option (string * string);
  quarter_required : bool;
  product_short_forms : list string;
  is_hub : bool;
  is_ifo : bool;
  is_lda_required : bool;
  viewability_perc : option Z;
  is_geo_required : option bool;
  platform_prefixes : option (list string);
  media_type_code : option string;
  li_has_geo : bool;
  li_platform_prefix : option string;
  li_platform : option string;
  measurement_type_str_brief : pyval;
  li_media_type_code : option string
}.

(** The [results] dictionary: [true] is an issue found. *)
Record results := mkResults {
  has_issues : bool;
  has_spaces : bool;
  has_special_chars : bool;
  missing_quarter : bool;
  missing_year : bool;
  missing_product_type : bool;
  missing_hub_ifo_tag : list string;
  missing_lda : bool;
  missing_viewability : bool;
  geo_mismatch : bool;
  platform_mismatch : bool;
  media_type_mismatch : bool
}.

Definition allowed_char (c : ascii) : bool :=
  Py.is_alnum c || Ascii.eqb c "_" || Ascii.eqb c " ".

Fixpoint all_chars (p : ascii -> bool) (s : string) : bool :=
  match s with
  | EmptyString => true
  | String c t => p c && all_chars p t
  end.

(** [re.search(r'_Q[1-4]_', s)]. *)
Definition has_quarter (s : string) : bool :=
  existsb (fun q => Py.contains q s) ["_Q1_"; "_Q2_"; "_Q3_"; "_Q4_"].

(** The three accepted spellings of the viewability token. *)
Definition has_viewability (pct : Z) (name_upper : string) : bool :=
  let pct_str := Py.str_of_Z pct in
  Py.contains ("_" ++ pct_str ++ "_VIEWABILITY_") name_upper
  || Py.contains ("_" ++ pct_str ++ "VIEWABILITY_") name_upper
  || Py.contains ("_" ++ pct_str ++ "_") name_upper.

Definition viewability_missing (c : checks) (name_upper : string) : bool :=
  match viewability_perc c with
  | Some pct => negb (pct =? 0) && negb (has_viewability pct name_upper)
  | None => false
  end.

Definition str_truthy (o : option string) : option string :=
  match o with
  | Some s => if Py.is_empty s then None else Some s
  | None => None
  end.

(** Whether the special rule for mobile line items outside HUB applies. *)
Definition is_non_hub_mobile (c : checks) : bool :=
  match li_platform c with
  | Some p =>
      String.eqb p "mobile"
      && match measurement_type_str_brief c with
         | PStr m => negb (Py.contains "HUB" (Py.upper m))
         | _ => true
         end
  | None => false
  end.

(** [check_naming_format(name, checks)]: the dictionary of results (the
    list of messages it also returns is left out). *)
Definition check_naming_format (name : pyval) (c : checks) : results :=
  let blank := mkResults true false false false false false [] false false false false false in
  match name with
  | PStr raw =>
      if Py.is_empty (Py.strip raw) then blank
      else
        let name := Py.strip raw in
        let name_upper := Py.upper name in
        let spaces := Py.contains " " name in
        let special := negb (all_chars allowed_char name) in
        let quarter := quarter_required c && negb (has_quarter name_upper) in
        let yr :=
          match year_pattern c with
          | Some (full, short) =>
              negb (Py.contains (Py.upper full) name_upper
                    || Py.contains (Py.upper short) name_upper)
          | None => false
          end in
        let product :=
          match c_type c with
          | Some Campaign =>
              match product_short_forms c with
              | [] => false
              | forms =>
                  negb (existsb
                          (fun form => Py.contains ("_" ++ Py.upper form ++ "_") name_upper)
                          forms)
              end
          | _ => false
          end in
        let tags :=
          match c_type c with
          | Some Campaign =>
              ((if is_hub c && negb (Py.contains "_INFMT_" name_upper) then ["INFMT"] else [])
               ++ (if is_ifo c && negb (Py.contains "_IFO_" name_upper) then ["IFO"] else []))%list
          | _ => []
          end in
        let lda :=
          match c_type c with
          | Some Campaign => is_lda_required c && negb (Py.contains "_LDA_" name_upper)
          | _ => false
          end in
        let view :=
          match c_type c with
          | Some Campaign | Some LineItem => viewability_missing c name_upper
          | _ => false
          end in
        let geo :=
          match c_type c with
          | Some LineItem =>
              let has_geo_in_name := Py.contains "_GEO_" name_upper in
              match is_geo_required c with
              | Some true => negb has_geo_in_name
              | Some false => has_geo_in_name
              | None => false
              end
          | Some Creative =>
              let creative_has_geo := Py.contains "_GEO_" name_upper in
              if li_has_geo c then negb creative_has_geo else creative_has_geo
          | _ => false
          end in
        let platform :=
          match c_type c with
          | Some LineItem =>
              match platform_prefixes c with
              | Some (pfx :: rest) =>
                  negb (existsb (fun pfx => Py.startswith name_upper (Py.upper pfx))
                                (pfx :: rest))
              | _ => false
              end
          | Some Creative =>
              match str_truthy (li_platform_prefix c) with
              | Some li_prefix =>
                  let creative_starts_with_li_prefix :=
                    Py.startswith name_upper (Py.upper li_prefix) in
                  let creative_starts_with_mo := Py.startswith name_upper "MO_" in
                  if is_non_hub_mobile c && Py.mem li_prefix ["MOA_"; "MOW_"] then
                    negb (creative_starts_with_li_prefix || creative_starts_with_mo)
                  else negb creative_starts_with_li_prefix
              | None => false
              end
          | _ => false
          end in
        let media :=
          match c_type c with
          | Some LineItem =>
              match str_truthy (media_type_code c) with
              | Some code => negb (Py.contains (Py.upper code) name_upper)
              | None => false
              end
          | Some Creative =>
              match str_truthy (li_media_type_code c) with
              | Some code => negb (Py.contains (Py.upper code) name_upper)
              | None => false
              end
          | _ => false
          end in
        let any_issue :=
          spaces || special || quarter || yr || product || lda || view || geo
          || platform || media
          || match tags with [] => false | _ => true end in
        mkResults any_issue spaces special quarter yr product tags lda view geo
                  platform media
  | _ => blank
  end.

(** What [main] reads off the brief once, before the rows are checked. *)
Record brief := mkBrief {
  b_year_pattern : option (string * string);
  b_product_short_forms : list string;
  b_is_hub : bool;
  b_is_ifo : bool;
  b_is_lda_required : bool;
  b_viewability_perc : option Z;
  b_measurement_type : pyval
}.

Definition no_checks (t : check_type) (b : brief) : checks :=
  mkChecks (Some t) (b_year_pattern b) true [] false false false
           (b_viewability_perc b) None None None false None None PNone None.

(** [campaign_checks_config]. *)
Definition campaign_checks_config (b : brief) : checks :=
  mkChecks (Some Campaign) (b_year_pattern b) true (b_product_short_forms b)
           (b_is_hub b) (b_is_ifo b) (b_is_lda_required b) (b_viewability_perc b)
           None None None false None None PNone None.

(** The geo flag of a row as a boolean: [None] when the text is neither
    an affirmative nor a negative. *)
Definition geo_required_bool (geo_raw : pyval) : option bool :=
  match geo_raw with
  | PStr s =>
      let geo_text := Py.lower (Py.strip s) in
      if Py.mem geo_text ["yes"; "true"; "y"; "1"] then Some true
      else if Py.mem geo_text ["no"; "false"; "n"; "0"; ""] then Some false
      else None
  | _ => None
  end.

(** Platform and media type of the row's line item, from the brief's
    platform/media text. *)
Definition row_platform_media (r : row) : option string * option string :=
  match get r "brief_platform_media" (PStr "N/A") with
  | PStr s =>
      if String.eqb s "N/A" then (None, None)
      else extract_platform_media_type (PStr s)
  | _ => (None, None)
  end.

(** [li_checks_config]. *)
Definition li_checks_config (b : brief) (r : row) : checks :=
  let '(platform, media_type) := row_platform_media r in
  mkChecks (Some LineItem) (b_year_pattern b) true [] false false false
           (b_viewability_perc b)
           (geo_required_bool (get r "brief_geo_required" (PStr "N/A")))
           (get_platform_prefix platform) (get_media_type_code media_type)
           false None None PNone None.

(** [li_props_for_creative]: what the creative check takes over from the
    row's line item. *)
Record li_props := mkLiProps {
  p_li_has_geo : bool;
  p_li_platform_prefix : option string;
  p_li_platform : option string;
  p_li_media_type_code : option string
}.

Definition li_props_for_creative (r : row) : li_props :=
  let line_item_name := py_str (get r "line_item_name" (PStr "")) in
  if Py.is_empty line_item_name then mkLiProps false None None None
  else
    let '(platform, media_type) := row_platform_media r in
    let name_upper := Py.upper line_item_name in
    mkLiProps
      (Py.contains "_GEO_" name_upper)
      (match get_platform_prefix platform with
       | Some (pfx :: rest) =>
           find (fun pfx => Py.startswith name_upper (Py.upper pfx)) (pfx :: rest)
       | _ => None
       end)
      platform
      (match str_truthy (get_media_type_code media_type) with
       | Some code =>
           if Py.contains (Py.upper code) name_upper then Some code else None
       | None => None
       end).


(** [creative_checks_config]. *)
Definition creative_checks_config (b : brief) (r : row) : checks :=
  let props := li_props_for_creative r in
  mkChecks (Some Creative) (b_year_pattern b) true [] false false false
           (b_viewability_perc b) None None None
           (p_li_has_geo props) (p_li_platform_prefix props) (p_li_platform props)
           (if notna (b_measurement_type b) then b_measurement_type b else PStr "N/A")
           (p_li_media_type_code props).

(** The three name checks of one merged row; a check is run when the name,
    as text, is not empty. *)
Definition check_name (r : row) (column : string) (c : checks) : option results :=
  let name := py_str (get r column (PStr "")) in
  if Py.is_empty name then None else Some (check_naming_format (PStr name) c).

Definition check_campaign_name (b : brief) (r : row) : option results :=
  check_name r "campaign_name" (campaign_checks_config b).

Definition check_line_item_name (b : brief) (r : row) : option results :=
  check_name r "line_item_name" (li_checks_config b r).

Definition check_creative_name (b : brief) (r : row) : option results :=
  check_name r "creative_name" (creative_checks_config b r).

(** The joins of [main] (lines 907-997): the line items ([qa_df]) against
    the brief's Target records prepared as [target_data_to_merge] (columns
    [merge_key_bvt_tg], [brief_bvp_id], [brief_platform_media]) and then
    against its Placement records prepared as [placement_data_to_merge]
    (columns [merge_key_bvp_pl], [brief_geo_required]). Where the first
    join is skipped the placeholder is pandas' [NA], whose text is [<NA>]
    where NaN's is [nan]. *)
Definition na_text (placeholder : bool) (v : pyval) : string :=
  if placeholder && isna v then "<NA>" else py_str v.

Definition add_if_absent (df : Frame.frame) (c : string) (v : pyval) : Frame.frame :=
  if Frame.has_col df c then df else Frame.assign df c (fun _ => v).

Definition merge_brief (qa_df : Frame.frame)
    (target_data_to_merge placement_data_to_merge : option Frame.frame) : Frame.frame :=
  let qa_df :=
    Frame.assign qa_df "line_item_alternative_id"
      (fun r => Frame.text_key (get r "line_item_alternative_id" PNaN)) in
  let skipped :=
    add_if_absent (add_if_absent qa_df "brief_bvp_id" PNaN) "brief_platform_media" PNaN in
  let '(merged_df, placeholder) :=
    match target_data_to_merge with
    | Some t =>
        if Frame.has_col t "merge_key_bvt_tg" then
          let t :=
            Frame.assign t "merge_key_bvt_tg"
              (fun r => Frame.text_key (get r "merge_key_bvt_tg" PNaN)) in
          (Frame.drop
             (Frame.merge_left qa_df t "line_item_alternative_id" "merge_key_bvt_tg")
             "merge_key_bvt_tg", false)
        else (skipped, negb (Frame.has_col qa_df "brief_bvp_id"))
    | None => (skipped, negb (Frame.has_col qa_df "brief_bvp_id"))
    end in
  let merged_df :=
    match placement_data_to_merge with
    | Some p =>
        if Frame.has_col p "merge_key_bvp_pl" && Frame.has_col merged_df "brief_bvp_id" then
          let merged_df :=
            Frame.assign merged_df "brief_bvp_id"
              (fun r =>
                 PStr (Py.lower (Py.strip (na_text placeholder (get r "brief_bvp_id" PNaN))))) in
          let p :=
            Frame.assign p "merge_key_bvp_pl"
              (fun r => Frame.text_key (get r "merge_key_bvp_pl" PNaN)) in
          Frame.drop (Frame.merge_left merged_df p "brief_bvp_id" "merge_key_bvp_pl")
                     "merge_key_bvp_pl"
        else add_if_absent merged_df "brief_geo_required" PNaN
    | None => add_if_absent merged_df "brief_geo_required" PNaN
    end in
  fold_left
    (fun df col =>
       if Frame.has_col df col then Frame.fillna df col (PStr "N/A")
       else Frame.assign df col (fun _ => PStr "N/A"))
    ["brief_bvp_id"; "brief_platform_media"; "brief_geo_required"] merged_df.

(** One step of the last loop of the joins: the column is filled. *)
Definition fill_step (df : Frame.frame) (col : string) : Frame.frame :=
  if Frame.has_col df col then Frame.fillna df col (PStr "N/A")
  else Frame.assign df col (fun _ => PStr "N/A").

(** The inputs as [main] hands them to the joins: the QA report has its
    alternate-id column and none of the columns the joins add; the Target
    and Placement tables, where present, have the renamed columns. *)
Definition same_columns (a b : list string) : bool :=
  if list_eq_dec string_dec a b then true else false.

Definition prepared (qa_df : Frame.frame)
    (target_data_to_merge placement_data_to_merge : option Frame.frame) : bool :=
  Frame.has_col qa_df "line_item_alternative_id"
  && forallb (fun c => negb (Frame.has_col qa_df c))
             ["merge_key_bvt_tg"; "brief_bvp_id"; "brief_platform_media";
              "merge_key_bvp_pl"; "brief_geo_required"]
  && match target_data_to_merge with
     | Some t =>
         same_columns (Frame.columns t)
                      ["merge_key_bvt_tg"; "brief_bvp_id"; "brief_platform_media"]
     | None => true
     end
  && match placement_data_to_merge with
     | Some p => same_columns (Frame.columns p) ["merge_key_bvp_pl"; "brief_geo_required"]
     | None => true
     end.

(** Sample inputs. *)
Definition qa_unmatched : Frame.frame :=
  Frame.mkFrame ["line_item_name"; "line_item_alternative_id"]
    [[("line_item_name", PStr "MOA_SBV_Q1_24_GEO_BA_");
      ("line_item_alternative_id", PStr "BVT000000001")]].

Definition target_other : Frame.frame :=
  Frame.mkFrame ["merge_key_bvt_tg"; "brief_bvp_id"; "brief_platform_media"]
    [[("merge_key_bvt_tg", PStr "BVT000000002"); ("brief_bvp_id", PStr "BVP000000002");
      ("brief_platform_media", PStr "Mobile/Banner")]].

Definition placement_other : Frame.frame :=
  Frame.mkFrame ["merge_key_bvp_pl"; "brief_geo_required"]
    [[("merge_key_bvp_pl", PStr "BVP000000002"); ("brief_geo_required", PStr "Yes")]].

Definition sample_brief : brief :=
  mkBrief (Some ("_2024", "_24")) ["SBV"] false false false None (PStr "Standard").

Definition unmatched_geo_row : row :=
  [("line_item_name", PStr "MOA_SBV_Q1_24_GEO_BA_"); ("creative_name", PStr "MO_SBV_Q1_24_GEO_BA_");
   ("brief_platform_media", PStr "Mobile/Banner"); ("brief_geo_required", PStr "N/A")].

Definition unmatched_plain_row : row :=
  [("line_item_name", PStr "MOA_SBV_Q1_24_BA_"); ("creative_name", PStr "MO_SBV_Q1_24_BA_");
   ("brief_platform_media", PStr "Mobile/Banner"); ("brief_geo_required", PStr "N/A")].


Definition hub_campaign : field_table :=
  Some [(PStr "Measurement Type", PStr "HUB: Something");
        (PStr "LDA or Age Compliant", PStr "Yes")].

End NameAssign.

(* ================================================================== *)
(** ** targeting_general.py: bidding, joins and budget splits *)

Module TargetingGeneral.

(** [find_col_name]: the column whose trimmed, lower-cased label is the
    first of the possible names to be found; of two columns with one such
    label the later one is kept. *)
Definition find_col_name (columns possible_names : list string) : option string :=
  let norm (s : string) := Py.strip (Py.lower s) in
  let pick (name : string) :=
    fold_left (fun acc col => if String.eqb (norm col) (norm name) then Some col else acc)
              columns None in
  fold_left (fun acc name => match acc with Some _ => acc | None => pick name end)
            possible_names None.

(** [get_base_cpm]. *)
Definition get_base_cpm (platform_media geo_required lda_compliant : pyval) : option float :=
  let platform_media := Py.strip (Py.lower (py_str platform_media)) in
  let geo_required := Py.strip (Py.lower (py_str geo_required)) in
  let lda_compliant := Py.strip (Py.lower (py_str lda_compliant)) in
  if Py.startswith platform_media "mobile" then
    if Py.contains "banner" platform_media then
      Some (if String.eqb geo_required "yes" then 2.34 else 2.00)%float
    else if Py.contains "rich media" platform_media then Some 3.15%float
    else if Py.contains "video" platform_media then Some 6.30%float
    else None
  else if Py.startswith platform_media "desktop" then
    if Py.contains "banner" platform_media then
      Some (if String.eqb geo_required "yes" then 2.89 else 2.36)%float
    else if Py.contains "rich media" platform_media then Some 2.89%float
    else if Py.contains "video" platform_media then Some 7.35%float
    else None
  else if Py.startswith platform_media "ctv" then
    Some (if String.eqb lda_compliant "yes" then 19.00 else 17.00)%float
  else None.

(** [normalize_viewability_goal]: the goal as a percentage. *)
Definition normalize_viewability_goal (viewability_goal : pyval) : option float :=
  match PyFloat.py_float (Py.remove_char "%" (py_str viewability_goal)) with
  | Some value => Some (if PrimFloat.ltb value 1 then PrimFloat.mul value 100 else value)
  | None => None
  end.

(** The add-on tables: per platform/media key, the add-on of each range of
    viewability percentages. *)
Definition band (min_view max_view : Z) (addon_cpm : float) : Z * Z * float :=
  (min_view, max_view, addon_cpm).

Definition viewability_cpms : list (string * list (Z * Z * float)) :=
  [ ("mobile/banner",
     [band 60 74 0.15%float; band 75 84 0.40%float; band 85 94 1.43%float; band 95 100 2.47%float]);
    ("mobile/geo-targeting",
     [band 60 74 0.15%float; band 75 84 0.47%float; band 85 94 1.67%float; band 95 100 2.90%float]);
    ("mobile/rich media",
     [band 60 74 0.15%float; band 75 84 0.63%float; band 85 94 2.25%float; band 95 100 3.90%float]);
    ("mobile/video",
     [band 60 74 2.45%float; band 75 84 3.90%float; band 85 94 4.50%float; band 95 100 7.80%float]);
    ("desktop/banner",
     [band 60 74 0.45%float; band 75 84 0.83%float; band 85 94 2.95%float; band 95 100 5.06%float]);
    ("desktop/geo-targeting",
     [band 60 74 0.45%float; band 75 84 1.02%float; band 85 94 3.60%float; band 95 100 6.19%float]);
    ("desktop/rich media",
     [band 60 74 0.45%float; band 75 84 1.02%float; band 85 94 3.60%float; band 95 100 6.19%float]);
    ("desktop/video",
     [band 60 74 2.45%float; band 75 84 4.55%float; band 85 94 9.17%float; band 95 100 15.75%float]) ].

Definition in_range (viewability : float) (range : Z * Z * float) : bool :=
  let '(min_view, max_view, _) := range in
  PrimFloat.leb (PyFloat.float_of_Z min_view) viewability
  && PrimFloat.leb viewability (PyFloat.float_of_Z max_view).

(** [get_viewability_addon_cpm]: the add-on and the goal as shown. *)
Definition get_viewability_addon_cpm (platform_media viewability_goal : pyval)
    : float * string :=
  let platform_media := Py.strip (Py.lower (py_str platform_media)) in
  match normalize_viewability_goal viewability_goal with
  | None => (0%float, "N/A")
  | Some viewability =>
      let normalized_viewability := PyFloat.format_fixed 1 viewability ++ "%" in
      match find (fun kv => Py.startswith platform_media (fst kv)) viewability_cpms with
      | Some (_, platform_rules) =>
          match find (in_range viewability) platform_rules with
          | Some (_, _, addon_cpm) => (addon_cpm, normalized_viewability)
          | None => (0%float, "N/A")
          end
      | None => (0%float, "N/A")
      end
  end.

(** [extract_cpm_bid]: the bid of a blob of the shape [{"cpm_bid": x}]. *)
Definition extract_cpm_bid (value : pyval) : option float :=
  let value := Py.remove_char Py.dquote (Py.strip_by (Py.one_of "{}") (py_str value)) in
  match Py.split_on ":" value with
  | [key; text] =>
      if Py.contains "cpm_bid" key then PyFloat.py_float (Py.strip text) else None
  | _ => None
  end.

(** [validate_bidding_value]: whether the bid is the expected one, the
    expected CPM, the actual CPM and the goal as shown (the explanation
    text is left out). *)
Definition brief_field (r : row) (column : string) : pyval :=
  PStr (Py.strip (py_str (get r column (PStr "")))).

Definition validate_bidding_value (r : row) : bool * float * float * string :=
  let platform_media := brief_field r "brief_platform_media" in
  let geo_required := brief_field r "brief_geo_required" in
  let lda_compliant := brief_field r "brief_lda_compliant" in
  let viewability_goal := brief_field r "brief_viewability_goal" in
  let bidding_value := PStr (py_str (get r "Bidding Values" (PStr ""))) in
  match extract_cpm_bid bidding_value with
  | None => (false, 0%float, 0%float, "N/A")
  | Some actual_cpm =>
      match get_base_cpm platform_media geo_required lda_compliant with
      | None => (false, 0%float, actual_cpm, "N/A")
      | Some base_cpm =>
          let '(addon_cpm, normalized_viewability) :=
            get_viewability_addon_cpm platform_media viewability_goal in
          let expected_cpm := PrimFloat.add base_cpm addon_cpm in
          (PrimFloat.eqb expected_cpm actual_cpm, expected_cpm, actual_cpm,
           normalized_viewability)
      end
  end.

(** The four components of the answer. *)
Definition is_valid (a : bool * float * float * string) : bool := fst (fst (fst a)).
Definition expected_cpm (a : bool * float * float * string) : float := snd (fst (fst a)).
Definition actual_cpm (a : bool * float * float * string) : float := snd (fst a).

(** A bidding blob and a row of the spec's example. *)
Definition cpm_blob (bid : string) : string :=
  "{" ++ String Py.dquote ("cpm_bid" ++ String Py.dquote (": " ++ bid ++ "}")).

Definition mobile_banner_row (lda : pyval) (bid : string) : row :=
  [("brief_platform_media", PStr "Mobile/Banner"); ("brief_geo_required", PStr "No");
   ("brief_lda_compliant", lda); ("brief_viewability_goal", PStr "80%");
   ("Bidding Values", PStr (cpm_blob bid))].

Definition desktop_video_row : row :=
  [("brief_platform_media", PStr "Desktop/Video"); ("brief_geo_required", PStr "Yes");
   ("brief_lda_compliant", PStr "No"); ("brief_viewability_goal", PStr "0.7");
   ("Bidding Values", PStr (cpm_blob "9.8"))].

(** The text of a campaign budget: [check_campaign_budget_format] and
    [extract_campaign_budget]. *)
Fixpoint drop_prefix (p s : string) : option string :=
  match p, s with
  | EmptyString, _ => Some s
  | String a p', String b s' => if Ascii.eqb a b then drop_prefix p' s' else None
  | String _ _, EmptyString => None
  end.

Fixpoint span_digits (s : string) : string * string :=
  match s with
  | String c t =>
      if Py.is_digit c then let (ds, r) := span_digits t in (String c ds, r)
      else (EmptyString, s)
  | EmptyString => (EmptyString, EmptyString)
  end.

Definition newline : ascii := ascii_of_N 10.

(** The two fixed parts of the text of a budget dictionary, with the
    quote [q] around the keys and the blank [gap] after a colon or a comma:
    [{'lifetime': ] and [, 'daily': None}]. *)
Definition lifetime_key (q : ascii) (gap : string) : string :=
  "{" ++ String q ("lifetime" ++ String q (":" ++ gap)).

Definition daily_none (q : ascii) (gap : string) : string :=
  "," ++ gap ++ String q ("daily" ++ String q (":" ++ gap ++ "None}")).

(** [re.match(r'^\{"lifetime":\d+,"daily":None\}$', s)]; the dollar also
    matches before a final newline. *)
Definition budget_pattern (s : string) : bool :=
  match drop_prefix (lifetime_key Py.dquote "") s with
  | Some rest =>
      let (digits, rest) := span_digits rest in
      negb (Py.is_empty digits)
      && (String.eqb rest (daily_none Py.dquote "")
          || String.eqb rest (daily_none Py.dquote "" ++ String newline EmptyString))
  | None => false
  end.

Definition check_campaign_budget_format (value : pyval) : bool :=
  budget_pattern (Py.replace_char Py.squote Py.dquote (Py.remove_char " " (py_str value))).

(** [extract_campaign_budget]: the lifetime budget, or [None] when it is
    [None] in the text or when the text cannot be read. *)
Definition extract_campaign_budget (budget_str : pyval) : option Z :=
  match budget_str with
  | PStr s =>
      let text := Py.replace_char Py.squote Py.dquote (Py.strip_by (Py.one_of "{}") s) in
      match find (fun part => Py.contains "lifetime" part) (Py.split_on "," text) with
      | Some part =>
          match Py.split_on ":" part with
          | _ :: second :: _ =>
              let value := Py.strip second in
              if String.eqb (Py.lower value) "none" then None else PyFloat.py_int value
          | _ => None
          end
      | None => None
      end
  | _ => None
  end.

(** [str] of the budget dictionary [{'lifetime': n, 'daily': None}]. *)
Definition budget_text (n : Z) : string :=
  lifetime_key Py.squote " " ++ Py.str_of_Z n ++ daily_none Py.squote " ".

(** The joins of [main] (lines 1012-1096). [target_data_to_merge] has the
    columns [merge_key_bvt_tg], [brief_bvp_id], [brief_platform_media],
    [brief_impressions]; [placement_data_to_merge] has [merge_key_bvp_pl],
    [brief_geo_required], [brief_traffic_info]; [campaign_values] holds the
    campaign-level values read off the brief. *)
Definition brief_cols : list string :=
  ["brief_product_type"; "brief_dairy_milk_restrictions"; "brief_lda_compliant";
   "brief_viewability_contracted"; "brief_measurement_type"; "brief_viewability_goal"].

Definition add_if_absent (df : Frame.frame) (c : string) (v : pyval) : Frame.frame :=
  if Frame.has_col df c then df else Frame.assign df c (fun _ => v).

Definition merge_brief (qa_df : Frame.frame) (campaign_values : row)
    (target_data_to_merge placement_data_to_merge : option Frame.frame) : Frame.frame :=
  let qa_alt_id_col :=
    find_col_name (Frame.columns qa_df) ["Alt ID"; "line_item_alternative_id"; "alternative id"] in
  let merged_df :=
    fold_left
      (fun df col =>
         let v := get campaign_values col PNone in
         Frame.assign df col
           (fun _ => if String.eqb col "brief_viewability_goal" then v
                     else if notna v then v else PStr "N/A"))
      brief_cols qa_df in
  let merged_df :=
    match target_data_to_merge, qa_alt_id_col with
    | Some t, Some alt =>
        let merged_df :=
          Frame.assign merged_df "merge_key_altid_lower"
            (fun r => Frame.text_key (get r alt PNaN)) in
        Frame.drop
          (Frame.drop
             (Frame.merge_left merged_df t "merge_key_altid_lower" "merge_key_bvt_tg")
             "merge_key_altid_lower")
          "merge_key_bvt_tg"
    | _, _ =>
        add_if_absent
          (add_if_absent (add_if_absent merged_df "brief_bvp_id" (PStr "N/A"))
                         "brief_platform_media" (PStr "N/A"))
          "brief_impressions" (PStr "N/A")
    end in
  let merged_df :=
    match placement_data_to_merge with
    | Some p =>
        if Frame.has_col merged_df "brief_bvp_id" then
          let merged_df :=
            Frame.assign merged_df "merge_key_bvp_lower"
              (fun r => Frame.text_key (get r "brief_bvp_id" PNaN)) in
          Frame.drop
            (Frame.drop
               (Frame.merge_left merged_df p "merge_key_bvp_lower" "merge_key_bvp_pl")
               "merge_key_bvp_lower")
            "merge_key_bvp_pl"
        else
          add_if_absent (add_if_absent merged_df "brief_geo_required" (PStr "N/A"))
                        "brief_traffic_info" (PStr "N/A")
    | None =>
        add_if_absent (add_if_absent merged_df "brief_geo_required" (PStr "N/A"))
                      "brief_traffic_info" (PStr "N/A")
    end in
  fold_left
    (fun df col => if Frame.has_col df col then Frame.fillna df col (PStr "N/A") else df)
    brief_cols merged_df.

(** The inputs as [main] hands them to the joins: the QA report has none
    of the columns the joins add; the Target and Placement tables, where
    present, have their join key and, of the renamed columns, the ones
    found in the brief. *)
Definition prepared (qa_df : Frame.frame)
    (target_data_to_merge placement_data_to_merge : option Frame.frame) : bool :=
  forallb (fun c => negb (Frame.has_col qa_df c))
          ["merge_key_bvt_tg"; "brief_bvp_id"; "brief_platform_media"; "brief_impressions";
           "merge_key_bvp_pl"; "brief_geo_required"; "brief_traffic_info"]
  && match target_data_to_merge with
     | Some t =>
         Frame.has_col t "merge_key_bvt_tg"
         && forallb (fun c => Py.mem c ["merge_key_bvt_tg"; "brief_bvp_id";
                                        "brief_platform_media"; "brief_impressions"])
                    (Frame.columns t)
     | None => true
     end
  && match placement_data_to_merge with
     | Some p =>
         Frame.has_col p "merge_key_bvp_pl"
         && forallb (fun c => Py.mem c ["merge_key_bvp_pl"; "brief_geo_required";
                                        "brief_traffic_info"])
                    (Frame.columns p)
     | None => true
     end.

(** *** Budget splits *)

(** [pd.to_numeric(v, errors='coerce')] on one value. *)
Definition to_numeric (v : pyval) : float :=
  match v with
  | PInt n => PyFloat.float_of_Z n
  | PFloat x => x
  | PBool b => if b then 1%float else 0%float
  | PStr s => match PyFloat.py_float s with Some x => x | None => nan end
  | _ => nan
  end.

(** [series.sum()]: the missing values are skipped. *)
Definition nansum (xs : list float) : float :=
  fold_left (fun acc x => if PrimFloat.is_nan x then acc else PrimFloat.add acc x)
            xs 0%float.

Definition is_mobile (r : row) : bool :=
  match get r "brief_platform_media" PNaN with
  | PStr s => Py.contains "mobile" (Py.lower s)
  | _ => false
  end.

(** The first brief impressions goal of the group that is a number. *)
Definition brief_imps_val (group : list row) : option float :=
  find (fun x => negb (PrimFloat.is_nan x))
       (map (fun r => to_numeric (get r "brief_impressions" PNaN)) group).

(** The [Budget Split %] texts that [main] (lines 1129-1191) gives the rows
    of one Alt ID group. *)
Definition budget_splits (group : list row) : list string :=
  let budgets := map (fun r => to_numeric (get r "Budget" PNaN)) group in
  match brief_imps_val group with
  | None => map (fun _ => "Error") group
  | Some _ =>
      if existsb is_mobile group then
        let total_budget := nansum budgets in
        if PrimFloat.ltb 0 total_budget then
          map (fun row_budget =>
                 let split_pct :=
                   if PrimFloat.is_nan row_budget then 0%float
                   else PrimFloat.mul (PrimFloat.div row_budget total_budget) 100 in
                 PyFloat.format_fixed 1 split_pct ++ "%")
              budgets
        else map (fun _ => "Error: Zero Total") group
      else map (fun _ => "100%") group
  end.

(** The numbers [apply_formatting] (lines 638-650) reads off the
    [Budget Split %] cells of a group: the cells that end in a percent sign
    and hold a number before it. *)
Definition split_value (cell : pyval) : option float :=
  let text := Py.strip (py_str cell) in
  if Py.endswith text "%" then
    PyFloat.py_float (Py.rstrip_by (fun c => Ascii.eqb c "%") text)
  else None.

Fixpoint collect {A B : Type} (f : A -> option B) (l : list A) : list B :=
  match l with
  | [] => []
  | a :: t => match f a with Some b => b :: collect f t | None => collect f t end
  end.

Definition split_values (group : list row) : list float :=
  collect (fun r => split_value (get r "Budget Split %" PNone)) group.

(** [abs(x - target) < 0.2]. *)
Definition within_tolerance (x target : float) : bool :=
  PrimFloat.ltb (PrimFloat.abs (PrimFloat.sub x target)) 0.2.

(** The total that is compared with 100: the single split, or [sum] of the
    splits. *)
Definition splits_total (values : list float) : float :=
  match values with
  | [v] => v
  | _ => fold_left PrimFloat.add values 0%float
  end.



(** The group's LDA flag, read off its first row. *)
Definition group_lda (columns : list string) (group : list row) : string :=
  match find_col_name columns ["brief_lda_compliant"], group with
  | Some lda_col, first_row :: _ => Py.lower (Py.strip (py_str (get first_row lda_col PNone)))
  | _, _ => "unknown"
  end.

(** The budget-split validation of [apply_formatting] (lines 611-689) for
    the rows of one Alt ID: [true] marks the group's cells valid. *)
Definition validate_budget_split (columns : list string) (group : list row) : bool :=
  let values := split_values group in
  let valid_sum := within_tolerance (splits_total values) 100 in
  if String.eqb (group_lda columns group) "yes" then
    if forallb (fun v => within_tolerance v 50 || within_tolerance v 100) values
    then valid_sum
    else false
  else valid_sum.

(** The rows of a group as the report shows them: with the splits that the
    engine computed. *)
Definition with_splits (group : list row) : list row :=
  map (fun rs => Frame.set (fst rs) "Budget Split %" (PStr (snd rs)))
      (combine group (budget_splits group)).

Definition report_columns : list string :=
  ["Alt ID"; "Budget"; "brief_platform_media"; "brief_impressions"; "brief_lda_compliant"].

Definition line_item (alt platform : string) (budget : Z) (lda : string) : row :=
  [("Alt ID", PStr alt); ("Budget", PInt budget); ("brief_platform_media", PStr platform);
   ("brief_impressions", PStr "100000"); ("brief_lda_compliant", PStr lda)].


Definition desktop_single : list row :=
  [line_item "BVT000000001" "Desktop/Banner" 100000 "Yes"].

Definition mobile_pair : list row :=
  [line_item "BVT000000002" "Mobile/Banner" 50000 "Yes";
   line_item "BVT000000002" "Mobile/Banner" 50000 "Yes"].

Definition mobile_twelve : list row :=
  repeat (line_item "BVT000000003" "Mobile/Banner" 10000 "No") 12.

(** Sample inputs. *)
Definition qa_unmatched : Frame.frame :=
  Frame.mkFrame ["Line Item Name"; "Alt ID"]
    [[("Line Item Name", PStr "MOA_SBV_Q1_24_GEO_BA_"); ("Alt ID", PStr "BVT000000001")]].

Definition target_other : Frame.frame :=
  Frame.mkFrame ["merge_key_bvt_tg"; "brief_bvp_id"; "brief_platform_media"; "brief_impressions"]
    [[("merge_key_bvt_tg", PStr "bvt000000002"); ("brief_bvp_id", PStr "BVP000000002");
      ("brief_platform_media", PStr "Mobile/Banner"); ("brief_impressions", PStr "100000")]].

Definition placement_other : Frame.frame :=
  Frame.mkFrame ["merge_key_bvp_pl"; "brief_geo_required"; "brief_traffic_info"]
    [[("merge_key_bvp_pl", PStr "bvp000000002"); ("brief_geo_required", PStr "Yes");
      ("brief_traffic_info", PStr "No")]].

End TargetingGeneral.

(* ================================================================== *)
(** ** brief_extractor.py: dates and sections *)

Module BriefExtractor.

(** *** The calendar *)

Definition is_leap (y : Z) : bool :=
  (y mod 4 =? 0) && (negb (y mod 100 =? 0) || (y mod 400 =? 0)).

Definition days_in_month (y m : Z) : Z :=
  if m =? 2 then (if is_leap y then 29 else 28)
  else if (m =? 4) || (m =? 6) || (m =? 9) || (m =? 11) then 30
  else 31.

(** The dates a [datetime] can hold: years 1 to 9999. *)
Definition valid_date (d : date) : bool :=
  (1 <=? year d) && (year d <=? 9999) && (1 <=? month d) && (month d <=? 12)
  && (1 <=? day d) && (day d <=? days_in_month (year d) (month d)).

(** The date [z] days after 1970-01-01. *)
Definition civil_from_days (z : Z) : date :=
  let z := z + 719468 in
  let era := z / 146097 in
  let doe := z - era * 146097 in
  let yoe := (doe - doe / 1460 + doe / 36524 - doe / 146096) / 365 in
  let doy := doe - (365 * yoe + yoe / 4 - yoe / 100) in
  let mp := (5 * doy + 2) / 153 in
  let m := if mp <? 10 then mp + 3 else mp - 9 in
  mkDate (if m <=? 2 then yoe + era * 400 + 1 else yoe + era * 400)
         m (doy - (153 * mp + 2) / 5 + 1).

(** The day of a spreadsheet serial number: [n] days after 1899-12-30. *)
Definition date_of_serial (n : Z) : date := civil_from_days (n - 25569).

(** [d.strftime('%m/%d/%Y')], the year on four digits. *)
Definition strftime (d : date) : string :=
  two_digits (month d) ++ "/" ++ two_digits (day d) ++ "/" ++ four_digits (year d).

(** *** [datetime.strptime] for the formats of the list *)

Inductive directive :=
| D_Y             (* %Y: four digits *)
| D_y             (* %y: two digits *)
| D_m             (* %m: 1[0-2] | 0[1-9] | [1-9] *)
| D_d             (* %d: 3[0-1] | [1-2]\d | 0[1-9] | [1-9] | blank [1-9] *)
| D_B             (* %B: a month's name *)
| D_b             (* %b: a month's abbreviated name *)
| D_lit (c : ascii)
| D_space.        (* a blank of the format: one or more blanks *)

(** The fields read so far: year, month, day. *)
Definition fields := (Z * Z * Z)%type.
Definition set_year (f : fields) (y : Z) : fields := let '(_, m, d) := f in (y, m, d).
Definition set_month (f : fields) (m : Z) : fields := let '(y, _, d) := f in (y, m, d).
Definition set_day (f : fields) (d : Z) : fields := let '(y, m, _) := f in (y, m, d).

Definition month_names : list (string * Z) :=
  [ ("september", 9); ("february", 2); ("november", 11); ("december", 12);
    ("january", 1); ("october", 10); ("august", 8); ("march", 3); ("april", 4);
    ("june", 6); ("july", 7); ("may", 5) ].

Definition month_abbreviations : list (string * Z) :=
  [ ("jan", 1); ("feb", 2); ("mar", 3); ("apr", 4); ("may", 5); ("jun", 6);
    ("jul", 7); ("aug", 8); ("sep", 9); ("oct", 10); ("nov", 11); ("dec", 12) ].

Definition first_some {A : Type} (a b : option A) : option A :=
  match a with Some _ => a | None => b end.

Definition num2 (a b : ascii) : Z := PyFloat.Z_of_digits [a; b].

(** [skip n s]: [s] without its first [n] characters. *)
Definition skip (n : nat) (s : string) : string := PyFloat.sdrop n s.

(** The match of a format against a text, alternatives tried in the order
    of the pattern, the whole text being consumed. *)
Fixpoint parse_fmt (fmt : list directive) (s : string) (acc : fields) : option fields :=
  match fmt with
  | [] => if Py.is_empty s then Some acc else None
  | D_lit c :: rest =>
      match s with
      | String a t => if Ascii.eqb (Py.lower_char a) (Py.lower_char c)
                      then parse_fmt rest t acc else None
      | EmptyString => None
      end
  | D_space :: rest =>
      match s with
      | String a t => if Py.is_space a then parse_fmt rest (Py.lstrip_by Py.is_space t) acc
                      else None
      | EmptyString => None
      end
  | D_Y :: rest =>
      match s with
      | String a (String b (String c (String e t))) =>
          if Py.is_digit a && Py.is_digit b && Py.is_digit c && Py.is_digit e
          then parse_fmt rest t (set_year acc (PyFloat.Z_of_digits [a; b; c; e]))
          else None
      | _ => None
      end
  | D_y :: rest =>
      match s with
      | String a (String b t) =>
          if Py.is_digit a && Py.is_digit b then
            let v := num2 a b in
            parse_fmt rest t (set_year acc (if v <=? 68 then 2000 + v else 1900 + v))
          else None
      | _ => None
      end
  | D_m :: rest =>
      first_some
        (match s with
         | String a (String b t) =>
             if Py.is_digit a && Py.is_digit b
                && (1 <=? num2 a b) && (num2 a b <=? 12)
             then parse_fmt rest t (set_month acc (num2 a b)) else None
         | _ => None
         end)
        (match s with
         | String a t =>
             if Py.is_digit a && negb (Ascii.eqb a "0")
             then parse_fmt rest t (set_month acc (PyFloat.digit_val a)) else None
         | EmptyString => None
         end)
  | D_d :: rest =>
      first_some
        (match s with
         | String a (String b t) =>
             if Py.is_digit a && Py.is_digit b
                && (1 <=? num2 a b) && (num2 a b <=? 31)
             then parse_fmt rest t (set_day acc (num2 a b)) else None
         | _ => None
         end)
        (first_some
           (match s with
            | String a t =>
                if Py.is_digit a && negb (Ascii.eqb a "0")
                then parse_fmt rest t (set_day acc (PyFloat.digit_val a)) else None
            | EmptyString => None
            end)
           (match s with
            | String a (String b t) =>
                if Ascii.eqb a " " && Py.is_digit b && negb (Ascii.eqb b "0")
                then parse_fmt rest t (set_day acc (PyFloat.digit_val b)) else None
            | _ => None
            end))
  | D_B :: rest =>
      fold_right
        (fun nm later =>
           first_some
             (if Py.startswith (Py.lower s) (fst nm)
              then parse_fmt rest (skip (String.length (fst nm)) s) (set_month acc (snd nm))
              else None)
             later)
        None month_names
  | D_b :: rest =>
      fold_right
        (fun nm later =>
           first_some
             (if Py.startswith (Py.lower s) (fst nm)
              then parse_fmt rest (skip (String.length (fst nm)) s) (set_month acc (snd nm))
              else None)
             later)
        None month_abbreviations
  end.

(** [datetime.strptime(s, fmt)]: [None] is [ValueError]. *)
Definition strptime (s : string) (fmt : list directive) : option date :=
  match parse_fmt fmt s (1900, 1, 1) with
  | Some (y, m, d) =>
      if valid_date (mkDate y m d) then Some (mkDate y m d) else None
  | None => None
  end.

(** The formats of [standardize_date_format], in its order. *)
Definition date_formats : list (list directive) :=
  [ [D_Y; D_lit "-"; D_m; D_lit "-"; D_d];          (* %Y-%m-%d *)
    [D_m; D_lit "/"; D_d; D_lit "/"; D_Y];          (* %m/%d/%Y *)
    [D_m; D_lit "-"; D_d; D_lit "-"; D_Y];          (* %m-%d-%Y *)
    [D_d; D_lit "-"; D_m; D_lit "-"; D_Y];          (* %d-%m-%Y *)
    [D_d; D_lit "/"; D_m; D_lit "/"; D_Y];          (* %d/%m/%Y *)
    [D_B; D_space; D_d; D_lit ","; D_space; D_Y];   (* %B %d, %Y *)
    [D_b; D_space; D_d; D_lit ","; D_space; D_Y];   (* %b %d, %Y *)
    [D_Y; D_lit "/"; D_m; D_lit "/"; D_d];          (* %Y/%m/%d *)
    [D_m; D_lit "/"; D_d; D_lit "/"; D_y];          (* %m/%d/%y *)
    [D_d; D_lit "/"; D_m; D_lit "/"; D_y];          (* %d/%m/%y *)
    [D_y; D_lit "-"; D_m; D_lit "-"; D_d];          (* %y-%m-%d *)
    [D_m; D_lit "."; D_d; D_lit "."; D_Y];          (* %m.%d.%Y *)
    [D_d; D_lit "."; D_m; D_lit "."; D_Y];          (* %d.%m.%Y *)
    [D_Y; D_lit "."; D_m; D_lit "."; D_d] ].        (* %Y.%m.%d *)

(** The first format of the list that reads the text. *)
Definition strptime_first (s : string) : option date :=
  fold_right (fun fmt later => first_some (strptime s fmt) later) None date_formats.

(** The serial number of a numeric value in the plausible range. *)
Definition serial_day (v : pyval) : option Z :=
  match v with
  | PInt n => if (30000 <? n) && (n <? 70000) then Some n else None
  | PFloat x =>
      if PrimFloat.ltb 30000 x && PrimFloat.ltb x 70000 then Some (PyFloat.floor x)
      else None
  | _ => None
  end.

Section GenericParser.

(** [pd.to_datetime(v)] followed by [strftime], the generic parser of the
    host: the date it reads, or [None] when it raises or reads no date. *)
Variable to_datetime : pyval -> option date.

(** [standardize_date_format]. *)
Definition standardize_date_format (date_str : pyval) : pyval :=
  if negb (truthy date_str) || isna date_str then date_str
  else
    match date_str with
    | PDate d => PStr (strftime d)
    | _ =>
        match serial_day date_str with
        | Some n => PStr (strftime (date_of_serial n))
        | None =>
            match strptime_first (Py.strip (py_str date_str)) with
            | Some d => PStr (strftime d)
            | None =>
                match to_datetime date_str with
                | Some d => PStr (strftime d)
                | None => PStr (Py.strip (py_str date_str))
                end
            end
        end
    end.

End GenericParser.

(** A text of the shape [MM/DD/YYYY]. *)
Definition is_mmddyyyy (s : string) : bool :=
  match list_ascii_of_string s with
  | [m1; m2; s1; d1; d2; s2; y1; y2; y3; y4] =>
      forallb Py.is_digit [m1; m2; d1; d2; y1; y2; y3; y4]
      && Ascii.eqb s1 "/" && Ascii.eqb s2 "/"
  | _ => false
  end.

(** The values a cell can hold: a date of a cell is a date of the calendar. *)
Definition wf_value (v : pyval) : bool :=
  match v with PDate d => valid_date d | _ => true end.

(** The integers [lo, lo + 1, ..., lo + n - 1]. *)
Fixpoint zrange (lo : Z) (n : nat) : list Z :=
  match n with
  | O => []
  | S k => lo :: zrange (lo + 1) k
  end.

(** The two-digit and four-digit texts of a number read back as it. *)
Definition two_digits_ok (n : Z) : bool :=
  match two_digits n with
  | String a (String b EmptyString) =>
      Py.is_digit a && Py.is_digit b && (num2 a b =? n)
  | _ => false
  end.

Definition four_digits_ok (n : Z) : bool :=
  match four_digits n with
  | String a (String b (String c (String e EmptyString))) =>
      Py.is_digit a && Py.is_digit b && Py.is_digit c && Py.is_digit e
      && (PyFloat.Z_of_digits [a; b; c; e] =? n)
  | _ => false
  end.

(** The text of a date: two digits, a slash, two digits, a slash, four
    digits. *)
Definition date_text (m1 m2 d1 d2 y1 y2 y3 y4 : ascii) : string :=
  String m1 (String m2 (String "/" (String d1 (String d2 (String "/"
    (String y1 (String y2 (String y3 (String y4 EmptyString))))))))).

(** [d.strftime('%d/%m/%Y')]: the date written day first. *)
Definition day_first_text (d : date) : string :=
  two_digits (day d) ++ "/" ++ two_digits (month d) ++ "/" ++ four_digits (year d).

(** The date written month first with a year of two digits, as
    [strftime('%m/%d/%y')] writes it. *)
Definition short_year_text (m d yy : Z) : string :=
  two_digits m ++ "/" ++ two_digits d ++ "/" ++ two_digits yy.

(** The year that [%y] reads off two digits. *)
Definition pivot_year (yy : Z) : Z := if yy <=? 68 then 2000 + yy else 1900 + yy.

(** The text of a date with a short year: two digits, a slash, two
    digits, a slash, two digits. *)
Definition short_text (m1 m2 d1 d2 y1 y2 : ascii) : string :=
  String m1 (String m2 (String "/" (String d1 (String d2 (String "/"
    (String y1 (String y2 EmptyString))))))).

(** A host whose generic parser reads nothing. *)
Definition no_generic_parser (v : pyval) : option date := None.

(** *** Sections of a brief *)

(** The outcome of code that may raise. *)
Inductive result (A : Type) : Type :=
| Ok (a : A)
| Raise (exn : string).
Arguments Ok {A} a.
Arguments Raise {A} exn.

Definition bind {A B : Type} (r : result A) (f : A -> result B) : result B :=
  match r with
  | Ok a => f a
  | Raise e => Raise e
  end.

Notation "x <- c ;; k" := (bind c (fun x => k))
  (at level 61, c at next level, right associativity).

(** The brief as read with [header=None]: rows of cells, all of one
    width; rows and columns are labelled 0, 1, 2, ... *)
Definition grid := list (list pyval).

(** A record of a section: field name to text, in order of first entry. *)
Definition record := list (string * string).

Fixpoint record_set (r : record) (k v : string) : record :=
  match r with
  | [] => [(k, v)]
  | (k', v') :: t =>
      if String.eqb k' k then (k, v) :: t else (k', v') :: record_set t k v
  end.

Fixpoint record_get (r : record) (k : string) : option string :=
  match r with
  | [] => None
  | (k', v) :: t => if String.eqb k' k then Some v else record_get t k
  end.

(** [row[i]] by label: [KeyError] when the grid has no such column. *)
Definition cell_at (r : list pyval) (i : nat) : result pyval :=
  match nth_error r i with
  | Some v => Ok v
  | None => Raise "KeyError"
  end.

(** [row.isna().all()]. *)
Definition all_na (r : list pyval) : bool := forallb isna r.

Fixpoint enumerate_from {A : Type} (i : nat) (l : list A) : list (nat * A) :=
  match l with
  | [] => []
  | a :: t => (i, a) :: enumerate_from (S i) t
  end.

(** **** Account level *)

Definition account_fields : list string :=
  ["Today's Date"; "Account Name"; "Campaign Name"; "Business Consultant";
   "Campaign Specialist"; "Business Account Manager"; "Ad Ops Specialist";
   "Product Type"].

(** The text of the next cell, or of the one after it, that holds a value. *)
Definition value_after (r : list pyval) (col_idx : nat) : option string :=
  match nth_error r (col_idx + 1) with
  | Some v1 =>
      if notna v1 then Some (Py.strip (py_str v1))
      else match nth_error r (col_idx + 2) with
           | Some v2 => if notna v2 then Some (Py.strip (py_str v2)) else None
           | None => None
           end
  | None => None
  end.

Definition account_cell (r : list pyval) (acc : record) (cell : nat * pyval) : record :=
  match snd cell with
  | PStr val =>
      match find (fun field => Py.contains (Py.lower field) (Py.lower val)) account_fields with
      | Some field =>
          match value_after r (fst cell) with
          | Some value => if Py.is_empty value then acc else record_set acc field value
          | None => acc
          end
      | None => acc
      end
  | _ => acc
  end.

(** [extract_account_data_from_excel]. *)
Definition extract_account_data_from_excel (brief_df : grid) : record :=
  fold_left (fun acc r => fold_left (account_cell r) (enumerate_from 0 r) acc)
            (firstn 30 brief_df) [].

(** What an account record holds: fields of the list, each once, with a
    text that is trimmed and not empty. *)
Definition account_entries (acc : record) : Prop :=
  NoDup (map fst acc)
  /\ forall k v, In (k, v) acc ->
                 In k account_fields /\ v <> EmptyString /\ Py.strip v = v.

(** **** Campaign level *)

Definition target_fields : list (string * list string) :=
  [ ("IO Campaign Start Date", ["io campaign start date"]);
    ("IO Campaign End Date", ["io campaign end date"; "io campaign  end date"]);
    ("Apply Dairy-Milk Restrictions",
     ["apply dairy-milk restrictions"; "apply dairy milk restrictions"]);
    ("LDA or Age Compliant", ["lda or age compliant"]);
    ("LDA or Age Compliant Notes", ["lda or age compliant notes"]);
    ("BV Budget", ["bv budget"]);
    ("Measurement Type", ["measurement type"]);
    ("Viewability Contracted", ["viewability contracted"]);
    ("Viewability Goal", ["viewability goal"]) ].

(** The fields recorded so far are all among [target_fields]. *)
Definition known_fields (found : record) : Prop :=
  forall k, In k (map fst found) -> In k (map fst target_fields).

Section Sections.

Variable to_datetime : pyval -> option date.

Definition campaign_value (field : string) (r : list pyval) (col_idx : nat) : string :=
  match nth_error r (col_idx + 1) with
  | Some next_cell =>
      if notna next_cell then
        if Py.contains "date" (Py.lower field) then
          match to_datetime next_cell with
          | Some d => strftime d
          | None => Py.strip (py_str next_cell)
          end
        else Py.strip (py_str next_cell)
      else ""
  | None => ""
  end.

Definition campaign_cell (r : list pyval) (found : record) (cell : nat * pyval) : record :=
  if isna (snd cell) then found
  else
    let cell_text := Py.lower (Py.strip (py_str (snd cell))) in
    match
      find (fun fv =>
              negb (Py.mem (fst fv) (map fst found))
              && existsb (fun var => Py.contains var cell_text) (snd fv))
           target_fields
    with
    | Some (field, _) => (found ++ [(field, campaign_value field r (fst cell))])%list
    | None => found
    end.

(** [extract_campaign_data_from_excel]: the Field/Value table, in the
    order of [target_fields], or [None] when no field was found. *)
Definition extract_campaign_data_from_excel (brief_df : grid)
    : option (list (pyval * pyval)) :=
  let found :=
    fold_left
      (fun found r =>
         if all_na r then found
         else fold_left (campaign_cell r) (enumerate_from 0 r) found)
      (firstn 30 brief_df) [] in
  match found with
  | [] => None
  | _ =>
      Some (flat_map
              (fun fv =>
                 match record_get found (fst fv) with
                 | Some value => [(PStr (fst fv), PStr value)]
                 | None => []
                 end)
              target_fields)
  end.

End Sections.

(** **** Tables: placements and targets *)

(** The first row at index [start] or later that satisfies [p]; [p] may
    raise. *)
Fixpoint first_row (p : list pyval -> result bool) (rows : list (nat * list pyval))
    : result (option nat) :=
  match rows with
  | [] => Ok None
  | (idx, r) :: t =>
      b <- p r ;;
      if b then Ok (Some idx) else first_row p t
  end.

Definition rows_from (start : nat) (brief_df : grid) : list (nat * list pyval) :=
  skipn start (enumerate_from 0 brief_df).

(** The header texts: the cell's text, or [Column_i] for an empty cell. *)
Definition headers_of (header_row : list pyval) : list string :=
  map (fun ih => if notna (snd ih) then py_str (snd ih)
                 else "Column_" ++ Py.str_of_Z (Z.of_nat (fst ih)))
      (enumerate_from 0 header_row).

Definition count_occ_str (x : string) (l : list string) : nat :=
  List.length (filter (String.eqb x) l).

(** One data row as a record. [row[col]] is a scalar when the label [col]
    occurs once among the headers; when it occurs more than once it is a
    Series, and the test [if pd.notna(row[col])] raises [ValueError]. *)
Fixpoint row_record (headers : list string) (cells : list (string * pyval)) (acc : record)
    : result record :=
  match cells with
  | [] => Ok acc
  | (col, v) :: t =>
      if Nat.ltb 1 (count_occ_str col headers) then Raise "ValueError"
      else row_record headers t
             (if notna v then record_set acc col (Py.strip (py_str v)) else acc)
  end.

Fixpoint table_records (headers : list string) (data : list (list pyval))
    : result (list record) :=
  match data with
  | [] => Ok []
  | r :: t =>
      rec <- row_record headers (combine headers r) [] ;;
      rest <- table_records headers t ;;
      Ok (match rec with [] => rest | _ => rec :: rest end)
  end.

Definition has_placement_marker (r : list pyval) : bool :=
  existsb (fun val =>
             match val with
             | PStr s => Py.contains "placement name" (Py.lower s)
                         || Py.contains "bvp" (Py.lower s)
             | _ => false
             end) r.

Definition ends_placements (r : list pyval) : result bool :=
  if all_na r then Ok true
  else
    v <- cell_at r 1 ;;
    Ok (notna v && Py.contains "bv id" (Py.lower (py_str v))).

(** [extract_placement_data_from_excel]. *)
Definition extract_placement_data_from_excel (brief_df : grid) : result (list record) :=
  header <- first_row (fun r => Ok (has_placement_marker r)) (rows_from 20 brief_df) ;;
  match header with
  | None => Ok []
  | Some placement_header_idx =>
      stop <- first_row ends_placements (rows_from (S placement_header_idx) brief_df) ;;
      match stop with
      | None => Ok []
      | Some placement_end_idx =>
          match firstn (placement_end_idx - placement_header_idx)
                       (skipn placement_header_idx brief_df) with
          | header_row :: data => table_records (headers_of header_row) data
          | [] => Ok []
          end
      end
  end.

Definition is_target_header (r : list pyval) : result bool :=
  v1 <- cell_at r 1 ;;
  if notna v1 && Py.contains "bv id" (Py.lower (py_str v1)) then
    v2 <- cell_at r 2 ;;
    if notna v2 && Py.contains "bvp" (Py.lower (py_str v2)) then
      v3 <- cell_at r 3 ;;
      Ok (notna v3 && Py.contains "bvt" (Py.lower (py_str v3)))
    else Ok false
  else Ok false.

Fixpoint until_blank (rows : grid) : grid :=
  match rows with
  | [] => []
  | r :: t => if all_na r then [] else r :: until_blank t
  end.

(** [extract_target_data_from_excel]. *)
Definition extract_target_data_from_excel (brief_df : grid) : result (list record) :=
  header <- first_row is_target_header (rows_from 20 brief_df) ;;
  match header with
  | None => Ok []
  | Some target_header_idx =>
      match until_blank (skipn target_header_idx brief_df) with
      | header_row :: data => table_records (headers_of header_row) data
      | [] => Ok []
      end
  end.

(** **** The four sections *)

Record structured := mkStructured {
  account_data : option Frame.frame;
  campaign_data : option (list (pyval * pyval));
  placement_data : option Frame.frame;
  target_data : option Frame.frame
}.

Fixpoint dedup (l : list string) : list string :=
  match l with
  | [] => []
  | x :: t => x :: filter (fun y => negb (String.eqb x y)) (dedup t)
  end.

(** [pd.DataFrame(records)]: the columns are the field names in the order
    of first appearance; a record without a field has a missing value. *)
Definition frame_of_records (records : list record) : Frame.frame :=
  let columns := dedup (flat_map (map fst) records) in
  Frame.mkFrame columns
    (map (fun rec =>
            map (fun c => (c, match record_get rec c with
                              | Some s => PStr s
                              | None => PNaN
                              end)) columns)
         records).

Section Extraction.

Variable to_datetime : pyval -> option date.

Definition standardize_column (df : Frame.frame) (col : string) : Frame.frame :=
  if Frame.has_col df col then
    Frame.assign df col (fun r => standardize_date_format to_datetime (get r col PNaN))
  else df.

Definition account_section (account : record) : option Frame.frame :=
  match account with
  | [] => None
  | _ => Some (frame_of_records [account])
  end.

Definition placement_section (placements : list record) : option Frame.frame :=
  match placements with
  | [] => None
  | _ =>
      Some (standardize_column (standardize_column (frame_of_records placements) "Start Date")
                               "End Date")
  end.

Definition target_section (targets : list record) : option Frame.frame :=
  match targets with
  | [] => None
  | _ => Some (frame_of_records targets)
  end.

(** [extract_structured_brief_data]: [read_excel] is what reading the file
    gave, a grid or an error. Whatever is raised inside is caught, and the
    sections filled in so far are returned. *)
Definition extract_structured_brief_data (read_excel : result grid) : structured :=
  let structured_data := mkStructured None None None None in
  match read_excel with
  | Raise _ => structured_data
  | Ok brief_df =>
      let structured_data :=
        mkStructured (account_section (extract_account_data_from_excel brief_df))
                     (extract_campaign_data_from_excel to_datetime brief_df)
                     None None in
      match extract_placement_data_from_excel brief_df with
      | Raise _ => structured_data
      | Ok placements =>
          let structured_data :=
            mkStructured (account_data structured_data) (campaign_data structured_data)
                         (placement_section placements) None in
          match extract_target_data_from_excel brief_df with
          | Raise _ => structured_data
          | Ok targets =>
              mkStructured (account_data structured_data) (campaign_data structured_data)
                           (placement_data structured_data) (target_section targets)
          end
      end
  end.

End Extraction.

(** The caller's test ([main] of name_assign.py, lines 682-688): the run
    ends with an extraction failure when no section holds data. *)
Definition frame_empty (df : Frame.frame) : bool :=
  match Frame.columns df, Frame.rows df with
  | [], _ | _, [] => true
  | _, _ => false
  end.

Definition has_data (section : option Frame.frame) : bool :=
  match section with
  | Some df => negb (frame_empty df)
  | None => false
  end.

Definition extraction_failed (s : structured) : bool :=
  negb (has_data (account_data s)
        || match campaign_data s with Some (_ :: _) => true | _ => false end
        || has_data (placement_data s)
        || has_data (target_data s)).

(** A brief whose placement table has two columns of one title. *)
Definition blank_row : list pyval := [PNaN; PNaN; PNaN; PNaN].

Definition twin_title_brief : grid :=
  ([[PStr "Account Name"; PStr "ACME"; PNaN; PNaN]]
   ++ repeat blank_row 19
   ++ [ [PStr "BV Placement Name"; PStr "Notes"; PStr "Notes"; PStr "Geo Required"];
        [PStr "Spring Launch"; PStr "first"; PStr "second"; PStr "Yes"];
        blank_row;
        [PNaN; PStr "BV ID"; PStr "BVP"; PStr "BVT"];
        [PNaN; PStr "1"; PStr "BVP000000001"; PStr "BVT000000001"] ])%list.

(** The same brief with distinct titles. *)
Definition plain_brief : grid :=
  ([[PStr "Account Name"; PStr "ACME"; PNaN; PNaN]]
   ++ repeat blank_row 19
   ++ [ [PStr "BV Placement Name"; PStr "Notes"; PStr "Start Date"; PStr "Geo Required"];
        [PStr "Spring Launch"; PStr "first"; PStr "3/15/2023"; PStr "Yes"];
        blank_row;
        [PNaN; PStr "BV ID"; PStr "BVP"; PStr "BVT"];
        [PNaN; PStr "1"; PStr "BVP000000001"; PStr "BVT000000001"] ])%list.

End BriefExtractor.

(* ================================================================== *)
(** * Properties *)

Example py_strip_ex : Py.strip "  Mobile/Banner " = "Mobile/Banner".
Proof. reflexivity. Qed.
Example py_float_ex1 : PyFloat.py_float "2.40" = Some 2.4%float.
Proof. vm_compute. reflexivity. Qed.
Example py_float_ex3 : PyFloat.py_float "0.1" = Some 0.1%float.
Proof. vm_compute. reflexivity. Qed.
Example py_float_ex5 : PyFloat.py_float "4.9e-324" = Some 0x1p-1074%float.
Proof. vm_compute. reflexivity. Qed.
Example py_float_ex7 : PyFloat.py_float "80%" = None.
Proof. vm_compute. reflexivity. Qed.
Example format_ex2 : PyFloat.format_fixed 1 0.25%float = "0.2".
Proof. vm_compute. reflexivity. Qed.
Example format_ex4 : PyFloat.format_fixed 2 2.675%float = "2.67".
Proof. vm_compute. reflexivity. Qed.
Example repr_ex1 : PyFloat.repr 0.1%float = "0.1".
Proof. vm_compute. reflexivity. Qed.
Example repr_ex3 : PyFloat.repr 1e16%float = "1e+16".
Proof. vm_compute. reflexivity. Qed.
Example repr_ex5 : PyFloat.repr 0x1p-1074%float = "5e-324".
Proof. vm_compute. reflexivity. Qed.
Example repr_ex7 : PyFloat.repr 0.00001%float = "1e-05".
Proof. vm_compute. reflexivity. Qed.
Example repr_ex9 : PyFloat.repr (-2.5)%float = "-2.5".
Proof. vm_compute. reflexivity. Qed.
Example repr_ex11 : PyFloat.repr 45000.5%float = "45000.5".
Proof. vm_compute. reflexivity. Qed.
Example repr_ex13 : PyFloat.repr 1.5e-7%float = "1.5e-07".
Proof. vm_compute. reflexivity. Qed.
Example compare_lists_ex1 :
  Targeting.compare_lists (PStr "174;1351") (PStr "1351;174") = true.
Proof. vm_compute. reflexivity. Qed.
Example compare_lists_ex3 :
  Targeting.compare_lists (PFloat 174%float) (PStr "174") = true.
Proof. vm_compute. reflexivity. Qed.
Example app_bundle_ex :
  Targeting.validate_app_bundle_list
    [("Line Item Name", PStr "moa_sbv_q1_24_rm_x"); ("Exclude App Bundle List", PStr "1351;174");
     ("Advertiser ID", PInt 12); ("brief_lda_compliant", PStr "No")] = true.
Proof. vm_compute. reflexivity. Qed.
Example naming_end_to_end :
  NameAssign.check_line_item_name
    (NameAssign.mkBrief (Some ("_2024", "_24")) ["SBV"] false false false None (PStr "Standard"))
    [("line_item_name", PStr "MOA_SBV_Q1_24_Geo_BA");
     ("brief_platform_media", PStr "Mobile/Banner"); ("brief_geo_required", PStr "Yes")]
  = Some (NameAssign.mkResults true false false false false false [] false false false false true).
Proof. vm_compute. reflexivity. Qed.
Example py_float_ex2 : PyFloat.py_float " 1_0.5e-1 " = Some 1.05%float.
Proof. vm_compute. reflexivity. Qed.
Example py_float_ex4 : PyFloat.py_float "1e23" = Some 1e23%float.
Proof. vm_compute. reflexivity. Qed.
Example py_float_ex6 : PyFloat.py_float "1.7976931348623157e308" = Some 0x1.fffffffffffffp1023%float.
Proof. vm_compute. reflexivity. Qed.
Example format_ex1 : PyFloat.format_fixed 1 33.333333333333336%float = "33.3".
Proof. vm_compute. reflexivity. Qed.
Example format_ex3 : PyFloat.format_fixed 1 16.666666666666664%float = "16.7".
Proof. vm_compute. reflexivity. Qed.
Example format_ex5 : PyFloat.format_fixed 1 100%float = "100.0".
Proof. vm_compute. reflexivity. Qed.
Example repr_ex2 : PyFloat.repr (0.1 + 0.2)%float = "0.30000000000000004".
Proof. vm_compute. reflexivity. Qed.
Example repr_ex4 : PyFloat.repr 174%float = "174.0".
Proof. vm_compute. reflexivity. Qed.
Example repr_ex6 : PyFloat.repr 0x1.fffffffffffffp1023%float = "1.7976931348623157e+308".
Proof. vm_compute. reflexivity. Qed.
Example repr_ex8 : PyFloat.repr 0.0001%float = "0.0001".
Proof. vm_compute. reflexivity. Qed.
Example repr_ex10 : PyFloat.repr 1234567890123456%float = "1234567890123456.0".
Proof. vm_compute. reflexivity. Qed.
Example repr_ex12 : PyFloat.repr 9007199254740993%float = "9007199254740992.0".
Proof. vm_compute. reflexivity. Qed.
Example repr_ex14 : PyFloat.repr 2e22%float = "2e+22".
Proof. vm_compute. reflexivity. Qed.
Example compare_lists_ex2 :
  Targeting.compare_lists (PStr "174.0") (PStr "174") = true.
Proof. vm_compute. reflexivity. Qed.
Example compare_lists_ex4 :
  Targeting.compare_lists (PStr "") (PStr "") = true.
Proof. vm_compute. reflexivity. Qed.

(* ------------------------------------------------------------------ *)
(** ** Branch-table validators (targeting.py) *)

Lemma type_in_None (ts : list string) : Targeting.type_in None ts = false.
Proof. reflexivity. Qed.

Lemma no_prefix_no_type (v : pyval) :
  Targeting.has_platform_prefix v = false ->
  fst (Targeting.check_line_item_type v) = None.
Proof.
  destruct v as [| |name| | | |]; simpl; try reflexivity.
  unfold Targeting.has_platform_prefix. simpl.
  intros H.
  repeat (apply orb_false_elim in H; destruct H as [? H]).
  repeat match goal with
         | E : Py.startswith ?n ?p = false |- context [Py.startswith ?n ?p] => rewrite E
         end.
  reflexivity.
Qed.

(** C10. A row whose Line Item Name starts with none of the prefixes MOA_,
    MOW_, DE_, CTV_ has no line-item type, and the three branch-table
    validators answer False for it. *)
Theorem unrecognized_line_item_type_fails (r : row) :
  Targeting.has_platform_prefix (get r "Line Item Name" PNone) = false ->
  fst (Targeting.check_line_item_type (get r "Line Item Name" PNone)) = None
  /\ Targeting.validate_app_bundle_list r = false
  /\ Targeting.validate_domain_list r = false
  /\ Targeting.validate_environment_type r = false.
Proof.
  intros H. apply no_prefix_no_type in H.
  unfold Targeting.validate_app_bundle_list, Targeting.validate_domain_list,
    Targeting.validate_environment_type.
  destruct (Targeting.check_line_item_type (get r "Line Item Name" PNone)) as [t rm].
  simpl in H. subst t. rewrite !type_in_None. auto.
Qed.

Lemma unrecognized_line_item_type_fails_witness :
  Targeting.validate_app_bundle_list Targeting.unnamed_prefix_row = false
  /\ Targeting.validate_environment_type Targeting.unnamed_prefix_row = false.
Proof.
  pose proof (unrecognized_line_item_type_fails Targeting.unnamed_prefix_row eq_refl) as H.
  split; apply H.
Defined.

(* ------------------------------------------------------------------ *)
(** ** Naming rules (name_assign.py) *)

Section NamingFacts.
Import NameAssign.

Lemma contains_nonempty (sub : string) (c : ascii) (t s : string) :
  sub = String c t -> Py.contains sub s = true -> s <> EmptyString.
Proof. intros -> H ->. discriminate H. Qed.

Lemma is_empty_true (s : string) : Py.is_empty s = true <-> s = EmptyString.
Proof. destruct s; simpl; split; congruence. Qed.

Lemma is_empty_false (s : string) : Py.is_empty s = false <-> s <> EmptyString.
Proof. destruct s; simpl; split; congruence. Qed.

(** The results of a check on a name that is not blank. *)
Lemma check_blank (name : string) (c : checks) :
  Py.strip name = EmptyString ->
  check_naming_format (PStr name) c
  = mkResults true false false false false false [] false false false false false.
Proof. intros H. unfold check_naming_format. rewrite H. reflexivity. Qed.

Lemma hub_tag_campaign (b : brief) (name : string) :
  In "INFMT" (missing_hub_ifo_tag (check_naming_format (PStr name) (campaign_checks_config b)))
  <-> Py.strip name <> EmptyString /\ b_is_hub b = true
      /\ Py.contains "_INFMT_" (Py.upper (Py.strip name)) = false.
Proof.
  unfold check_naming_format.
  destruct (Py.is_empty (Py.strip name)) eqn:E.
  - apply is_empty_true in E. simpl. split; [tauto | intros [H _]; contradiction].
  - apply is_empty_false in E. simpl.
    destruct (b_is_hub b), (Py.contains "_INFMT_" (Py.upper (Py.strip name))),
      (b_is_ifo b && negb (Py.contains "_IFO_" (Py.upper (Py.strip name))));
      simpl; split; intros H; try tauto;
      repeat match goal with
             | H : _ \/ _ |- _ => destruct H
             | H : "IFO" = "INFMT" |- _ => discriminate H
             | H : _ /\ _ |- _ => destruct H
             | H : false = true |- _ => discriminate H
             | H : true = false |- _ => discriminate H
             end; try contradiction; auto.
Qed.

Lemma lda_tag_campaign (b : brief) (name : string) :
  missing_lda (check_naming_format (PStr name) (campaign_checks_config b)) = true
  <-> Py.strip name <> EmptyString /\ b_is_lda_required b = true
      /\ Py.contains "_LDA_" (Py.upper (Py.strip name)) = false.
Proof.
  unfold check_naming_format.
  destruct (Py.is_empty (Py.strip name)) eqn:E.
  - apply is_empty_true in E. simpl. split; [discriminate | intros [H _]; contradiction].
  - apply is_empty_false in E. simpl.
    destruct (b_is_lda_required b), (Py.contains "_LDA_" (Py.upper (Py.strip name)));
      simpl; split; intros H; try discriminate; try tauto;
      destruct H as (_ & H1 & H2); discriminate.
Qed.

Lemma derive_is_hub_spec (cd : field_table) :
  derive_is_hub cd = true
  <-> exists m, get_field_value cd "Measurement Type" PNone = PStr m
                /\ Py.contains "HUB:" (Py.upper m) = true.
Proof.
  unfold derive_is_hub.
  destruct (get_field_value cd "Measurement Type" PNone) as [| |m| | | |];
    try (split; [discriminate | intros (m' & H & _); discriminate H]).
  split.
  - intros H. apply andb_true_iff in H. exists m. tauto.
  - intros (m' & H & C). injection H as <-.
    apply andb_true_iff. split; [| exact C].
    destruct m; [discriminate C | reflexivity].
Qed.

Lemma derive_is_lda_required_spec (cd : field_table) :
  derive_is_lda_required cd = true
  <-> exists v, get_field_value cd "LDA or Age Compliant" PNone = PStr v
                /\ Py.lower (Py.strip v) = "yes".
Proof.
  unfold derive_is_lda_required.
  destruct (get_field_value cd "LDA or Age Compliant" PNone) as [| |v| | | |];
    try (split; [discriminate | intros (v' & H & _); discriminate H]).
  split.
  - intros H. apply andb_true_iff in H. destruct H as [_ H].
    apply String.eqb_eq in H. exists v. tauto.
  - intros (v' & H & C). injection H as <-.
    apply andb_true_iff. split.
    + destruct v; [discriminate C | reflexivity].
    + apply String.eqb_eq. exact C.
Qed.

End NamingFacts.

(** C6. Product type "BV - Standard" gives the short code SBV; the HUB flag
    is raised exactly by a Measurement Type text that holds "HUB:" (letter
    case aside), and a campaign name then lacks the tag exactly when it has
    no _INFMT_; the LDA flag is raised exactly by the value "Yes" (letter
    case and surrounding blanks aside), and a campaign name then lacks the
    tag exactly when it has no _LDA_. *)
Theorem naming_token_derivation :
  NameAssign.extract_product_type_shortform (PStr "BV - Standard") = Some "SBV"
  /\ NameAssign.derive_product_short_forms (PStr "BV - Standard") = ["SBV"]
  /\ NameAssign.derive_is_hub NameAssign.hub_campaign = true
  /\ NameAssign.derive_is_lda_required NameAssign.hub_campaign = true
  /\ (forall cd,
        NameAssign.derive_is_hub cd = true
        <-> exists m, NameAssign.get_field_value cd "Measurement Type" PNone = PStr m
                      /\ Py.contains "HUB:" (Py.upper m) = true)
  /\ (forall cd,
        NameAssign.derive_is_lda_required cd = true
        <-> exists v, NameAssign.get_field_value cd "LDA or Age Compliant" PNone = PStr v
                      /\ Py.lower (Py.strip v) = "yes")
  /\ (forall b name,
        In "INFMT" (NameAssign.missing_hub_ifo_tag
                      (NameAssign.check_naming_format (PStr name)
                         (NameAssign.campaign_checks_config b)))
        <-> Py.strip name <> EmptyString /\ NameAssign.b_is_hub b = true
            /\ Py.contains "_INFMT_" (Py.upper (Py.strip name)) = false)
  /\ (forall b name,
        NameAssign.missing_lda
          (NameAssign.check_naming_format (PStr name) (NameAssign.campaign_checks_config b))
        = true
        <-> Py.strip name <> EmptyString /\ NameAssign.b_is_lda_required b = true
            /\ Py.contains "_LDA_" (Py.upper (Py.strip name)) = false).
Proof.
  split; [reflexivity |]. split; [reflexivity |].
  split; [reflexivity |]. split; [reflexivity |].
  split; [exact derive_is_hub_spec |].
  split; [exact derive_is_lda_required_spec |].
  split; [exact hub_tag_campaign | exact lda_tag_campaign].
Qed.

Section GeoFacts.
Import NameAssign.

Lemma geo_mismatch_line_item (b : brief) (r : row) (name : string) :
  geo_mismatch (check_naming_format (PStr name) (li_checks_config b r))
  = negb (Py.is_empty (Py.strip name))
    && match geo_required_bool (get r "brief_geo_required" (PStr "N/A")) with
       | Some true => negb (Py.contains "_GEO_" (Py.upper (Py.strip name)))
       | Some false => Py.contains "_GEO_" (Py.upper (Py.strip name))
       | None => false
       end.
Proof.
  unfold check_naming_format, li_checks_config.
  destruct (row_platform_media r) as [platform media].
  destruct (Py.is_empty (Py.strip name)); reflexivity.
Qed.

End GeoFacts.

(** C4, as the code has it. On a line-item name that is not blank the geo
    check reports a mismatch when the flag reads as an affirmative and the
    name lacks _GEO_, or when the flag reads as a negative and the name has
    _GEO_; for a flag that reads as neither, such as the sentinel "N/A" or
    a missing value, it reports no mismatch whatever the name. *)
Theorem geo_check_three_outcomes :
  (forall b r name,
     NameAssign.geo_mismatch
       (NameAssign.check_naming_format (PStr name) (NameAssign.li_checks_config b r))
     = negb (Py.is_empty (Py.strip name))
       && match NameAssign.geo_required_bool (get r "brief_geo_required" (PStr "N/A")) with
          | Some true => negb (Py.contains "_GEO_" (Py.upper (Py.strip name)))
          | Some false => Py.contains "_GEO_" (Py.upper (Py.strip name))
          | None => false
          end)
  /\ (forall s,
        NameAssign.geo_required_bool (PStr s)
        = if Py.mem (Py.lower (Py.strip s)) ["yes"; "true"; "y"; "1"] then Some true
          else if Py.mem (Py.lower (Py.strip s)) ["no"; "false"; "n"; "0"; ""] then Some false
          else None)
  /\ NameAssign.geo_required_bool (PStr "Yes") = Some true
  /\ NameAssign.geo_required_bool (PStr "No") = Some false
  /\ NameAssign.geo_required_bool (PStr "N/A") = None
  /\ NameAssign.geo_required_bool PNaN = None.
Proof.
  split; [exact geo_mismatch_line_item |].
  repeat split; reflexivity.
Qed.

(** C4, the claim as stated fails: with the geo flag degraded to "N/A" a
    name with _GEO_ and a name without it both pass the geo check, so the
    token is neither required nor forbidden. *)
Lemma geo_check_skips_sentinel :
  get NameAssign.unmatched_geo_row "brief_geo_required" (PStr "N/A") = PStr "N/A"
  /\ Py.contains "_GEO_" (Py.upper "MOA_SBV_Q1_24_GEO_BA_") = true
  /\ option_map NameAssign.geo_mismatch
       (NameAssign.check_line_item_name NameAssign.sample_brief NameAssign.unmatched_geo_row)
     = Some false
  /\ get NameAssign.unmatched_plain_row "brief_geo_required" (PStr "N/A") = PStr "N/A"
  /\ Py.contains "_GEO_" (Py.upper "MOA_SBV_Q1_24_BA_") = false
  /\ option_map NameAssign.geo_mismatch
       (NameAssign.check_line_item_name NameAssign.sample_brief NameAssign.unmatched_plain_row)
     = Some false.
Proof. repeat split; vm_compute; reflexivity. Qed.

Section CreativeFacts.
Import NameAssign.





End CreativeFacts.




Example merge_brief_unmatched :
  Frame.rows (NameAssign.merge_brief NameAssign.qa_unmatched
                (Some NameAssign.target_other) (Some NameAssign.placement_other))
  = [[("line_item_name", PStr "MOA_SBV_Q1_24_GEO_BA_");
      ("line_item_alternative_id", PStr "bvt000000001");
      ("brief_bvp_id", PStr "nan"); ("brief_platform_media", PStr "N/A");
      ("brief_geo_required", PStr "N/A")]].
Proof. vm_compute. reflexivity. Qed.

Example bidding_ex :
  TargetingGeneral.validate_bidding_value (TargetingGeneral.mobile_banner_row (PStr "No") "2.40")
  = (true, 2.4%float, 2.4%float, "80.0%").
Proof. vm_compute. reflexivity. Qed.

Example merge_targeting_unmatched :
  map (fun r => (get r "brief_bvp_id" PNone, get r "brief_platform_media" PNone,
                 get r "brief_impressions" PNone, get r "brief_geo_required" PNone,
                 get r "brief_traffic_info" PNone, get r "brief_lda_compliant" PNone))
      (Frame.rows (TargetingGeneral.merge_brief TargetingGeneral.qa_unmatched []
                     (Some TargetingGeneral.target_other)
                     (Some TargetingGeneral.placement_other)))
  = [(PNaN, PNaN, PNaN, PNaN, PNaN, PStr "N/A")].
Proof. vm_compute. reflexivity. Qed.

(* ------------------------------------------------------------------ *)
(** ** CPM bidding formula (targeting_general.py) *)

Section BiddingFacts.
Import TargetingGeneral.

Lemma validate_bidding_value_eq (r : row) (actual base : float) :
  extract_cpm_bid (PStr (py_str (get r "Bidding Values" (PStr "")))) = Some actual ->
  get_base_cpm (brief_field r "brief_platform_media") (brief_field r "brief_geo_required")
               (brief_field r "brief_lda_compliant") = Some base ->
  validate_bidding_value r
  = (let addon :=
       fst (get_viewability_addon_cpm (brief_field r "brief_platform_media")
                                      (brief_field r "brief_viewability_goal")) in
     (PrimFloat.eqb (PrimFloat.add base addon) actual, PrimFloat.add base addon, actual,
      snd (get_viewability_addon_cpm (brief_field r "brief_platform_media")
                                     (brief_field r "brief_viewability_goal")))).
Proof.
  intros Ha Hb. unfold validate_bidding_value. rewrite Ha, Hb.
  destruct (get_viewability_addon_cpm _ _) as [addon shown]. reflexivity.
Qed.

End BiddingFacts.

(** C1. When a CPM can be read off the bidding blob and a base rule exists
    for the row's platform/media, the expected CPM is the base CPM plus the
    viewability add-on and the check passes exactly when the actual CPM
    equals it as a float, with no tolerance; without a readable CPM or a
    base rule the check fails. For Mobile/Banner, geo "No", goal "80%" the
    expected CPM is 2.00 + 0.40 = 2.40: a bid of 2.40 passes, 2.41 fails. *)
Theorem bidding_value_exact :
  (forall r actual base,
     TargetingGeneral.extract_cpm_bid (PStr (py_str (get r "Bidding Values" (PStr ""))))
     = Some actual ->
     TargetingGeneral.get_base_cpm
       (TargetingGeneral.brief_field r "brief_platform_media")
       (TargetingGeneral.brief_field r "brief_geo_required")
       (TargetingGeneral.brief_field r "brief_lda_compliant") = Some base ->
     let addon :=
       fst (TargetingGeneral.get_viewability_addon_cpm
              (TargetingGeneral.brief_field r "brief_platform_media")
              (TargetingGeneral.brief_field r "brief_viewability_goal")) in
     let answer := TargetingGeneral.validate_bidding_value r in
     TargetingGeneral.expected_cpm answer = PrimFloat.add base addon
     /\ TargetingGeneral.actual_cpm answer = actual
     /\ TargetingGeneral.is_valid answer = PrimFloat.eqb (PrimFloat.add base addon) actual)
  /\ (forall r,
        TargetingGeneral.extract_cpm_bid (PStr (py_str (get r "Bidding Values" (PStr ""))))
        = None
        \/ TargetingGeneral.get_base_cpm
             (TargetingGeneral.brief_field r "brief_platform_media")
             (TargetingGeneral.brief_field r "brief_geo_required")
             (TargetingGeneral.brief_field r "brief_lda_compliant") = None ->
        TargetingGeneral.is_valid (TargetingGeneral.validate_bidding_value r) = false)
  /\ (forall lda,
        TargetingGeneral.get_base_cpm (PStr "Mobile/Banner") (PStr "No") lda = Some 2%float
        /\ fst (TargetingGeneral.get_viewability_addon_cpm (PStr "Mobile/Banner") (PStr "80%"))
           = 0.4%float
        /\ PrimFloat.add 2 0.4 = 2.4%float
        /\ TargetingGeneral.validate_bidding_value
             (TargetingGeneral.mobile_banner_row lda "2.40")
           = (true, 2.4%float, 2.4%float, "80.0%")
        /\ TargetingGeneral.validate_bidding_value
             (TargetingGeneral.mobile_banner_row lda "2.41")
           = (false, 2.4%float, 2.41%float, "80.0%")).
Proof.
  split; [| split].
  - intros r actual base Ha Hb addon answer. subst addon answer.
    rewrite (validate_bidding_value_eq r actual base Ha Hb).
    repeat split.
  - intros r [Ha | Hb]; unfold TargetingGeneral.validate_bidding_value.
    + rewrite Ha. reflexivity.
    + destruct (TargetingGeneral.extract_cpm_bid _); [rewrite Hb |]; reflexivity.
  - intros lda. repeat split; vm_compute; reflexivity.
Qed.

Lemma bidding_value_exact_witness :
  TargetingGeneral.is_valid
    (TargetingGeneral.validate_bidding_value TargetingGeneral.desktop_video_row)
  = PrimFloat.eqb (PrimFloat.add 7.35 2.45) 9.8.
Proof.
  destruct bidding_value_exact as [general _].
  destruct (general TargetingGeneral.desktop_video_row 9.8%float 7.35%float) as (_ & _ & H).
  - vm_compute. reflexivity.
  - vm_compute. reflexivity.
  - rewrite H. vm_compute. reflexivity.
Defined.

Example budget_splits_mobile_pair :
  TargetingGeneral.budget_splits TargetingGeneral.mobile_pair = ["50.0%"; "50.0%"]
  /\ TargetingGeneral.validate_budget_split TargetingGeneral.report_columns
       (TargetingGeneral.with_splits TargetingGeneral.mobile_pair) = true.
Proof. repeat split; vm_compute; reflexivity. Qed.

Example budget_splits_mobile_twelve :
  TargetingGeneral.budget_splits TargetingGeneral.mobile_twelve = repeat "8.3%" 12
  /\ TargetingGeneral.validate_budget_split TargetingGeneral.report_columns
       (TargetingGeneral.with_splits TargetingGeneral.mobile_twelve) = false.
Proof. repeat split; vm_compute; reflexivity. Qed.

(* ------------------------------------------------------------------ *)
(** ** Budget splits (targeting_general.py) *)

Section RowFacts.

Lemma lookup_set (r : row) (c k : string) (v : pyval) :
  lookup (Frame.set r c v) k = if String.eqb c k then Some v else lookup r k.
Proof.
  induction r as [| [k' v'] t IH]; simpl.
  - destruct (String.eqb c k); reflexivity.
  - destruct (String.eqb k' c) eqn:E; simpl.
    + apply String.eqb_eq in E. subst k'. destruct (String.eqb c k); reflexivity.
    + rewrite IH. destruct (String.eqb c k) eqn:Eck; [| reflexivity].
      apply String.eqb_eq in Eck. subst k. rewrite E. reflexivity.
Qed.

Lemma get_set (r : row) (c k : string) (v d : pyval) :
  get (Frame.set r c v) k d = if String.eqb c k then v else get r k d.
Proof. unfold get. rewrite lookup_set. destruct (String.eqb c k); reflexivity. Qed.

End RowFacts.

Section BudgetFacts.
Import TargetingGeneral.













End BudgetFacts.



Example date_ex1 :
  BriefExtractor.standardize_date_format BriefExtractor.no_generic_parser (PInt 45000)
  = PStr "03/15/2023".
Proof. vm_compute. reflexivity. Qed.
Example date_ex2 :
  map (fun s => BriefExtractor.standardize_date_format BriefExtractor.no_generic_parser (PStr s))
      ["3/15/2023"; "2023-03-15"; "15/03/2023"; "March 15, 2023"; "mar 5, 2023"; "3/15/23";
       "15.03.2023"; "2023-02-30"; " 13-01-2023 "; "3/ 5/2023"; "1/2/69"; "garbage"]
  = map PStr
      ["03/15/2023"; "03/15/2023"; "03/15/2023"; "03/15/2023"; "03/05/2023"; "03/15/2023";
       "03/15/2023"; "2023-02-30"; "01/13/2023"; "03/05/2023"; "01/02/1969"; "garbage"].
Proof. vm_compute. reflexivity. Qed.
Example date_ex3 :
  BriefExtractor.standardize_date_format BriefExtractor.no_generic_parser (PFloat 45000.75)
  = PStr "03/15/2023".
Proof. vm_compute. reflexivity. Qed.

(* ------------------------------------------------------------------ *)
(** ** Date normalization (brief_extractor.py) *)

Section StripFacts.

Variable p : ascii -> bool.

Lemma lstrip_by_head (s : string) :
  match Py.lstrip_by p s with
  | EmptyString => True
  | String c _ => p c = false
  end.
Proof.
  induction s as [| c t IH]; simpl; [exact I |].
  destruct (p c) eqn:E; [exact IH | exact E].
Qed.

Lemma lstrip_by_fixed (c : ascii) (t : string) :
  p c = false -> Py.lstrip_by p (String c t) = String c t.
Proof. intros E. simpl. rewrite E. reflexivity. Qed.

Lemma rstrip_by_idem (s : string) :
  Py.rstrip_by p (Py.rstrip_by p s) = Py.rstrip_by p s.
Proof.
  induction s as [| c t IH]; simpl; [reflexivity |].
  destruct (Py.rstrip_by p t) as [| c' t'] eqn:E.
  - destruct (p c) eqn:Ec; simpl; [reflexivity |]. rewrite Ec. reflexivity.
  - simpl. simpl in IH. rewrite IH. reflexivity.
Qed.

Lemma rstrip_by_head (c : ascii) (t : string) :
  p c = false ->
  exists t', Py.rstrip_by p (String c t) = String c t'.
Proof.
  intros E. simpl. destruct (Py.rstrip_by p t).
  - rewrite E. eexists. reflexivity.
  - eexists. reflexivity.
Qed.

Lemma strip_by_idem (s : string) :
  Py.strip_by p (Py.strip_by p s) = Py.strip_by p s.
Proof.
  unfold Py.strip_by.
  pose proof (lstrip_by_head s) as H.
  destruct (Py.lstrip_by p s) as [| c t] eqn:E.
  - reflexivity.
  - destruct (rstrip_by_head c t H) as [t' Et]. rewrite Et.
    rewrite (lstrip_by_fixed c t' H). rewrite <- Et. apply rstrip_by_idem.
Qed.

End StripFacts.

Lemma strip_idem (s : string) : Py.strip (Py.strip s) = Py.strip s.
Proof. apply strip_by_idem. Qed.

Lemma zrange_forall (P : Z -> bool) (n : nat) :
  forall lo, forallb P (BriefExtractor.zrange lo n) = true ->
             forall z, lo <= z < lo + Z.of_nat n -> P z = true.
Proof.
  induction n as [| k IH]; intros lo H z Hz.
  - simpl in Hz. lia.
  - simpl in H. apply andb_true_iff in H. destruct H as [H0 H1].
    destruct (Z.eq_dec z lo) as [-> | Hne]; [exact H0 |].
    apply (IH (lo + 1) H1). lia.
Qed.

Lemma zrange_check (P : Z -> bool) (lo count : Z) :
  forallb P (BriefExtractor.zrange lo (Z.to_nat count)) = true ->
  forall z, lo <= z < lo + count -> P z = true.
Proof.
  intros H z Hz. apply (zrange_forall P (Z.to_nat count) lo H).
  rewrite Z2Nat.id; lia.
Qed.

Lemma two_digits_all : forall n, 0 <= n <= 99 -> BriefExtractor.two_digits_ok n = true.
Proof.
  intros n Hn.
  apply (zrange_check BriefExtractor.two_digits_ok 0 100); [vm_compute; reflexivity | lia].
Qed.

Lemma four_digits_all : forall n, 0 <= n <= 9999 -> BriefExtractor.four_digits_ok n = true.
Proof.
  intros n Hn.
  apply (zrange_check BriefExtractor.four_digits_ok 0 10000); [vm_compute; reflexivity | lia].
Qed.

Lemma serial_days_valid :
  forall n, 30000 <= n <= 69999 ->
            BriefExtractor.valid_date (BriefExtractor.date_of_serial n) = true.
Proof.
  intros n Hn.
  apply (zrange_check (fun n => BriefExtractor.valid_date (BriefExtractor.date_of_serial n))
                      30000 40000); [vm_compute; reflexivity | lia].
Qed.

Lemma digits2_pos_bounds (m : positive) :
  2 ^ (Z.pos (digits2_pos m) - 1) <= Z.pos m < 2 ^ Z.pos (digits2_pos m).
Proof.
  induction m as [p IH | p IH |]; cbn [digits2_pos].
  - rewrite Pos2Z.inj_succ.
    replace (Z.succ (Z.pos (digits2_pos p)) - 1) with (Z.succ (Z.pos (digits2_pos p) - 1)) by lia.
    rewrite !Z.pow_succ_r by lia. lia.
  - rewrite Pos2Z.inj_succ.
    replace (Z.succ (Z.pos (digits2_pos p)) - 1) with (Z.succ (Z.pos (digits2_pos p) - 1)) by lia.
    rewrite !Z.pow_succ_r by lia. lia.
  - simpl. lia.
Qed.

(** Division bounds without large-number search. *)
Lemma div_between (a b lo hi : Z) :
  0 < b -> lo * b <= a -> a < hi * b -> lo <= a / b < hi.
Proof.
  intros Hb Hlo Hhi. split.
  - apply Z.div_le_lower_bound; [exact Hb | rewrite Z.mul_comm; exact Hlo].
  - apply Z.div_lt_upper_bound; [exact Hb | rewrite Z.mul_comm; exact Hhi].
Qed.

Lemma float_serial_bounds (x : float) :
  PrimFloat.ltb 30000 x = true -> PrimFloat.ltb x 70000 = true ->
  30000 <= PyFloat.floor x <= 69999.
Proof.
  intros H1 H2. rewrite ltb_spec in H1, H2.
  replace (Prim2SF 30000%float) with (S754_finite false 8246337208320000 (-38)) in H1
    by (vm_compute; reflexivity).
  replace (Prim2SF 70000%float) with (S754_finite false 4810363371520000 (-36)) in H2
    by (vm_compute; reflexivity).
  pose proof (Prim2SF_valid x) as Hv. unfold PyFloat.floor.
  destruct (Prim2SF x) as [s | s | | s m e]; try discriminate H1; try (destruct s; discriminate).
  destruct s; [discriminate H1 |].
  unfold SFltb, SFcompare in H1, H2.
  cbn [valid_binary] in Hv. unfold bounded, canonical_mantissa, fexp in Hv.
  apply andb_true_iff in Hv. destruct Hv as [Hc _]. apply Z.eqb_eq in Hc.
  pose proof (digits2_pos_bounds m) as Hb.
  assert (-38 <= e <= -36) as He.
  { destruct (Z.compare_spec (-38) e), (Z.compare_spec e (-36)); try discriminate; lia. }
  change (emin prec emax) with (-1074) in Hc. change prec with 53 in Hc.
  assert (Z.pos (digits2_pos m) = 53) as Hdig by lia.
  rewrite Hdig in Hb.
  change (2 ^ (53 - 1)) with 4503599627370496 in Hb.
  change (2 ^ 53) with 9007199254740992 in Hb.
  assert (e = -38 \/ e = -37 \/ e = -36) as [-> | [-> | ->]] by lia.
  - rewrite Z.compare_refl in H1.
    destruct (PosDef.Pos.compare_cont Eq 8246337208320000 m) eqn:C; try discriminate H1.
    assert (8246337208320000 < Z.pos m) as C' by exact C.
    clear C H1 H2 Hc.
    change (0 <=? -38) with false. cbv iota.
    change (PyFloat.pow2 (- -38)) with 274877906944.
    assert (30000 <= Z.pos m / 274877906944 < 32768) as R.
    { apply div_between.
      - reflexivity.
      - apply Z.lt_le_incl. exact C'.
      - apply (Z.lt_le_trans _ 9007199254740992); [apply Hb | discriminate]. }
    destruct R as [R1 R2]. split; [exact R1 |].
    apply Z.lt_succ_r. apply (Z.lt_le_trans _ 32768); [exact R2 | discriminate].
  - clear H1 H2 Hc.
    change (0 <=? -37) with false. cbv iota.
    change (PyFloat.pow2 (- -37)) with 137438953472.
    assert (32768 <= Z.pos m / 137438953472 < 65536) as R.
    { apply div_between.
      - reflexivity.
      - apply Hb.
      - apply Hb. }
    destruct R as [R1 R2]. split.
    + apply (Z.le_trans _ 32768); [discriminate | exact R1].
    + apply Z.lt_succ_r. apply (Z.lt_le_trans _ 65536); [exact R2 | discriminate].
  - rewrite Z.compare_refl in H2.
    destruct (PosDef.Pos.compare_cont Eq m 4810363371520000) eqn:C; try discriminate H2.
    assert (Z.pos m < 4810363371520000) as C' by exact C.
    clear C H1 H2 Hc.
    change (0 <=? -36) with false. cbv iota.
    change (PyFloat.pow2 (- -36)) with 68719476736.
    assert (65536 <= Z.pos m / 68719476736 < 70000) as R.
    { apply div_between.
      - reflexivity.
      - apply Hb.
      - exact C'. }
    destruct R as [R1 R2]. split.
    + apply (Z.le_trans _ 65536); [discriminate | exact R1].
    + apply Z.lt_succ_r. exact R2.
Qed.

Lemma serial_float_live (x : float) :
  PrimFloat.ltb 30000 x = true -> PrimFloat.is_zero x = false /\ PrimFloat.is_nan x = false.
Proof.
  intros H1. unfold PrimFloat.is_zero, PrimFloat.is_nan. rewrite !eqb_spec.
  rewrite ltb_spec in H1.
  replace (Prim2SF 30000%float) with (S754_finite false 8246337208320000 (-38)) in H1
    by (vm_compute; reflexivity).
  destruct (Prim2SF x) as [s | s | | s m e]; try discriminate H1;
    destruct s; try discriminate H1; (split; [vm_compute; reflexivity |]).
  - reflexivity.
  - unfold SFeqb, SFcompare. rewrite Z.compare_refl.
    change (PosDef.Pos.compare_cont Eq m m) with (Pos.compare m m).
    rewrite Pos.compare_refl. reflexivity.
Qed.

(** A serial number in range is neither falsy nor missing. *)
Lemma serial_day_live (v : pyval) (n : Z) :
  BriefExtractor.serial_day v = Some n -> negb (truthy v) || isna v = false.
Proof.
  destruct v as [| | s | k | x | b | d]; cbn [BriefExtractor.serial_day]; try discriminate.
  - destruct ((30000 <? k) && (k <? 70000)) eqn:E; [| discriminate]. intros _.
    apply andb_true_iff in E. destruct E as [E _]. apply Z.ltb_lt in E.
    cbn [truthy isna]. destruct (k =? 0) eqn:E0; [apply Z.eqb_eq in E0; lia | reflexivity].
  - destruct (PrimFloat.ltb 30000 x && PrimFloat.ltb x 70000) eqn:E; [| discriminate].
    intros _. apply andb_true_iff in E. destruct E as [E _].
    destruct (serial_float_live x E) as [Hz Hn].
    cbn [truthy isna]. rewrite Hz, Hn. reflexivity.
Qed.

Section DateFacts.
Import BriefExtractor.

Lemma days_in_month_le (y m : Z) : days_in_month y m <= 31.
Proof.
  unfold days_in_month.
  destruct (m =? 2); [destruct (is_leap y); lia |].
  destruct ((m =? 4) || (m =? 6) || (m =? 9) || (m =? 11)); lia.
Qed.

Lemma valid_date_bounds (d : date) :
  valid_date d = true ->
  1 <= year d <= 9999 /\ 1 <= month d <= 12 /\ 1 <= day d <= 31.
Proof.
  unfold valid_date. intros H.
  repeat (apply andb_true_iff in H; destruct H as [H ?]).
  pose proof (days_in_month_le (year d) (month d)). lia.
Qed.

Lemma strftime_shape (d : date) :
  valid_date d = true ->
  exists m1 m2 d1 d2 y1 y2 y3 y4,
    strftime d = date_text m1 m2 d1 d2 y1 y2 y3 y4
    /\ forallb Py.is_digit [m1; m2; d1; d2; y1; y2; y3; y4] = true
    /\ num2 m1 m2 = month d /\ num2 d1 d2 = day d
    /\ PyFloat.Z_of_digits [y1; y2; y3; y4] = year d.
Proof.
  intros H. apply valid_date_bounds in H. destruct H as (Hy & Hm & Hd).
  pose proof (two_digits_all (month d) ltac:(lia)) as Em.
  pose proof (two_digits_all (day d) ltac:(lia)) as Ed.
  pose proof (four_digits_all (year d) ltac:(lia)) as Ey.
  unfold two_digits_ok in Em, Ed. unfold four_digits_ok in Ey. unfold strftime.
  destruct (two_digits (month d)) as [| m1 [| m2 [| ? ?]]]; try discriminate Em.
  destruct (two_digits (day d)) as [| d1 [| d2 [| ? ?]]]; try discriminate Ed.
  destruct (four_digits (year d)) as [| y1 [| y2 [| y3 [| y4 [| ? ?]]]]]; try discriminate Ey.
  apply andb_true_iff in Em. destruct Em as [Em Nm].
  apply andb_true_iff in Em. destruct Em as [Hm1 Hm2].
  apply andb_true_iff in Ed. destruct Ed as [Ed Nd].
  apply andb_true_iff in Ed. destruct Ed as [Hd1 Hd2].
  apply andb_true_iff in Ey. destruct Ey as [Ey Ny].
  apply andb_true_iff in Ey. destruct Ey as [Ey Hy4].
  apply andb_true_iff in Ey. destruct Ey as [Ey Hy3].
  apply andb_true_iff in Ey. destruct Ey as [Hy1 Hy2].
  exists m1, m2, d1, d2, y1, y2, y3, y4.
  split; [reflexivity |].
  split.
  - cbn [forallb]. rewrite Hm1, Hm2, Hd1, Hd2, Hy1, Hy2, Hy3, Hy4. reflexivity.
  - repeat split; apply Z.eqb_eq; assumption.
Qed.

Lemma digit_not_space (c : ascii) : Py.is_digit c = true -> Py.is_space c = false.
Proof.
  destruct c as [[|] [|] [|] [|] [|] [|] [|] [|]]; intros H;
    first [reflexivity | discriminate H].
Qed.

Lemma date_text_facts (m1 m2 d1 d2 y1 y2 y3 y4 : ascii) :
  forallb Py.is_digit [m1; m2; d1; d2; y1; y2; y3; y4] = true ->
  Py.strip (date_text m1 m2 d1 d2 y1 y2 y3 y4) = date_text m1 m2 d1 d2 y1 y2 y3 y4
  /\ is_mmddyyyy (date_text m1 m2 d1 d2 y1 y2 y3 y4) = true
  /\ parse_fmt [D_Y; D_lit "-"; D_m; D_lit "-"; D_d]
               (date_text m1 m2 d1 d2 y1 y2 y3 y4) (1900, 1, 1) = None.
Proof.
  intros H. cbn [forallb] in H.
  repeat (apply andb_true_iff in H; destruct H as [? H]).
  repeat match goal with
         | H : Py.is_digit ?c = true |- _ =>
             pose proof (digit_not_space c H); revert H
         end.
  intros.
  split; [| split].
  - unfold Py.strip, Py.strip_by, date_text. cbn [Py.lstrip_by].
    rewrite (digit_not_space m1) by assumption.
    cbn [Py.rstrip_by]. rewrite (digit_not_space y4) by assumption. reflexivity.
  - unfold is_mmddyyyy, date_text. cbn [list_ascii_of_string forallb].
    repeat match goal with H : Py.is_digit _ = true |- _ => rewrite H; clear H end.
    reflexivity.
  - unfold date_text. cbn [parse_fmt].
    replace (Py.is_digit "/") with false by reflexivity.
    rewrite !andb_false_r. reflexivity.
Qed.

Lemma parse_second_format (m1 m2 d1 d2 y1 y2 y3 y4 : ascii) :
  forallb Py.is_digit [m1; m2; d1; d2; y1; y2; y3; y4] = true ->
  1 <= num2 m1 m2 <= 12 -> 1 <= num2 d1 d2 <= 31 ->
  parse_fmt [D_m; D_lit "/"; D_d; D_lit "/"; D_Y]
            (date_text m1 m2 d1 d2 y1 y2 y3 y4) (1900, 1, 1)
  = Some (PyFloat.Z_of_digits [y1; y2; y3; y4], num2 m1 m2, num2 d1 d2).
Proof.
  intros H Hm Hd. cbn [forallb] in H.
  repeat (apply andb_true_iff in H; destruct H as [? H]).
  unfold date_text. cbn [parse_fmt].
  repeat match goal with H : Py.is_digit _ = true |- _ => rewrite H; clear H end.
  replace (1 <=? num2 m1 m2) with true by (symmetry; apply Z.leb_le; lia).
  replace (num2 m1 m2 <=? 12) with true by (symmetry; apply Z.leb_le; lia).
  replace (1 <=? num2 d1 d2) with true by (symmetry; apply Z.leb_le; lia).
  replace (num2 d1 d2 <=? 31) with true by (symmetry; apply Z.leb_le; lia).
  reflexivity.
Qed.

Lemma strptime_first_strftime (d : date) :
  valid_date d = true -> strptime_first (strftime d) = Some d.
Proof.
  intros Hv.
  destruct (strftime_shape d Hv) as (m1 & m2 & d1 & d2 & y1 & y2 & y3 & y4 & Es & Hdig & Em & Ed & Ey).
  pose proof (valid_date_bounds d Hv) as (_ & Hm & Hd).
  destruct (date_text_facts m1 m2 d1 d2 y1 y2 y3 y4 Hdig) as (_ & _ & Hfirst).
  pose proof (parse_second_format m1 m2 d1 d2 y1 y2 y3 y4 Hdig
                ltac:(rewrite Em; exact Hm) ltac:(rewrite Ed; exact Hd)) as Hsecond.
  rewrite Es. unfold strptime_first, date_formats. cbn [fold_right].
  unfold strptime at 1. rewrite Hfirst. cbn [first_some].
  unfold strptime at 1. rewrite Hsecond, Em, Ed, Ey.
  destruct d as [y m dd]. cbn [year month day] in *. rewrite Hv. reflexivity.
Qed.

Lemma strptime_valid (s : string) (fmt : list directive) (d : date) :
  strptime s fmt = Some d -> valid_date d = true.
Proof.
  unfold strptime. destruct (parse_fmt fmt s (1900, 1, 1)) as [[[y m] dd] |]; [| discriminate].
  destruct (valid_date (mkDate y m dd)) eqn:E; [| discriminate].
  intros H. injection H as <-. exact E.
Qed.

Lemma strptime_first_valid (s : string) (d : date) :
  strptime_first s = Some d -> valid_date d = true.
Proof.
  unfold strptime_first. generalize date_formats. intros l.
  induction l as [| fmt l IH]; cbn [fold_right]; [discriminate |].
  destruct (strptime s fmt) as [d' |] eqn:E; cbn [first_some].
  - intros H. injection H as <-. exact (strptime_valid s fmt d' E).
  - exact IH.
Qed.

Lemma strftime_not_empty (d : date) :
  valid_date d = true -> truthy (PStr (strftime d)) = true.
Proof.
  intros Hv.
  destruct (strftime_shape d Hv) as (m1 & m2 & d1 & d2 & y1 & y2 & y3 & y4 & Es & _).
  rewrite Es. reflexivity.
Qed.


Section Host.
Variable to_datetime : pyval -> option date.
Hypothesis to_datetime_valid : forall v d, to_datetime v = Some d -> valid_date d = true.

Lemma standardize_date_text (d : date) :
  valid_date d = true ->
  standardize_date_format to_datetime (PStr (strftime d)) = PStr (strftime d).
Proof.
  intros Hv. unfold standardize_date_format.
  rewrite (strftime_not_empty d Hv). cbn [negb orb isna serial_day py_str].
  destruct (strftime_shape d Hv) as (m1 & m2 & d1 & d2 & y1 & y2 & y3 & y4 & Es & Hdig & _).
  destruct (date_text_facts m1 m2 d1 d2 y1 y2 y3 y4 Hdig) as (Hstrip & _).
  rewrite <- Es in Hstrip. rewrite Hstrip.
  rewrite (strptime_first_strftime d Hv). reflexivity.
Qed.

Lemma serial_day_valid (v : pyval) (n : Z) :
  serial_day v = Some n -> valid_date (date_of_serial n) = true.
Proof.
  destruct v as [| | s | k | x | b | d]; cbn [serial_day]; try discriminate.
  - destruct ((30000 <? k) && (k <? 70000)) eqn:E; [| discriminate].
    intros H. injection H as <-.
    apply andb_true_iff in E. destruct E as [E1 E2].
    apply Z.ltb_lt in E1. apply Z.ltb_lt in E2.
    apply serial_days_valid. lia.
  - destruct (PrimFloat.ltb 30000 x && PrimFloat.ltb x 70000) eqn:E; [| discriminate].
    intros H. injection H as <-.
    apply andb_true_iff in E. destruct E as [E1 E2].
    apply serial_days_valid. apply float_serial_bounds; assumption.
Qed.

(** The three ways [standardize_date_format] answers. *)
Lemma standardize_cases (v : pyval) :
  wf_value v = true ->
  (negb (truthy v) || isna v = true /\ standardize_date_format to_datetime v = v)
  \/ (negb (truthy v) || isna v = false
      /\ exists d, valid_date d = true
                   /\ standardize_date_format to_datetime v = PStr (strftime d))
  \/ (negb (truthy v) || isna v = false
      /\ serial_day v = None
      /\ strptime_first (Py.strip (py_str v)) = None
      /\ to_datetime v = None
      /\ standardize_date_format to_datetime v = PStr (Py.strip (py_str v))).
Proof.
  intros Hwf. unfold standardize_date_format.
  destruct (negb (truthy v) || isna v) eqn:E; [left; split; reflexivity |].
  right.
  assert (forall d, valid_date d = true ->
                    exists d', valid_date d' = true /\ PStr (strftime d) = PStr (strftime d'))
    as ok by (intros d Hd; exists d; split; [exact Hd | reflexivity]).
  destruct (serial_day v) as [n |] eqn:Es.
  - left. split; [reflexivity |].
    pose proof (serial_day_valid v n Es) as Hn.
    destruct v; try discriminate Es; apply ok; exact Hn.
  - destruct (strptime_first (Py.strip (py_str v))) as [d |] eqn:Ep.
    + left. split; [reflexivity |].
      pose proof (strptime_first_valid _ d Ep) as Hd.
      destruct v as [| | s | k | x | b | d0];
        try (apply ok; exact Hd); apply ok; exact Hwf.
    + destruct (to_datetime v) as [d |] eqn:Et.
      * left. split; [reflexivity |].
        pose proof (to_datetime_valid v d Et) as Hd.
        destruct v as [| | s | k | x | b | d0];
          try (apply ok; exact Hd); apply ok; exact Hwf.
      * destruct v as [| | s | k | x | b | d0];
          try (right; repeat split; reflexivity).
        left. split; [reflexivity |]. apply ok. exact Hwf.
Qed.

Hypothesis to_datetime_stable :
  forall v, to_datetime v = None -> to_datetime (PStr (Py.strip (py_str v))) = None.

Lemma standardize_idempotent (v : pyval) :
  wf_value v = true ->
  standardize_date_format to_datetime (standardize_date_format to_datetime v)
  = standardize_date_format to_datetime v.
Proof.
  intros Hwf.
  destruct (standardize_cases v Hwf) as [[_ H] | [(_ & d & Hd & H) | (_ & _ & Hp & Ht & H)]].
  - rewrite H. exact H.
  - rewrite H. apply standardize_date_text. exact Hd.
  - rewrite H. unfold standardize_date_format.
    cbn [truthy isna orb serial_day py_str].
    destruct (Py.is_empty (Py.strip (py_str v))); cbn [negb orb]; [reflexivity |].
    rewrite strip_idem, Hp, (to_datetime_stable v Ht). reflexivity.
Qed.

End Host.

End DateFacts.

(** C5, as the code has it. Date normalization is idempotent on every
    value a cell can hold, for a host whose generic parser reads dates of the
    calendar and still reads nothing once a value it read nothing from is
    written out and trimmed. Two representations normalize to the same text
    when the function reads them as the same day: a native date, a serial
    number in range whose day it is, and a text in which the first format
    that matches reads that day, all give the MM/DD/YYYY text of the day; so
    the serial number 45000 and the text "3/15/2023" both give 03/15/2023.
    A text written day first need not be read as its day: the serial number
    44990 of 5 March 2023 gives 03/05/2023, the text 05/03/2023 stays as it
    is. *)
Theorem date_normalization_idempotent (to_datetime : pyval -> option date) :
  (forall v d, to_datetime v = Some d -> BriefExtractor.valid_date d = true) ->
  (forall v, to_datetime v = None -> to_datetime (PStr (Py.strip (py_str v))) = None) ->
  (forall v,
     BriefExtractor.wf_value v = true ->
     BriefExtractor.standardize_date_format to_datetime
       (BriefExtractor.standardize_date_format to_datetime v)
     = BriefExtractor.standardize_date_format to_datetime v)
  /\ (forall d v n s,
        BriefExtractor.serial_day v = Some n ->
        BriefExtractor.date_of_serial n = d ->
        BriefExtractor.strptime_first (Py.strip s) = Some d ->
        BriefExtractor.standardize_date_format to_datetime (PDate d)
        = PStr (BriefExtractor.strftime d)
        /\ BriefExtractor.standardize_date_format to_datetime v
           = PStr (BriefExtractor.strftime d)
        /\ BriefExtractor.standardize_date_format to_datetime (PStr s)
           = PStr (BriefExtractor.strftime d))
  /\ BriefExtractor.standardize_date_format to_datetime (PInt 45000) = PStr "03/15/2023"
  /\ BriefExtractor.standardize_date_format to_datetime (PFloat 45000) = PStr "03/15/2023"
  /\ BriefExtractor.standardize_date_format to_datetime (PStr "3/15/2023") = PStr "03/15/2023"
  /\ BriefExtractor.standardize_date_format to_datetime (PInt 45000)
     = BriefExtractor.standardize_date_format to_datetime (PStr "3/15/2023")
  /\ BriefExtractor.date_of_serial 44990 = mkDate 2023 3 5
  /\ BriefExtractor.standardize_date_format to_datetime (PInt 44990) = PStr "03/05/2023"
  /\ BriefExtractor.strptime_first "05/03/2023" = Some (mkDate 2023 5 3)
  /\ BriefExtractor.standardize_date_format to_datetime (PStr "05/03/2023")
     = PStr "05/03/2023".
Proof.
  intros Hvalid Hstable.
  split; [intros v Hwf; apply standardize_idempotent; assumption |].
  split; [| repeat split; vm_compute; reflexivity].
  intros d v n s Hn Hd Hs. split; [reflexivity |]. split.
  - unfold BriefExtractor.standardize_date_format.
    rewrite (serial_day_live v n Hn).
    destruct v as [| | s0 | k | x | b | d0]; try discriminate Hn;
      cbv beta iota; rewrite Hn, Hd; reflexivity.
  - unfold BriefExtractor.standardize_date_format.
    destruct s as [| a s]; [vm_compute in Hs; discriminate Hs |].
    cbn [truthy isna Py.is_empty negb orb BriefExtractor.serial_day py_str].
    rewrite Hs. reflexivity.
Qed.

Lemma date_normalization_idempotent_witness :
  BriefExtractor.standardize_date_format BriefExtractor.no_generic_parser
    (BriefExtractor.standardize_date_format BriefExtractor.no_generic_parser
       (PStr " 13-01-2023 "))
  = BriefExtractor.standardize_date_format BriefExtractor.no_generic_parser
      (PStr " 13-01-2023 ").
Proof.
  assert (forall v d, BriefExtractor.no_generic_parser v = Some d ->
                      BriefExtractor.valid_date d = true) as H1
    by (intros v d H; discriminate H).
  assert (forall v, BriefExtractor.no_generic_parser v = None ->
                    BriefExtractor.no_generic_parser (PStr (Py.strip (py_str v))) = None) as H2
    by (intros v H; reflexivity).
  destruct (date_normalization_idempotent BriefExtractor.no_generic_parser H1 H2) as [H _].
  apply H. reflexivity.
Defined.

(** C5, the claim as stated fails: the serial number 44990 and the text
    05/03/2023, written day first, are two representations of 5 March 2023;
    the serial number gives 03/05/2023, while the text is read month first by
    an earlier format of the list and stays 05/03/2023. *)
Lemma date_representations_differ :
  BriefExtractor.date_of_serial 44990 = mkDate 2023 3 5
  /\ BriefExtractor.strptime "05/03/2023" [BriefExtractor.D_d; BriefExtractor.D_lit "/";
                                           BriefExtractor.D_m; BriefExtractor.D_lit "/";
                                           BriefExtractor.D_Y]
     = Some (mkDate 2023 3 5)
  /\ (forall to_datetime,
        BriefExtractor.standardize_date_format to_datetime (PInt 44990) = PStr "03/05/2023")
  /\ (forall to_datetime,
        BriefExtractor.standardize_date_format to_datetime (PStr "05/03/2023")
        = PStr "05/03/2023")
  /\ String.eqb "03/05/2023" "05/03/2023" = false.
Proof. repeat split; intros; vm_compute; reflexivity. Qed.

(** C9, as the code has it. A value that is empty, zero or missing is
    returned as it is. Any other value a cell can hold gives a text, and the
    first of these cases that applies decides which: a native date gives its
    own MM/DD/YYYY text; a serial number in range gives the text of its day;
    a value whose trimmed text one of the formats reads gives the text of the
    date read; a value the generic parser reads gives the text of that date;
    and when all of these fail the answer is the value written out and
    trimmed. In the first four cases the text has the shape MM/DD/YYYY. The
    function answers for every such value. *)
Theorem date_normalization_total (to_datetime : pyval -> option date) (v : pyval) :
  (forall v d, to_datetime v = Some d -> BriefExtractor.valid_date d = true) ->
  BriefExtractor.wf_value v = true ->
  (negb (truthy v) || isna v = true ->
   BriefExtractor.standardize_date_format to_datetime v = v)
  /\ (negb (truthy v) || isna v = false ->
      (forall d,
         v = PDate d ->
         BriefExtractor.standardize_date_format to_datetime v
         = PStr (BriefExtractor.strftime d)
         /\ BriefExtractor.is_mmddyyyy (BriefExtractor.strftime d) = true)
      /\ (forall n,
            BriefExtractor.serial_day v = Some n ->
            BriefExtractor.standardize_date_format to_datetime v
            = PStr (BriefExtractor.strftime (BriefExtractor.date_of_serial n))
            /\ BriefExtractor.is_mmddyyyy
                 (BriefExtractor.strftime (BriefExtractor.date_of_serial n)) = true)
      /\ ((forall d, v <> PDate d) ->
          BriefExtractor.serial_day v = None ->
          (forall d,
             BriefExtractor.strptime_first (Py.strip (py_str v)) = Some d ->
             BriefExtractor.standardize_date_format to_datetime v
             = PStr (BriefExtractor.strftime d)
             /\ BriefExtractor.is_mmddyyyy (BriefExtractor.strftime d) = true)
          /\ (BriefExtractor.strptime_first (Py.strip (py_str v)) = None ->
              (forall d,
                 to_datetime v = Some d ->
                 BriefExtractor.standardize_date_format to_datetime v
                 = PStr (BriefExtractor.strftime d)
                 /\ BriefExtractor.is_mmddyyyy (BriefExtractor.strftime d) = true)
              /\ (to_datetime v = None ->
                  BriefExtractor.standardize_date_format to_datetime v
                  = PStr (Py.strip (py_str v)))))).
Proof.
  intros Hvalid Hwf.
  assert (forall d, BriefExtractor.valid_date d = true ->
                    BriefExtractor.is_mmddyyyy (BriefExtractor.strftime d) = true) as Hshape.
  { intros d Hd.
    destruct (strftime_shape d Hd)
      as (m1 & m2 & d1 & d2 & y1 & y2 & y3 & y4 & Es & Hdig & _).
    rewrite Es. apply (date_text_facts m1 m2 d1 d2 y1 y2 y3 y4 Hdig). }
  unfold BriefExtractor.standardize_date_format.
  split; [intros ->; reflexivity |].
  intros ->. split; [| split].
  - intros d ->. split; [reflexivity | apply Hshape; exact Hwf].
  - intros n Hn. pose proof (serial_day_valid v n Hn) as Hd. rewrite Hn.
    split; [| apply Hshape; exact Hd].
    destruct v; try discriminate Hn; reflexivity.
  - intros Hnodate Hserial.
    destruct v as [| | s | k | x0 | b0 | d0];
      try (exfalso; apply (Hnodate d0); reflexivity);
      cbv beta iota; rewrite Hserial;
      (split;
       [intros d Hd; rewrite Hd;
        split; [reflexivity | apply Hshape, (strptime_first_valid _ d Hd)]
       | intros Hnone; rewrite Hnone;
         split;
         [intros d Hd; rewrite Hd; split; [reflexivity | apply Hshape, (Hvalid _ d Hd)]
         | intros ->; reflexivity]]).
Qed.

Lemma date_normalization_total_witness :
  BriefExtractor.standardize_date_format BriefExtractor.no_generic_parser
    (PStr "March 15, 2023")
  = PStr (BriefExtractor.strftime (mkDate 2023 3 15))
  /\ BriefExtractor.is_mmddyyyy (BriefExtractor.strftime (mkDate 2023 3 15)) = true.
Proof.
  assert (forall v d, BriefExtractor.no_generic_parser v = Some d ->
                      BriefExtractor.valid_date d = true) as H1
    by (intros v d H; discriminate H).
  destruct (date_normalization_total BriefExtractor.no_generic_parser
              (PStr "March 15, 2023") H1 eq_refl) as [_ Hcases].
  destruct (Hcases eq_refl) as (_ & _ & Htext).
  destruct Htext as [Hread _]; [intros d H; discriminate H | reflexivity |].
  apply Hread. vm_compute. reflexivity.
Defined.

(** C9, the claim as stated fails: a missing value, None and the number 0
    are returned as they are, and none of them is a text. *)
Lemma date_normalization_returns_missing :
  (forall to_datetime, BriefExtractor.standardize_date_format to_datetime PNaN = PNaN)
  /\ (forall to_datetime, BriefExtractor.standardize_date_format to_datetime PNone = PNone)
  /\ (forall to_datetime, BriefExtractor.standardize_date_format to_datetime (PInt 0) = PInt 0)
  /\ (forall s, PNaN <> PStr s).
Proof. repeat split; intros; try reflexivity. discriminate. Qed.

(* ------------------------------------------------------------------ *)
(** ** Joins with the brief *)

(** C3, the code at the failing input. A line item whose alternate id
    matches no Target record: after the joins of name_assign.py its
    brief_bvp_id is the text "nan", and after the joins of
    targeting_general.py its five brief-context columns hold the missing
    value; neither is the sentinel "N/A". *)
Theorem unmatched_join_not_sentinel :
  map (fun r => (get r "brief_bvp_id" PNone, get r "brief_platform_media" PNone,
                 get r "brief_geo_required" PNone))
      (Frame.rows (NameAssign.merge_brief NameAssign.qa_unmatched
                     (Some NameAssign.target_other) (Some NameAssign.placement_other)))
  = [(PStr "nan", PStr "N/A", PStr "N/A")]
  /\ map (fun r => (get r "brief_bvp_id" PNone, get r "brief_platform_media" PNone,
                    get r "brief_impressions" PNone, get r "brief_geo_required" PNone,
                    get r "brief_traffic_info" PNone))
         (Frame.rows (TargetingGeneral.merge_brief TargetingGeneral.qa_unmatched []
                        (Some TargetingGeneral.target_other)
                        (Some TargetingGeneral.placement_other)))
     = [(PNaN, PNaN, PNaN, PNaN, PNaN)].
Proof. split; vm_compute; reflexivity. Qed.

Example extraction_plain :
  BriefExtractor.extract_structured_brief_data BriefExtractor.no_generic_parser
    (BriefExtractor.Ok BriefExtractor.plain_brief)
  = BriefExtractor.mkStructured
      (Some (Frame.mkFrame ["Account Name"] [[("Account Name", PStr "ACME")]]))
      None
      (Some (Frame.mkFrame ["BV Placement Name"; "Notes"; "Start Date"; "Geo Required"]
               [[("BV Placement Name", PStr "Spring Launch"); ("Notes", PStr "first");
                 ("Start Date", PStr "03/15/2023"); ("Geo Required", PStr "Yes")]]))
      (Some (Frame.mkFrame ["BV ID"; "BVP"; "BVT"]
               [[("BV ID", PStr "1"); ("BVP", PStr "BVP000000001");
                 ("BVT", PStr "BVT000000001")]])).
Proof. vm_compute. reflexivity. Qed.

(* ------------------------------------------------------------------ *)
(** ** The sections of a brief *)

Section ExtractionFacts.

Import BriefExtractor.

Variable to_datetime : pyval -> option date.

Lemma fold_left_invariant {A B : Type} (P : A -> Prop) (f : A -> B -> A) (l : list B) :
  (forall a b, P a -> P (f a b)) -> forall a, P a -> P (fold_left f l a).
Proof.
  intros Hstep. induction l as [| b l IH]; intros a Ha; simpl.
  - exact Ha.
  - apply IH. apply Hstep. exact Ha.
Qed.

Lemma campaign_cell_known (r : list pyval) (found : record) (cell : nat * pyval) :
  known_fields found -> known_fields (campaign_cell to_datetime r found cell).
Proof.
  intros Hk. unfold campaign_cell.
  destruct (isna (snd cell)); [exact Hk |].
  match goal with |- context [find ?p target_fields] =>
    destruct (find p target_fields) as [[field vars] |] eqn:Hf end; [| exact Hk].
  apply find_some in Hf. destruct Hf as [Hin _].
  intros k Hin'. rewrite map_app in Hin'. apply in_app_or in Hin'.
  destruct Hin' as [Hin' | [<- | []]].
  - apply Hk. exact Hin'.
  - apply (in_map fst) in Hin. exact Hin.
Qed.

Lemma record_get_head (found : record) (k : string) :
  In k (map fst found) -> exists v, record_get found k = Some v.
Proof.
  induction found as [| [k' v'] t IH]; intros Hin; simpl in *.
  - contradiction.
  - destruct (String.eqb k' k) eqn:E.
    + exists v'. reflexivity.
    + destruct Hin as [-> | Hin]; [rewrite String.eqb_refl in E; discriminate |].
      apply IH. exact Hin.
Qed.

(** A campaign table that is returned has a row. *)
Lemma campaign_not_empty (brief_df : grid) (l : list (pyval * pyval)) :
  extract_campaign_data_from_excel to_datetime brief_df = Some l -> l <> [].
Proof.
  unfold extract_campaign_data_from_excel.
  match goal with |- context [fold_left ?f ?rows []] =>
    assert (known_fields (fold_left f rows [])) as Hk;
    [| destruct (fold_left f rows []) as [| [k v] found] eqn:Hfound] end.
  - apply fold_left_invariant.
    + intros found r Hk. destruct (all_na r); [exact Hk |].
      apply fold_left_invariant; [| exact Hk].
      intros a b. apply campaign_cell_known.
    + intros k [].
  - discriminate.
  - intros H Hnil. subst l.
    assert (In k (map fst target_fields)) as Hin by (apply Hk; left; reflexivity).
    apply in_map_iff in Hin. destruct Hin as (fv & <- & Hfv).
    destruct (record_get_head ((fst fv, v) :: found) (fst fv)) as [value Hv];
      [left; reflexivity |].
    match type of H with
    | Some ?ordered = Some [] =>
        assert (ordered = []) as Hf by congruence;
        assert (In (PStr (fst fv), PStr value) ordered) as Hin
    end.
    { apply in_flat_map. exists fv. split; [exact Hfv |]. rewrite Hv. left. reflexivity. }
    rewrite Hf in Hin. exact Hin.
Qed.

(** The records of a table are not empty. *)
Lemma table_records_not_empty (headers : list string) (data : list (list pyval))
    (l : list record) :
  table_records headers data = Ok l -> Forall (fun rec => rec <> []) l.
Proof.
  revert l. induction data as [| r data IH]; intros l H; simpl in H.
  - injection H as <-. constructor.
  - destruct (row_record headers (combine headers r) []) as [rec | e]; [| discriminate H].
    simpl in H.
    destruct (table_records headers data) as [rest | e]; [| discriminate H].
    simpl in H. injection H as <-.
    specialize (IH rest eq_refl).
    destruct rec as [| kv rec]; [exact IH |].
    constructor; [discriminate | exact IH].
Qed.

Lemma placements_not_empty (brief_df : grid) (l : list record) :
  extract_placement_data_from_excel brief_df = Ok l -> Forall (fun rec => rec <> []) l.
Proof.
  unfold extract_placement_data_from_excel, bind.
  destruct (first_row _ (rows_from 20 brief_df)) as [[h |] | e]; intros H;
    try discriminate H; try (injection H as <-; constructor).
  destruct (first_row ends_placements _) as [[stop |] | e];
    try discriminate H; try (injection H as <-; constructor).
  destruct (firstn _ _) as [| header_row data]; [injection H as <-; constructor |].
  apply (table_records_not_empty _ _ _ H).
Qed.

Lemma targets_not_empty (brief_df : grid) (l : list record) :
  extract_target_data_from_excel brief_df = Ok l -> Forall (fun rec => rec <> []) l.
Proof.
  unfold extract_target_data_from_excel, bind.
  destruct (first_row _ (rows_from 20 brief_df)) as [[h |] | e]; intros H;
    try discriminate H; try (injection H as <-; constructor).
  destruct (until_blank _) as [| header_row data]; [injection H as <-; constructor |].
  apply (table_records_not_empty _ _ _ H).
Qed.

(** A frame made of records that are not empty holds data. *)
Lemma frame_of_records_has_data (rec : record) (rest : list record) :
  rec <> [] -> frame_empty (frame_of_records (rec :: rest)) = false.
Proof.
  intros Hrec. destruct rec as [| [k v] rec]; [contradiction |]. reflexivity.
Qed.

Lemma standardize_column_empty (df : Frame.frame) (col : string) :
  frame_empty (standardize_column to_datetime df col) = frame_empty df.
Proof.
  unfold standardize_column. destruct (Frame.has_col df col) eqn:Hc; [| reflexivity].
  unfold Frame.assign, frame_empty. rewrite Hc. cbn [Frame.columns Frame.rows].
  destruct (Frame.columns df); [reflexivity |].
  destruct (Frame.rows df); reflexivity.
Qed.

Lemma account_section_data (account : record) :
  account_section account = None \/ has_data (account_section account) = true.
Proof.
  destruct account as [| kv account]; [left; reflexivity | right].
  unfold account_section, has_data.
  rewrite frame_of_records_has_data by discriminate. reflexivity.
Qed.

Lemma placement_section_data (placements : list record) :
  Forall (fun rec => rec <> []) placements ->
  placement_section to_datetime placements = None
  \/ has_data (placement_section to_datetime placements) = true.
Proof.
  intros Hall. destruct placements as [| rec rest]; [left; reflexivity | right].
  unfold placement_section, has_data.
  rewrite !standardize_column_empty.
  rewrite frame_of_records_has_data; [reflexivity |].
  inversion Hall; assumption.
Qed.

Lemma target_section_data (targets : list record) :
  Forall (fun rec => rec <> []) targets ->
  target_section targets = None \/ has_data (target_section targets) = true.
Proof.
  intros Hall. destruct targets as [| rec rest]; [left; reflexivity | right].
  unfold target_section, has_data.
  rewrite frame_of_records_has_data; [reflexivity |].
  inversion Hall; assumption.
Qed.

(** What the orchestrator returns, section by section. *)
Lemma structured_sections (brief_df : grid) :
  let s := extract_structured_brief_data to_datetime (Ok brief_df) in
  account_data s = account_section (extract_account_data_from_excel brief_df)
  /\ campaign_data s = extract_campaign_data_from_excel to_datetime brief_df
  /\ match extract_placement_data_from_excel brief_df with
     | Raise _ => placement_data s = None /\ target_data s = None
     | Ok placements =>
         placement_data s = placement_section to_datetime placements
         /\ match extract_target_data_from_excel brief_df with
            | Raise _ => target_data s = None
            | Ok targets => target_data s = target_section targets
            end
     end.
Proof.
  unfold extract_structured_brief_data.
  destruct (extract_placement_data_from_excel brief_df) as [placements | e];
    [| repeat split].
  destruct (extract_target_data_from_excel brief_df) as [targets | e]; repeat split.
Qed.

(** Every section returned is either absent or holds data. *)
Lemma structured_data_or_none (read_excel : result grid) :
  let s := extract_structured_brief_data to_datetime read_excel in
  (account_data s = None \/ has_data (account_data s) = true)
  /\ (campaign_data s = None \/ exists x l, campaign_data s = Some (x :: l))
  /\ (placement_data s = None \/ has_data (placement_data s) = true)
  /\ (target_data s = None \/ has_data (target_data s) = true).
Proof.
  destruct read_excel as [brief_df | e]; [| cbn; repeat split; left; reflexivity].
  intros s. destruct (structured_sections brief_df) as (Ha & Hc & Hpt).
  fold s in Ha, Hc, Hpt.
  split; [rewrite Ha; apply account_section_data |].
  split.
  { rewrite Hc.
    destruct (extract_campaign_data_from_excel to_datetime brief_df) as [l |] eqn:E;
      [right | left; reflexivity].
    destruct l as [| x l]; [exfalso; apply (campaign_not_empty _ _ E); reflexivity |].
    exists x, l. reflexivity. }
  destruct (extract_placement_data_from_excel brief_df) as [placements | e] eqn:Ep.
  - destruct Hpt as [Hp Ht]. split.
    + rewrite Hp. apply placement_section_data. apply (placements_not_empty _ _ Ep).
    + destruct (extract_target_data_from_excel brief_df) as [targets | e] eqn:Et.
      * rewrite Ht. apply target_section_data. apply (targets_not_empty _ _ Et).
      * left. exact Ht.
  - destruct Hpt as [Hp Ht]. split; left; assumption.
Qed.

Lemma extraction_failed_iff (read_excel : result grid) :
  let s := extract_structured_brief_data to_datetime read_excel in
  extraction_failed s = true
  <-> account_data s = None /\ campaign_data s = None
      /\ placement_data s = None /\ target_data s = None.
Proof.
  intros s. destruct (structured_data_or_none read_excel) as (Ha & Hc & Hp & Ht).
  fold s in Ha, Hc, Hp, Ht. unfold extraction_failed. split.
  - intros H. apply negb_true_iff in H.
    apply orb_false_iff in H. destruct H as [H H4].
    apply orb_false_iff in H. destruct H as [H H3].
    apply orb_false_iff in H. destruct H as [H1 H2].
    repeat split.
    + destruct Ha as [Ha | Ha]; [exact Ha | rewrite Ha in H1; discriminate].
    + destruct Hc as [Hc | (x & l & Hc)]; [exact Hc | rewrite Hc in H2; discriminate].
    + destruct Hp as [Hp | Hp]; [exact Hp | rewrite Hp in H3; discriminate].
    + destruct Ht as [Ht | Ht]; [exact Ht | rewrite Ht in H4; discriminate].
  - intros (-> & -> & -> & ->). reflexivity.
Qed.

End ExtractionFacts.

(** C8, as the code has it. Extraction answers for every brief. A file
    that cannot be read gives four absent sections. Otherwise the account
    and campaign sections are what their own extractors give; a placement
    table whose extraction raises leaves the placement and the target
    section absent, whatever the target table holds; a placement section
    that is merely absent leaves the target section to its own extractor,
    which leaves it absent when it raises. The caller reports a failed
    extraction exactly when all four sections are absent. *)
Theorem extraction_failure_policy (to_datetime : pyval -> option date) :
  (forall e,
     BriefExtractor.extract_structured_brief_data to_datetime (BriefExtractor.Raise e)
     = BriefExtractor.mkStructured None None None None)
  /\ (forall brief_df,
        let s := BriefExtractor.extract_structured_brief_data to_datetime
                   (BriefExtractor.Ok brief_df) in
        BriefExtractor.account_data s
        = BriefExtractor.account_section
            (BriefExtractor.extract_account_data_from_excel brief_df)
        /\ BriefExtractor.campaign_data s
           = BriefExtractor.extract_campaign_data_from_excel to_datetime brief_df
        /\ match BriefExtractor.extract_placement_data_from_excel brief_df with
           | BriefExtractor.Raise _ =>
               BriefExtractor.placement_data s = None /\ BriefExtractor.target_data s = None
           | BriefExtractor.Ok placements =>
               BriefExtractor.placement_data s
               = BriefExtractor.placement_section to_datetime placements
               /\ match BriefExtractor.extract_target_data_from_excel brief_df with
                  | BriefExtractor.Raise _ => BriefExtractor.target_data s = None
                  | BriefExtractor.Ok targets =>
                      BriefExtractor.target_data s = BriefExtractor.target_section targets
                  end
           end)
  /\ (forall read_excel,
        let s := BriefExtractor.extract_structured_brief_data to_datetime read_excel in
        BriefExtractor.extraction_failed s = true
        <-> BriefExtractor.account_data s = None /\ BriefExtractor.campaign_data s = None
            /\ BriefExtractor.placement_data s = None /\ BriefExtractor.target_data s = None).
Proof.
  split; [intros e; reflexivity |].
  split; [exact (structured_sections to_datetime) |].
  exact (extraction_failed_iff to_datetime).
Qed.

(** C8, the claim as stated fails: in a brief whose placement table has two
    columns of one title, extracting the placements raises; the target
    table, which its own extractor reads, is then never extracted, and the
    brief comes back with the account section alone. *)
Lemma extraction_aborts_after_failure :
  BriefExtractor.extract_placement_data_from_excel BriefExtractor.twin_title_brief
  = BriefExtractor.Raise "ValueError"
  /\ BriefExtractor.extract_target_data_from_excel BriefExtractor.twin_title_brief
     = BriefExtractor.Ok [[("BV ID", "1"); ("BVP", "BVP000000001"); ("BVT", "BVT000000001")]]
  /\ (forall to_datetime,
        BriefExtractor.extract_structured_brief_data to_datetime
          (BriefExtractor.Ok BriefExtractor.twin_title_brief)
        = BriefExtractor.mkStructured
            (Some (Frame.mkFrame ["Account Name"] [[("Account Name", PStr "ACME")]]))
            None None None)
  /\ BriefExtractor.target_section
       [[("BV ID", "1"); ("BVP", "BVP000000001"); ("BVT", "BVT000000001")]]
     = Some (Frame.mkFrame ["BV ID"; "BVP"; "BVT"]
               [[("BV ID", PStr "1"); ("BVP", PStr "BVP000000001");
                 ("BVT", PStr "BVT000000001")]]).
Proof. repeat split; intros; vm_compute; reflexivity. Qed.

(* ================================================================== *)
(** * Further properties of the rule engines *)

(* ------------------------------------------------------------------ *)
(** ** List comparison (targeting.py) *)

Section ListFacts.

Import Targeting.

Lemma mem_refl (x : string) (l : list string) : In x l -> Py.mem x l = true.
Proof.
  intros H. unfold Py.mem. apply existsb_exists. exists x.
  split; [exact H | apply String.eqb_refl].
Qed.

Lemma subset_refl (l : list string) : subset l l = true.
Proof.
  unfold subset. apply forallb_forall. intros x Hx. apply mem_refl. exact Hx.
Qed.

(** Two values with one normal form compare equal. *)
Lemma compare_lists_same_normal_form (a b : pyval) :
  normalize_list_values a = normalize_list_values b -> compare_lists a b = true.
Proof.
  intros H. unfold compare_lists. rewrite H.
  destruct (isna a && isna b); [reflexivity |].
  destruct (Py.is_empty (normalize_list_values b)); [reflexivity |].
  cbn [andb]. rewrite subset_refl. reflexivity.
Qed.

(** *** The order of strings *)

Lemma ascii_compare_trans (a b c : ascii) :
  Ascii.compare a b = Lt -> Ascii.compare b c = Lt -> Ascii.compare a c = Lt.
Proof.
  unfold Ascii.compare. rewrite !N.compare_lt_iff. apply N.lt_trans.
Qed.

Lemma ascii_compare_eq (a b : ascii) : Ascii.compare a b = Eq -> a = b.
Proof.
  unfold Ascii.compare. intros H. apply N.compare_eq in H.
  rewrite <- (ascii_N_embedding a), <- (ascii_N_embedding b), H. reflexivity.
Qed.

Lemma string_compare_lt_trans (s1 : string) :
  forall s2 s3,
    String.compare s1 s2 = Lt -> String.compare s2 s3 = Lt -> String.compare s1 s3 = Lt.
Proof.
  induction s1 as [| a s1 IH]; intros [| b s2] [| c s3]; simpl;
    try discriminate; try reflexivity.
  destruct (Ascii.compare a b) eqn:Eab; try discriminate.
  - apply ascii_compare_eq in Eab. subst b.
    destruct (Ascii.compare a c); try discriminate; [apply IH | reflexivity].
  - intros _. destruct (Ascii.compare b c) eqn:Ebc; try discriminate.
    + apply ascii_compare_eq in Ebc. subst c. rewrite Eab. reflexivity.
    + rewrite (ascii_compare_trans a b c Eab Ebc). reflexivity.
Qed.

Lemma string_leb_trans (s1 s2 s3 : string) :
  String.leb s1 s2 = true -> String.leb s2 s3 = true -> String.leb s1 s3 = true.
Proof.
  unfold String.leb.
  destruct (String.compare s1 s2) eqn:E12; try discriminate;
    destruct (String.compare s2 s3) eqn:E23; try discriminate; intros _ _.
  - apply String.compare_eq_iff in E12. subst s2. rewrite E23. reflexivity.
  - apply String.compare_eq_iff in E12. subst s2. rewrite E23. reflexivity.
  - apply String.compare_eq_iff in E23. subst s3. rewrite E12. reflexivity.
  - rewrite (string_compare_lt_trans _ _ _ E12 E23). reflexivity.
Qed.

(** *** Sorting *)

Lemma insert_sorted_in (x y : string) (l : list string) :
  In y (insert_sorted x l) -> y = x \/ In y l.
Proof.
  induction l as [| h t IH]; simpl.
  - intros [<- | []]. left. reflexivity.
  - destruct (String.leb x h).
    + intros [<- | H]; [left; reflexivity | right; exact H].
    + intros [<- | H]; [right; left; reflexivity |].
      destruct (IH H) as [-> | H']; [left; reflexivity | right; right; exact H'].
Qed.

Lemma insert_sorted_ascending (x : string) (l : list string) :
  ascending l -> ascending (insert_sorted x l).
Proof.
  induction 1 as [| h t Hh Ht IH]; simpl.
  - constructor; [intros y [] | constructor].
  - destruct (String.leb x h) eqn:E.
    + constructor; [| constructor; assumption].
      intros y [<- | Hy]; [exact E |].
      apply (string_leb_trans x h y E). apply Hh. exact Hy.
    + constructor; [| exact IH].
      intros y Hy. destruct (insert_sorted_in _ _ _ Hy) as [-> | Hy'].
      * destruct (String.leb_total x h) as [H | H]; [congruence | exact H].
      * apply Hh. exact Hy'.
Qed.

Lemma sorted_ascending (l : list string) : ascending (sorted l).
Proof.
  induction l as [| x l IH]; simpl; [constructor | apply insert_sorted_ascending; exact IH].
Qed.

Lemma insert_sorted_head (x : string) (l : list string) :
  (forall y, In y l -> String.leb x y = true) -> insert_sorted x l = x :: l.
Proof.
  destruct l as [| h t]; simpl; [reflexivity |].
  intros H. rewrite (H h) by (left; reflexivity). reflexivity.
Qed.

Lemma insert_sorted_swap (x y : string) (l : list string) :
  ascending l ->
  insert_sorted x (insert_sorted y l) = insert_sorted y (insert_sorted x l).
Proof.
  induction 1 as [| h t Hh Ht IH]; simpl.
  - destruct (String.leb x y) eqn:Exy, (String.leb y x) eqn:Eyx; try reflexivity.
    + rewrite (String.leb_antisym _ _ Exy Eyx). reflexivity.
    + destruct (String.leb_total x y); congruence.
  - destruct (String.leb y h) eqn:Eyh, (String.leb x h) eqn:Exh; simpl.
    + destruct (String.leb x y) eqn:Exy, (String.leb y x) eqn:Eyx;
        rewrite ?Eyh, ?Exh; try reflexivity.
      * rewrite (String.leb_antisym _ _ Exy Eyx). reflexivity.
      * destruct (String.leb_total x y); congruence.
    + rewrite Eyh.
      destruct (String.leb x y) eqn:Exy; [| rewrite Exh; reflexivity].
      rewrite (string_leb_trans _ _ _ Exy Eyh) in Exh. discriminate.
    + rewrite Exh.
      destruct (String.leb y x) eqn:Eyx; [| rewrite Eyh; reflexivity].
      rewrite (string_leb_trans _ _ _ Eyx Exh) in Eyh. discriminate.
    + rewrite Exh, Eyh. rewrite IH. reflexivity.
Qed.

Lemma sorted_permutation (l l' : list string) :
  Permutation l l' -> sorted l = sorted l'.
Proof.
  induction 1 as [| x l l' _ IH | x y l | l l' l'' _ IH1 _ IH2]; simpl.
  - reflexivity.
  - rewrite IH. reflexivity.
  - apply insert_sorted_swap. apply sorted_ascending.
  - rewrite IH1. exact IH2.
Qed.

(** *** Splitting and joining *)

Lemma split_by_not_nil (p : ascii -> bool) (s : string) : Py.split_by p s <> [].
Proof.
  destruct s as [| a t]; simpl; [discriminate |].
  destruct (p a); [discriminate |].
  destruct (Py.split_by p t); discriminate.
Qed.

Lemma split_on_free (c : ascii) (s : string) :
  Py.contains (String c EmptyString) s = false -> Py.split_on c s = [s].
Proof.
  unfold Py.split_on. induction s as [| a t IH]; simpl; [reflexivity |].
  intros H. apply orb_false_iff in H. destruct H as [H1 H2].
  destruct (Ascii.eqb a c) eqn:E.
  - apply Ascii.eqb_eq in E. subst a. simpl in H1.
    revert H1; destruct (ascii_dec c c) as [_ | n]; [destruct t; discriminate | congruence].
  - rewrite (IH H2). reflexivity.
Qed.

Lemma split_on_app (c : ascii) (s t : string) :
  Py.contains (String c EmptyString) s = false ->
  Py.split_on c (s ++ String c t) = s :: Py.split_on c t.
Proof.
  unfold Py.split_on. induction s as [| a s IH]; simpl.
  - intros _. rewrite Ascii.eqb_refl. reflexivity.
  - intros H. apply orb_false_iff in H. destruct H as [H1 H2].
    destruct (Ascii.eqb a c) eqn:E.
    + apply Ascii.eqb_eq in E. subst a. simpl in H1.
      revert H1; destruct (ascii_dec c c) as [_ | n]; [destruct s; discriminate | congruence].
    + rewrite (IH H2). reflexivity.
Qed.

(** Joining items that hold no separator and splitting again gives the
    items back. *)
Lemma split_join (c : ascii) (x : string) (l : list string) :
  (forall y, In y (x :: l) -> Py.contains (String c EmptyString) y = false) ->
  Py.split_on c (Py.join (String c EmptyString) (x :: l)) = x :: l.
Proof.
  revert x. induction l as [| y l IH]; intros x H.
  - simpl. apply split_on_free. apply H. left. reflexivity.
  - change (Py.join (String c EmptyString) (x :: y :: l))
      with (x ++ String c (Py.join (String c EmptyString) (y :: l))).
    rewrite split_on_app by (apply H; left; reflexivity).
    rewrite IH; [reflexivity |]. intros z Hz. apply H. right. exact Hz.
Qed.

Lemma normalize_text (s : string) :
  normalize_list_values (PStr s)
  = Py.join ";" (sorted (map normalize_item (Py.split_on ";" s))).
Proof. destruct s; reflexivity. Qed.

Lemma normalize_joined (l l' : list string) :
  Permutation l l' ->
  (forall x, In x l -> Py.contains ";" x = false) ->
  normalize_list_values (PStr (Py.join ";" l))
  = normalize_list_values (PStr (Py.join ";" l')).
Proof.
  intros Hp Hfree. rewrite !normalize_text.
  destruct l as [| x l].
  - apply Permutation_nil in Hp. subst l'. reflexivity.
  - destruct l' as [| x' l'];
      [apply Permutation_sym, Permutation_nil in Hp; discriminate Hp |].
    rewrite (split_join ";" x l Hfree).
    rewrite (split_join ";" x' l').
    + rewrite (sorted_permutation _ _ (Permutation_map normalize_item Hp)). reflexivity.
    + intros y Hy. apply Hfree. apply (Permutation_in _ (Permutation_sym Hp)). exact Hy.
Qed.

End ListFacts.

(** X1. The list comparison does not depend on which of the two values is
    the actual one and which the expected one. *)
Theorem compare_lists_symmetric (actual expected : pyval) :
  Targeting.compare_lists actual expected = Targeting.compare_lists expected actual.
Proof.
  unfold Targeting.compare_lists.
  rewrite (andb_comm (isna actual) (isna expected)).
  destruct (isna expected && isna actual); [reflexivity |].
  rewrite (andb_comm (Py.is_empty (Targeting.normalize_list_values actual))).
  destruct (Py.is_empty (Targeting.normalize_list_values expected)
            && Py.is_empty (Targeting.normalize_list_values actual)); [reflexivity |].
  apply andb_comm.
Qed.

(** X2. The list comparison ignores the order of the items: two texts made
    of the same items, none of which holds a semicolon, joined by
    semicolons in any two orders, compare equal. *)
Theorem compare_lists_any_order (items items' : list string) :
  Permutation items items' ->
  (forall x, In x items -> Py.contains ";" x = false) ->
  Targeting.compare_lists (PStr (Py.join ";" items)) (PStr (Py.join ";" items')) = true.
Proof.
  intros Hp Hfree. apply compare_lists_same_normal_form.
  apply normalize_joined; assumption.
Qed.

Lemma compare_lists_any_order_witness :
  Targeting.compare_lists (PStr "os x;windows;chrome os") (PStr "chrome os;os x;windows") = true.
Proof.
  apply (compare_lists_any_order ["os x"; "windows"; "chrome os"]
                                 ["chrome os"; "os x"; "windows"]).
  - apply Permutation_sym. apply (Permutation_cons_app ["os x"; "windows"] [] "chrome os").
    apply Permutation_refl.
  - intros x [<- | [<- | [<- | []]]]; reflexivity.
Defined.

(* ------------------------------------------------------------------ *)
(** ** Checks by line-item type (targeting.py) *)

Section TypeFacts.

Import Targeting.

Lemma type_in_spec (t : option string) (ts : list string) :
  type_in t ts = true <-> exists s, t = Some s /\ In s ts.
Proof.
  destruct t as [s |]; simpl.
  - unfold Py.mem. rewrite existsb_exists. split.
    + intros (x & Hx & E). apply String.eqb_eq in E. subst x. exists s. split; [reflexivity | exact Hx].
    + intros (x & E & Hx). injection E as <-. exists s. split; [exact Hx | apply String.eqb_refl].
  - split; [discriminate | intros (s & E & _); discriminate E].
Qed.

Lemma type_in_disjoint (t : option string) (ts ts' : list string) :
  (forall s, In s ts -> In s ts' -> False) ->
  type_in t ts = true -> type_in t ts' = false.
Proof.
  intros Hd H. apply type_in_spec in H. destruct H as (s & -> & Hs).
  destruct (type_in (Some s) ts') eqn:E; [| reflexivity].
  apply type_in_spec in E. destruct E as (s' & E & Hs'). injection E as <-.
  destruct (Hd s Hs Hs').
Qed.

End TypeFacts.

(** X3. A row passes the operating-system check only with exactly one of
    the two fields filled: the device type, and no operating system, on a
    CTV line item; the operating system, and no device type, on a MOA, MOW
    or DE line item. A line item of no recognized type never passes. *)
Theorem operating_system_one_field (r : row) :
  Targeting.validate_operating_system r = true ->
  let line_type := fst (Targeting.check_line_item_type (get r "Line Item Name" PNone)) in
  let os_value := Py.strip (py_str (get r "Include Operating System" (PStr ""))) in
  let device_type := Py.strip (py_str (get r "Include Device Type" (PStr ""))) in
  (line_type = Some "CTV"
   /\ Targeting.is_empty os_value = true /\ Targeting.is_empty device_type = false)
  \/ ((line_type = Some "MOA" \/ line_type = Some "MOW" \/ line_type = Some "DE")
      /\ Targeting.is_empty os_value = false /\ Targeting.is_empty device_type = true).
Proof.
  unfold Targeting.validate_operating_system.
  destruct (Targeting.check_line_item_type (get r "Line Item Name" PNone)) as [t rm].
  cbn [fst]. intros H.
  destruct (Targeting.type_in t ["CTV"]) eqn:Ectv.
  - apply type_in_spec in Ectv. destruct Ectv as (s & -> & [<- | []]).
    left. split; [reflexivity |].
    destruct (Targeting.is_empty (Py.strip (py_str (get r "Include Operating System" (PStr "")))));
      [| discriminate H].
    destruct (Targeting.is_empty (Py.strip (py_str (get r "Include Device Type" (PStr "")))));
      [discriminate H |].
    split; reflexivity.
  - right.
    assert ((t = Some "MOA" \/ t = Some "MOW" \/ t = Some "DE")
            /\ (if negb (Targeting.is_empty
                           (Py.strip (py_str (get r "Include Device Type" (PStr "")))))
                then false
                else if Targeting.is_empty
                          (Py.strip (py_str (get r "Include Operating System" (PStr ""))))
                     then false else true) = true) as [Ht Hv].
    { destruct (Targeting.type_in t ["MOA"; "MOW"]) eqn:Emo.
      - apply type_in_spec in Emo. destruct Emo as (s & -> & [<- | [<- | []]]).
        + split; [left; reflexivity |].
          destruct (negb _); [discriminate H |]. destruct (Targeting.is_empty _);
            [discriminate H | reflexivity].
        + split; [right; left; reflexivity |].
          destruct (negb _); [discriminate H |]. destruct (Targeting.is_empty _);
            [discriminate H | reflexivity].
      - destruct (Targeting.type_in t ["DE"]) eqn:Ede; [| discriminate H].
        apply type_in_spec in Ede. destruct Ede as (s & -> & [<- | []]).
        split; [right; right; reflexivity |].
        destruct (negb _); [discriminate H |]. destruct (Targeting.is_empty _);
          [discriminate H | reflexivity]. }
    split; [exact Ht |].
    destruct (Targeting.is_empty (Py.strip (py_str (get r "Include Device Type" (PStr "")))));
      [| discriminate Hv].
    destruct (Targeting.is_empty (Py.strip (py_str (get r "Include Operating System" (PStr "")))));
      [discriminate Hv |].
    split; reflexivity.
Qed.

Lemma operating_system_one_field_witness :
  (fst (Targeting.check_line_item_type (PStr "ctv_sbv_q1_24_vi_")) = Some "CTV"
   /\ Targeting.is_empty "" = true /\ Targeting.is_empty "7;8;3;6" = false)
  \/ ((fst (Targeting.check_line_item_type (PStr "ctv_sbv_q1_24_vi_")) = Some "MOA"
       \/ fst (Targeting.check_line_item_type (PStr "ctv_sbv_q1_24_vi_")) = Some "MOW"
       \/ fst (Targeting.check_line_item_type (PStr "ctv_sbv_q1_24_vi_")) = Some "DE")
      /\ Targeting.is_empty "" = false /\ Targeting.is_empty "7;8;3;6" = true).
Proof.
  apply (operating_system_one_field
           [("Line Item Name", PStr "ctv_sbv_q1_24_vi_"); ("Include Device Type", PStr " 7;8;3;6 ")]).
  vm_compute. reflexivity.
Defined.

(** X4. No row passes both exclusion-list checks with both lists filled:
    when the app-bundle check and the domain-list check pass, the domain
    list is empty on a MOA or CTV line item and the app-bundle list is
    empty on a MOW or DE line item; and the environment type the third
    check then accepts is 1 in the first case and 0 in the second. *)
Theorem exclusion_lists_follow_type (r : row) :
  Targeting.validate_app_bundle_list r = true ->
  Targeting.validate_domain_list r = true ->
  let line_type := fst (Targeting.check_line_item_type (get r "Line Item Name" PNone)) in
  let env_type := Py.strip (py_str (get r "Include Environment Type" (PStr ""))) in
  (Targeting.type_in line_type ["MOA"; "CTV"] = true
   /\ Targeting.is_effectively_empty (get r "Exclude Domain List ID" PNone) = true
   /\ Targeting.validate_environment_type r = String.eqb env_type "1")
  \/ (Targeting.type_in line_type ["MOW"; "DE"] = true
      /\ Targeting.is_effectively_empty (get r "Exclude App Bundle List" PNone) = true
      /\ Targeting.validate_environment_type r = String.eqb env_type "0").
Proof.
  unfold Targeting.validate_app_bundle_list, Targeting.validate_domain_list,
    Targeting.validate_environment_type.
  destruct (Targeting.check_line_item_type (get r "Line Item Name" PNone)) as [t rm].
  cbn [fst]. intros Happ Hdom.
  destruct (Targeting.type_in t ["MOA"; "CTV"]) eqn:E1.
  - left. split; [reflexivity |].
    rewrite (type_in_disjoint t ["MOA"; "CTV"] ["MOW"; "DE"]) in Hdom.
    + split; [exact Hdom | reflexivity].
    + intros s [<- | [<- | []]] [E | [E | []]]; discriminate E.
    + exact E1.
  - right. destruct (Targeting.type_in t ["MOW"; "DE"]) eqn:E2; [| discriminate Happ].
    split; [reflexivity |]. split; [exact Happ | reflexivity].
Qed.

Lemma exclusion_lists_follow_type_witness :
  (Targeting.type_in (fst (Targeting.check_line_item_type (PStr "MOW_SBV_Q1_24_BA_")))
     ["MOA"; "CTV"] = true
   /\ Targeting.is_effectively_empty (PStr "94") = true
   /\ Targeting.validate_environment_type
        [("Line Item Name", PStr "MOW_SBV_Q1_24_BA_"); ("Exclude Domain List ID", PStr "94");
         ("Include Environment Type", PStr "0")] = String.eqb "0" "1")
  \/ (Targeting.type_in (fst (Targeting.check_line_item_type (PStr "MOW_SBV_Q1_24_BA_")))
        ["MOW"; "DE"] = true
      /\ Targeting.is_effectively_empty PNone = true
      /\ Targeting.validate_environment_type
           [("Line Item Name", PStr "MOW_SBV_Q1_24_BA_"); ("Exclude Domain List ID", PStr "94");
            ("Include Environment Type", PStr "0")] = String.eqb "0" "0").
Proof.
  apply (exclusion_lists_follow_type
           [("Line Item Name", PStr "MOW_SBV_Q1_24_BA_"); ("Exclude Domain List ID", PStr "94");
            ("Include Environment Type", PStr "0")]); vm_compute; reflexivity.
Defined.

(* ------------------------------------------------------------------ *)
(** ** Expected CPM (targeting_general.py) *)

Section CpmFacts.

Import TargetingGeneral.

(** The add-on is zero or an entry of the add-on tables. *)
Lemma addon_in_tables (platform_media viewability_goal : pyval) :
  In (fst (get_viewability_addon_cpm platform_media viewability_goal))
     (0%float :: flat_map (fun kv => map snd (snd kv)) viewability_cpms).
Proof.
  unfold get_viewability_addon_cpm.
  destruct (normalize_viewability_goal viewability_goal) as [v |]; [| left; reflexivity].
  destruct (find _ viewability_cpms) as [[k rules] |] eqn:Ek; [| left; reflexivity].
  destruct (find (in_range v) rules) as [[[lo hi] a] |] eqn:Er; [| left; reflexivity].
  right. apply find_some in Ek, Er. destruct Ek as [Ek _]. destruct Er as [Er _].
  apply in_flat_map. exists (k, rules). split; [exact Ek |].
  apply in_map_iff. exists (lo, hi, a). split; [reflexivity | exact Er].
Qed.

(** The base CPM is one of nine rates. *)
Lemma base_in_rates (platform_media geo_required lda_compliant : pyval) (base : float) :
  get_base_cpm platform_media geo_required lda_compliant = Some base ->
  In base [2.34; 2.00; 3.15; 6.30; 2.89; 2.36; 7.35; 19.00; 17.00]%float.
Proof.
  unfold get_base_cpm.
  repeat match goal with
         | |- context [if ?b then _ else _] => destruct b
         end;
    intros H; try discriminate H; injection H as <-; simpl; tauto.
Qed.

End CpmFacts.

(** X5. The viewability add-on is never negative and never above 15.75,
    so the expected CPM of a row is never below the base CPM of its
    platform and media type. *)
Theorem expected_cpm_not_below_base :
  (forall platform_media viewability_goal,
     let addon :=
       fst (TargetingGeneral.get_viewability_addon_cpm platform_media viewability_goal) in
     PrimFloat.leb 0 addon = true /\ PrimFloat.leb addon 15.75 = true)
  /\ (forall r actual base,
        TargetingGeneral.extract_cpm_bid (PStr (py_str (get r "Bidding Values" (PStr ""))))
        = Some actual ->
        TargetingGeneral.get_base_cpm
          (TargetingGeneral.brief_field r "brief_platform_media")
          (TargetingGeneral.brief_field r "brief_geo_required")
          (TargetingGeneral.brief_field r "brief_lda_compliant") = Some base ->
        PrimFloat.leb base
          (TargetingGeneral.expected_cpm (TargetingGeneral.validate_bidding_value r)) = true).
Proof.
  assert (forallb
            (fun a => PrimFloat.leb 0 a && PrimFloat.leb a 15.75
                      && forallb (fun b => PrimFloat.leb b (PrimFloat.add b a))
                                 [2.34; 2.00; 3.15; 6.30; 2.89; 2.36; 7.35; 19.00; 17.00]%float)
            (0%float :: flat_map (fun kv => map snd (snd kv)) TargetingGeneral.viewability_cpms)
          = true) as Hall by (vm_compute; reflexivity).
  rewrite forallb_forall in Hall.
  split.
  - intros pm goal addon.
    specialize (Hall addon (addon_in_tables pm goal)).
    apply andb_true_iff in Hall. destruct Hall as [Hall _].
    apply andb_true_iff in Hall. exact Hall.
  - intros r actual base Ha Hb.
    unfold TargetingGeneral.validate_bidding_value. rewrite Ha, Hb.
    pose proof (addon_in_tables (TargetingGeneral.brief_field r "brief_platform_media")
                  (TargetingGeneral.brief_field r "brief_viewability_goal")) as Hin.
    destruct (TargetingGeneral.get_viewability_addon_cpm _ _) as [addon shown].
    cbn [fst] in Hin. unfold TargetingGeneral.expected_cpm. cbn [fst snd].
    specialize (Hall addon Hin).
    apply andb_true_iff in Hall. destruct Hall as [_ Hall].
    rewrite forallb_forall in Hall. apply Hall.
    apply (base_in_rates _ _ _ _ Hb).
Qed.

Lemma expected_cpm_not_below_base_witness :
  PrimFloat.leb 7.35
    (TargetingGeneral.expected_cpm
       (TargetingGeneral.validate_bidding_value TargetingGeneral.desktop_video_row)) = true.
Proof.
  destruct expected_cpm_not_below_base as [_ H].
  apply (H TargetingGeneral.desktop_video_row 9.8%float 7.35%float); vm_compute; reflexivity.
Defined.

Example budget_text_ex :
  TargetingGeneral.check_campaign_budget_format (PStr (TargetingGeneral.budget_text 250000)) = true
  /\ TargetingGeneral.extract_campaign_budget (PStr (TargetingGeneral.budget_text 250000))
     = Some 250000
  /\ TargetingGeneral.extract_campaign_budget (PStr "{'lifetime': None, 'daily': 5}") = None
  /\ TargetingGeneral.check_campaign_budget_format (PStr "{'lifetime': 25 00, 'daily': None}") = true
  /\ TargetingGeneral.extract_campaign_budget (PStr "{'lifetime': 25 00, 'daily': None}") = None
  /\ PyFloat.py_int " -1_000 " = Some (-1000)
  /\ PyFloat.py_int "1__0" = None.
Proof. repeat split; vm_compute; reflexivity. Qed.

(* ------------------------------------------------------------------ *)
(** ** Texts *)

Section TextFacts.

Lemma list_ascii_app (a b : string) :
  list_ascii_of_string (a ++ b)
  = (list_ascii_of_string a ++ list_ascii_of_string b)%list.
Proof. induction a as [| c a IH]; simpl; [reflexivity | rewrite IH; reflexivity]. Qed.

Lemma string_app_assoc (a b c : string) : ((a ++ b) ++ c = a ++ b ++ c)%string.
Proof. induction a as [| x a IH]; simpl; [reflexivity | rewrite IH; reflexivity]. Qed.

Lemma contains_char (c : ascii) (s : string) :
  Py.contains (String c EmptyString) s = existsb (Ascii.eqb c) (list_ascii_of_string s).
Proof.
  induction s as [| a t IH]; simpl; [reflexivity |].
  rewrite <- IH. f_equal.
  destruct (ascii_dec c a) as [-> | n].
  - rewrite Ascii.eqb_refl. destruct t; reflexivity.
  - symmetry. apply Ascii.eqb_neq. exact n.
Qed.

Lemma split_by_length (p : ascii -> bool) (s : string) :
  List.length (Py.split_by p s) = S (List.length (filter p (list_ascii_of_string s))).
Proof.
  induction s as [| a t IH]; simpl; [reflexivity |].
  destruct (p a); simpl; [rewrite IH; reflexivity |].
  destruct (Py.split_by p t) as [| h r]; simpl in *; [discriminate IH | exact IH].
Qed.

Lemma filter_lstrip_by (p q : ascii -> bool) (s : string) :
  (forall c, q c = true -> p c = false) ->
  filter q (list_ascii_of_string (Py.lstrip_by p s)) = filter q (list_ascii_of_string s).
Proof.
  intros Hpq. induction s as [| c t IH]; simpl; [reflexivity |].
  destruct (p c) eqn:Ep; [| reflexivity].
  destruct (q c) eqn:Eq; [rewrite (Hpq c Eq) in Ep; discriminate | exact IH].
Qed.

Lemma filter_rstrip_by (p q : ascii -> bool) (s : string) :
  (forall c, q c = true -> p c = false) ->
  filter q (list_ascii_of_string (Py.rstrip_by p s)) = filter q (list_ascii_of_string s).
Proof.
  intros Hpq. induction s as [| c t IH]; simpl; [reflexivity |].
  destruct (Py.rstrip_by p t) as [| c' t'] eqn:Et.
  - simpl in IH. rewrite <- IH.
    destruct (p c) eqn:Ep; simpl.
    + destruct (q c) eqn:Eq; [rewrite (Hpq c Eq) in Ep; discriminate | reflexivity].
    + reflexivity.
  - simpl. simpl in IH. rewrite IH. reflexivity.
Qed.

Lemma filter_remove_char (c : ascii) (q : ascii -> bool) (s : string) :
  q c = false ->
  filter q (list_ascii_of_string (Py.remove_char c s)) = filter q (list_ascii_of_string s).
Proof.
  intros Hq. induction s as [| a t IH]; simpl; [reflexivity |].
  destruct (Ascii.eqb a c) eqn:E.
  - apply Ascii.eqb_eq in E. subst a. rewrite Hq. exact IH.
  - simpl. rewrite IH. reflexivity.
Qed.

Lemma remove_char_app (c : ascii) (a b : string) :
  Py.remove_char c (a ++ b) = Py.remove_char c a ++ Py.remove_char c b.
Proof.
  induction a as [| x a IH]; simpl; [reflexivity |].
  destruct (Ascii.eqb x c); simpl; rewrite IH; reflexivity.
Qed.

Lemma smap_app (f : ascii -> ascii) (a b : string) :
  Py.smap f (a ++ b) = Py.smap f a ++ Py.smap f b.
Proof. induction a as [| x a IH]; simpl; [reflexivity | rewrite IH; reflexivity]. Qed.

Lemma smap_fixed (f : ascii -> ascii) (s : string) :
  (forall c, In c (list_ascii_of_string s) -> f c = c) -> Py.smap f s = s.
Proof.
  induction s as [| x s IH]; simpl; intros H; [reflexivity |].
  rewrite (H x) by (left; reflexivity). rewrite IH; [reflexivity |].
  intros c Hc. apply H. right. exact Hc.
Qed.

Lemma remove_char_fixed (c : ascii) (s : string) :
  (forall a, In a (list_ascii_of_string s) -> Ascii.eqb a c = false) ->
  Py.remove_char c s = s.
Proof.
  induction s as [| x s IH]; simpl; intros H; [reflexivity |].
  rewrite (H x) by (left; reflexivity). rewrite IH; [reflexivity |].
  intros a Ha. apply H. right. exact Ha.
Qed.

Lemma lstrip_by_fixed_head (p : ascii -> bool) (c : ascii) (t : string) :
  p c = false -> Py.lstrip_by p (String c t) = String c t.
Proof. intros H. simpl. rewrite H. reflexivity. Qed.

Lemma rstrip_by_fixed (p : ascii -> bool) (s : string) :
  (forall a, In a (list_ascii_of_string s) -> p a = false) -> Py.rstrip_by p s = s.
Proof.
  induction s as [| x s IH]; simpl; intros H; [reflexivity |].
  rewrite IH by (intros a Ha; apply H; right; exact Ha).
  destruct s; [| reflexivity].
  rewrite (H x) by (left; reflexivity). reflexivity.
Qed.

(** Trimming on the right leaves a text alone when it ends in a text that
    is not empty and that the trimming leaves alone. *)
Lemma rstrip_by_app (p : ascii -> bool) (a b : string) :
  b <> EmptyString -> Py.rstrip_by p b = b -> Py.rstrip_by p (a ++ b) = a ++ b.
Proof.
  intros Hb Hfix. induction a as [| x a IH]; simpl; [exact Hfix |].
  rewrite IH. destruct (a ++ b) eqn:E; [| reflexivity].
  destruct a; simpl in E; [contradiction | discriminate E].
Qed.

End TextFacts.

(* ------------------------------------------------------------------ *)
(** ** Bidding blobs (targeting_general.py) *)

Section BlobFacts.

Import TargetingGeneral.

Lemma colons_kept (text : string) :
  filter (fun a => Ascii.eqb a ":")
         (list_ascii_of_string
            (Py.remove_char Py.dquote (Py.strip_by (Py.one_of "{}") text)))
  = filter (fun a => Ascii.eqb a ":") (list_ascii_of_string text).
Proof.
  assert (forall c, Ascii.eqb c ":" = true -> Py.one_of "{}" c = false) as Hq
    by (intros c H; apply Ascii.eqb_eq in H; subst c; reflexivity).
  rewrite filter_remove_char by reflexivity.
  unfold Py.strip_by. rewrite (filter_rstrip_by _ _ _ Hq). apply (filter_lstrip_by _ _ _ Hq).
Qed.

Lemma cpm_bid_colons (text : string) :
  List.length (filter (fun a => Ascii.eqb a ":") (list_ascii_of_string text)) <> 1%nat ->
  extract_cpm_bid (PStr text) = None.
Proof.
  intros Hn. unfold extract_cpm_bid. cbn [py_str].
  pose proof (split_by_length (fun a => Ascii.eqb a ":")
                (Py.remove_char Py.dquote (Py.strip_by (Py.one_of "{}") text))) as Hlen.
  rewrite colons_kept in Hlen. unfold Py.split_on.
  destruct (Py.split_by _ _) as [| k [| t [| x l]]]; try reflexivity.
  simpl in Hlen. injection Hlen as Hlen. congruence.
Qed.

Lemma no_colon_count (text : string) :
  Py.contains ":" text = false ->
  filter (fun a => Ascii.eqb a ":") (list_ascii_of_string text) = [].
Proof.
  change ":"%string with (String ":"%char EmptyString).
  rewrite contains_char.
  induction (list_ascii_of_string text) as [| a l IH]; cbn [existsb filter]; [reflexivity |].
  intros H. apply orb_false_iff in H. destruct H as [H1 H2].
  rewrite Ascii.eqb_sym, H1. apply IH. exact H2.
Qed.

Lemma two_colons_count (a b c : string) :
  (2 <= List.length
          (filter (fun x => Ascii.eqb x ":")
                  (list_ascii_of_string (a ++ ":" ++ b ++ ":" ++ c))))%nat.
Proof.
  rewrite list_ascii_app, filter_app, length_app. simpl.
  rewrite list_ascii_app, filter_app, length_app. simpl. lia.
Qed.

End BlobFacts.

(** X6. A bidding value is readable only with exactly one colon: a text
    with no colon, or with two colons or more (a blob of two keys), gives no
    CPM, and the row then fails the bidding check with an expected and an
    actual CPM of 0. *)
Theorem cpm_bid_needs_one_colon (r : row) :
  let text := py_str (get r "Bidding Values" (PStr "")) in
  Py.contains ":" text = false
  \/ (exists a b c, text = a ++ ":" ++ b ++ ":" ++ c) ->
  TargetingGeneral.extract_cpm_bid (PStr text) = None
  /\ TargetingGeneral.validate_bidding_value r = (false, 0%float, 0%float, "N/A").
Proof.
  intros text H.
  assert (TargetingGeneral.extract_cpm_bid (PStr text) = None) as E.
  { apply cpm_bid_colons. destruct H as [H | (a & b & c & H)].
    - rewrite (no_colon_count _ H). discriminate.
    - rewrite H. pose proof (two_colons_count a b c). lia. }
  split; [exact E |].
  unfold TargetingGeneral.validate_bidding_value. fold text. rewrite E. reflexivity.
Qed.

Lemma cpm_bid_needs_one_colon_witness :
  TargetingGeneral.extract_cpm_bid (PStr "{cpm_bid: 2.4, max_bid: 5}") = None
  /\ TargetingGeneral.validate_bidding_value
       [("brief_platform_media", PStr "Mobile/Banner");
        ("Bidding Values", PStr "{cpm_bid: 2.4, max_bid: 5}")]
     = (false, 0%float, 0%float, "N/A").
Proof.
  apply (cpm_bid_needs_one_colon
           [("brief_platform_media", PStr "Mobile/Banner");
            ("Bidding Values", PStr "{cpm_bid: 2.4, max_bid: 5}")]).
  right. exists "{cpm_bid", " 2.4, max_bid", " 5}". reflexivity.
Defined.

(* ------------------------------------------------------------------ *)
(** ** Numbers as texts *)

Section DigitFacts.

Lemma uint_digits (d : Decimal.uint) :
  forallb Py.is_digit (list_ascii_of_string (NilEmpty.string_of_uint d)) = true.
Proof. induction d; try reflexivity; exact IHd. Qed.

Lemma uint_value_acc (d : Decimal.uint) :
  forall acc : positive,
    fold_left (fun a c => 10 * a + PyFloat.digit_val c)
              (list_ascii_of_string (NilEmpty.string_of_uint d)) (Z.pos acc)
    = Z.pos (Pos.of_uint_acc d acc).
Proof.
  induction d; intros acc;
    cbn [NilEmpty.string_of_uint list_ascii_of_string fold_left Pos.of_uint_acc];
    try reflexivity;
    match goal with
    | |- fold_left _ _ (10 * Z.pos ?a + PyFloat.digit_val ?c)
         = Z.pos (Pos.of_uint_acc _ ?p) =>
        let v := eval vm_compute in (PyFloat.digit_val c) in
        replace (10 * Z.pos a + PyFloat.digit_val c) with (Z.pos p)
          by (change (PyFloat.digit_val c) with v; lia)
    end;
    apply IHd.
Qed.

Lemma uint_value (d : Decimal.uint) :
  fold_left (fun a c => 10 * a + PyFloat.digit_val c)
            (list_ascii_of_string (NilEmpty.string_of_uint d)) 0
  = Z.of_N (Pos.of_uint d).
Proof.
  induction d;
    cbn [NilEmpty.string_of_uint list_ascii_of_string fold_left Pos.of_uint];
    try reflexivity; try exact IHd;
    match goal with
    | |- fold_left _ _ ?x = Z.of_N (N.pos (Pos.of_uint_acc _ ?p)) =>
        replace x with (Z.pos p) by reflexivity
    end;
    apply uint_value_acc.
Qed.

(** The text of a natural number: digits, at least one, that read back as
    the number. *)
Lemma str_of_Z_digits (n : Z) :
  0 <= n ->
  Py.str_of_Z n <> EmptyString
  /\ forallb Py.is_digit (list_ascii_of_string (Py.str_of_Z n)) = true
  /\ PyFloat.Z_of_digits (list_ascii_of_string (Py.str_of_Z n)) = n.
Proof.
  intros Hn. unfold Py.str_of_Z, PyFloat.Z_of_digits.
  destruct n as [| p | p]; [repeat split; discriminate | | lia].
  cbn [Z.to_int NilZero.string_of_int].
  pose proof (DecimalZ.of_to (Z.pos p)) as Hv. cbn [Z.to_int Z.of_int] in Hv.
  unfold Z.of_uint in Hv.
  destruct (Pos.to_uint p) as [| d | d | d | d | d | d | d | d | d | d] eqn:E;
    [discriminate Hv | ..];
    (split; [discriminate |]);
    (split; [apply uint_digits | rewrite <- Hv; apply uint_value]).
Qed.

Lemma digits_tail_all (l : list ascii) :
  forallb Py.is_digit l = true -> PyFloat.digits_tail l = (l, []).
Proof.
  induction l as [| c l IH]; cbn [forallb PyFloat.digits_tail]; [reflexivity |].
  intros H. apply andb_true_iff in H. destruct H as [Hc Hl].
  rewrite Hc, (IH Hl). reflexivity.
Qed.

Lemma digit_not_sign (c : ascii) :
  Py.is_digit c = true -> Ascii.eqb c "-" = false /\ Ascii.eqb c "+" = false.
Proof.
  intros H. split.
  - destruct (Ascii.eqb c "-") eqn:E; [| reflexivity].
    apply Ascii.eqb_eq in E. subst c. discriminate H.
  - destruct (Ascii.eqb c "+") eqn:E; [| reflexivity].
    apply Ascii.eqb_eq in E. subst c. discriminate H.
Qed.

Lemma strip_digits (s : string) :
  forallb Py.is_digit (list_ascii_of_string s) = true -> Py.strip s = s.
Proof.
  intros H. unfold Py.strip, Py.strip_by.
  assert (forall a, In a (list_ascii_of_string s) -> Py.is_space a = false) as Hs.
  { intros a Ha. apply digit_not_space. rewrite forallb_forall in H. apply H. exact Ha. }
  assert (Py.lstrip_by Py.is_space s = s) as ->.
  { destruct s as [| c t]; [reflexivity |].
    apply lstrip_by_fixed_head. apply Hs. left. reflexivity. }
  apply rstrip_by_fixed. exact Hs.
Qed.

(** [int] reads a text of digits as the number they write. *)
Lemma py_int_digits (s : string) :
  s <> EmptyString ->
  forallb Py.is_digit (list_ascii_of_string s) = true ->
  PyFloat.py_int s = Some (PyFloat.Z_of_digits (list_ascii_of_string s)).
Proof.
  intros Hs Hd. unfold PyFloat.py_int. rewrite (strip_digits s Hd).
  destruct s as [| c t]; [contradiction |].
  cbn [list_ascii_of_string forallb] in *.
  apply andb_true_iff in Hd. destruct Hd as [Hc Ht].
  destruct (digit_not_sign c Hc) as [E1 E2].
  cbn [PyFloat.take_sign]. rewrite E1, E2.
  cbn [PyFloat.digitpart]. rewrite Hc, (digits_tail_all _ Ht).
  rewrite Z.mul_1_l. reflexivity.
Qed.

End DigitFacts.

(* ------------------------------------------------------------------ *)
(** ** Campaign budgets (targeting_general.py) *)

Section BudgetTextFacts.

Import TargetingGeneral.

Lemma drop_prefix_app (p s : string) : drop_prefix p (p ++ s) = Some s.
Proof.
  induction p as [| c p IH]; [destruct s; reflexivity |].
  simpl. rewrite Ascii.eqb_refl. exact IH.
Qed.

Lemma span_digits_app (ds : string) (c : ascii) (t : string) :
  forallb Py.is_digit (list_ascii_of_string ds) = true ->
  Py.is_digit c = false ->
  span_digits (ds ++ String c t) = (ds, String c t).
Proof.
  intros Hd Hc. induction ds as [| a ds IH]; cbn [append span_digits].
  - rewrite Hc. reflexivity.
  - cbn [list_ascii_of_string forallb] in Hd. apply andb_true_iff in Hd.
    destruct Hd as [Ha Hd]. rewrite Ha, (IH Hd). reflexivity.
Qed.

Lemma rstrip_by_snoc (p : ascii -> bool) (s : string) (c : ascii) :
  p c = true -> Py.rstrip_by p (s ++ String c EmptyString) = Py.rstrip_by p s.
Proof.
  intros Hc. induction s as [| x s IH]; cbn [append Py.rstrip_by].
  - rewrite Hc. reflexivity.
  - rewrite IH. reflexivity.
Qed.

(** A digit is none of the other characters of a budget text. *)
Lemma digit_plain (c : ascii) (other : ascii) :
  Py.is_digit c = true -> Py.is_digit other = false -> Ascii.eqb c other = false.
Proof.
  intros Hc Ho. destruct (Ascii.eqb c other) eqn:E; [| reflexivity].
  apply Ascii.eqb_eq in E. subst c. congruence.
Qed.

Lemma digits_forall (s : string) :
  forallb Py.is_digit (list_ascii_of_string s) = true ->
  forall a, In a (list_ascii_of_string s) -> Py.is_digit a = true.
Proof. intros H. rewrite forallb_forall in H. exact H. Qed.

Lemma digits_free (s : string) (c : ascii) :
  forallb Py.is_digit (list_ascii_of_string s) = true ->
  Py.is_digit c = false ->
  existsb (Ascii.eqb c) (list_ascii_of_string s) = false.
Proof.
  intros Hd Hc. destruct (existsb _ _) eqn:E; [| reflexivity].
  apply existsb_exists in E. destruct E as (a & Ha & E).
  apply Ascii.eqb_eq in E. subst a.
  rewrite (digits_forall s Hd c Ha) in Hc. discriminate Hc.
Qed.

Lemma budget_check_digits (ds : string) :
  ds <> EmptyString ->
  forallb Py.is_digit (list_ascii_of_string ds) = true ->
  check_campaign_budget_format
    (PStr (lifetime_key Py.squote " " ++ ds ++ daily_none Py.squote " ")) = true.
Proof.
  intros Hne Hd. unfold check_campaign_budget_format, Py.replace_char. cbn [py_str].
  rewrite !remove_char_app, !smap_app.
  rewrite (remove_char_fixed " " ds)
    by (intros a Ha; apply digit_plain; [apply (digits_forall ds Hd a Ha) | reflexivity]).
  rewrite (smap_fixed _ ds)
    by (intros a Ha; rewrite (digit_plain a Py.squote);
        [reflexivity | apply (digits_forall ds Hd a Ha) | reflexivity]).
  replace (Py.smap (fun a => if Ascii.eqb a Py.squote then Py.dquote else a)
             (Py.remove_char " " (lifetime_key Py.squote " ")))
    with (lifetime_key Py.dquote "") by reflexivity.
  replace (Py.smap (fun a => if Ascii.eqb a Py.squote then Py.dquote else a)
             (Py.remove_char " " (daily_none Py.squote " ")))
    with (daily_none Py.dquote "") by reflexivity.
  unfold budget_pattern. rewrite drop_prefix_app.
  change (daily_none Py.dquote "")
    with (String "," (String Py.dquote ("daily" ++ String Py.dquote ":None}"))) at 1.
  rewrite (span_digits_app ds _ _ Hd) by reflexivity.
  destruct ds; [contradiction |].
  cbn [Py.is_empty negb andb]. apply orb_true_iff. left. apply String.eqb_refl.
Qed.

Lemma budget_extract_digits (ds : string) :
  ds <> EmptyString ->
  forallb Py.is_digit (list_ascii_of_string ds) = true ->
  extract_campaign_budget
    (PStr (lifetime_key Py.squote " " ++ ds ++ daily_none Py.squote " "))
  = PyFloat.py_int ds.
Proof.
  intros Hne Hd. unfold extract_campaign_budget, Py.strip_by, Py.replace_char.
  set (key := String Py.squote ("lifetime" ++ String Py.squote ": ")).
  set (rest := ", " ++ String Py.squote ("daily" ++ String Py.squote ": None")).
  assert (Py.lstrip_by (Py.one_of "{}")
            (lifetime_key Py.squote " " ++ ds ++ daily_none Py.squote " ")
          = (key ++ ds ++ rest) ++ "}") as ->.
  { rewrite !string_app_assoc. reflexivity. }
  rewrite rstrip_by_snoc by reflexivity.
  rewrite <- (string_app_assoc key ds rest).
  rewrite (rstrip_by_app _ (key ++ ds) rest) by (try discriminate; reflexivity).
  rewrite !smap_app.
  rewrite (smap_fixed _ ds)
    by (intros a Ha; rewrite (digit_plain a Py.squote);
        [reflexivity | apply (digits_forall ds Hd a Ha) | reflexivity]).
  set (key2 := String Py.dquote ("lifetime" ++ String Py.dquote EmptyString)).
  replace (Py.smap (fun a => if Ascii.eqb a Py.squote then Py.dquote else a) key)
    with (key2 ++ String ":" " ") by reflexivity.
  replace (Py.smap (fun a => if Ascii.eqb a Py.squote then Py.dquote else a) rest)
    with (String "," (" " ++ String Py.dquote ("daily" ++ String Py.dquote ": None")))
    by reflexivity.
  rewrite (split_on_app "," ((key2 ++ String ":" " ") ++ ds)).
  2:{ rewrite contains_char, list_ascii_app, existsb_app.
      rewrite (digits_free ds "," Hd) by reflexivity. reflexivity. }
  cbn [find].
  assert (Py.contains "lifetime" ((key2 ++ String ":" " ") ++ ds) = true) as ->
    by reflexivity.
  rewrite (string_app_assoc key2 (String ":" " ") ds).
  change (String ":" " " ++ ds) with (String ":" (" " ++ ds)).
  rewrite (split_on_app ":" key2) by reflexivity.
  rewrite (split_on_free ":" (" " ++ ds)).
  2:{ rewrite contains_char, list_ascii_app, existsb_app.
      rewrite (digits_free ds ":" Hd) by reflexivity. reflexivity. }
  assert (Py.strip (" " ++ ds) = ds) as ->.
  { rewrite <- (strip_digits ds Hd) at 2. reflexivity. }
  unfold Py.lower. rewrite (smap_fixed _ ds).
  2:{ intros a Ha. unfold Py.lower_char.
      assert (Py.is_upper a = false) as ->; [| reflexivity].
      pose proof (digits_forall ds Hd a Ha) as Hdig.
      unfold Py.is_digit in Hdig. unfold Py.is_upper.
      apply andb_true_iff in Hdig. destruct Hdig as [_ H2]. apply N.leb_le in H2.
      apply andb_false_iff. left. apply N.leb_gt. lia. }
  destruct ds as [| c t]; [contradiction |].
  cbn [list_ascii_of_string forallb] in Hd. apply andb_true_iff in Hd.
  destruct Hd as [Hc Ht].
  assert (String.eqb (String c t) "none" = false) as ->; [| reflexivity].
  cbn [String.eqb]. rewrite (digit_plain c "n" Hc) by reflexivity. reflexivity.
Qed.

End BudgetTextFacts.

(** X7. The text of a budget dictionary with a lifetime budget of [n]
    impressions and no daily budget passes the budget format check, and the
    budget extraction reads [n] back from it. *)
Theorem budget_text_round_trip (n : Z) :
  0 <= n ->
  TargetingGeneral.check_campaign_budget_format (PStr (TargetingGeneral.budget_text n)) = true
  /\ TargetingGeneral.extract_campaign_budget (PStr (TargetingGeneral.budget_text n)) = Some n.
Proof.
  intros Hn. destruct (str_of_Z_digits n Hn) as (Hne & Hd & Hv).
  unfold TargetingGeneral.budget_text. split.
  - apply budget_check_digits; assumption.
  - rewrite budget_extract_digits by assumption.
    rewrite py_int_digits by assumption. rewrite Hv. reflexivity.
Qed.

Lemma budget_text_round_trip_witness :
  TargetingGeneral.check_campaign_budget_format
    (PStr (TargetingGeneral.budget_text 1250000)) = true
  /\ TargetingGeneral.extract_campaign_budget
       (PStr (TargetingGeneral.budget_text 1250000)) = Some 1250000.
Proof. apply (budget_text_round_trip 1250000). lia. Defined.

(* ------------------------------------------------------------------ *)
(** ** Column lookup (targeting_general.py) *)

Section ColumnFacts.

Variable norm : string -> string.
Variable columns : list string.

Lemma pick_some_aux (name : string) (cols : list string) :
  forall start c,
    fold_left (fun acc col => if String.eqb (norm col) (norm name) then Some col else acc)
              cols start = Some c ->
    start = Some c \/ (In c cols /\ norm c = norm name).
Proof.
  induction cols as [| col cols IH]; intros start c H; simpl in H; [left; exact H |].
  destruct (IH _ _ H) as [E | [Hin E]].
  - destruct (String.eqb (norm col) (norm name)) eqn:Ecol.
    + injection E as <-. right. split; [left; reflexivity | apply String.eqb_eq; exact Ecol].
    + left. exact E.
  - right. split; [right; exact Hin | exact E].
Qed.

Lemma pick_none_aux (name : string) (cols : list string) :
  forall start,
    fold_left (fun acc col => if String.eqb (norm col) (norm name) then Some col else acc)
              cols start = None ->
    start = None /\ forall col, In col cols -> norm col <> norm name.
Proof.
  induction cols as [| col cols IH]; intros start H; simpl in H.
  - split; [exact H | intros col []].
  - destruct (IH _ H) as [E Hall].
    destruct (String.eqb (norm col) (norm name)) eqn:Ecol; [discriminate E |].
    split; [exact E |].
    intros col' [<- | Hin]; [apply String.eqb_neq; exact Ecol | apply Hall; exact Hin].
Qed.

Lemma first_name_some (names : list string) :
  forall start c,
    fold_left
      (fun acc name =>
         match acc with
         | Some _ => acc
         | None =>
             fold_left
               (fun acc col => if String.eqb (norm col) (norm name) then Some col else acc)
               columns None
         end)
      names start = Some c ->
    start = Some c
    \/ exists name,
         In name names
         /\ fold_left
              (fun acc col => if String.eqb (norm col) (norm name) then Some col else acc)
              columns None = Some c.
Proof.
  induction names as [| name names IH]; intros start c H; simpl in H; [left; exact H |].
  destruct (IH _ _ H) as [E | (name' & Hin & E)].
  - destruct start as [s |]; [left; exact E |].
    right. exists name. split; [left; reflexivity | exact E].
  - right. exists name'. split; [right; exact Hin | exact E].
Qed.

Lemma first_name_none (names : list string) :
  forall start,
    fold_left
      (fun acc name =>
         match acc with
         | Some _ => acc
         | None =>
             fold_left
               (fun acc col => if String.eqb (norm col) (norm name) then Some col else acc)
               columns None
         end)
      names start = None ->
    start = None
    /\ forall name,
         In name names ->
         fold_left
           (fun acc col => if String.eqb (norm col) (norm name) then Some col else acc)
           columns None = None.
Proof.
  induction names as [| name names IH]; intros start H; simpl in H.
  - split; [exact H | intros name []].
  - destruct (IH _ H) as [E Hall]. destruct start as [s |]; [discriminate E |].
    split; [reflexivity |].
    intros name' [<- | Hin]; [exact E | apply Hall; exact Hin].
Qed.

End ColumnFacts.

(** X8. The column lookup answers with a column of the table whose label,
    lower-cased and trimmed, is that of one of the possible names; and it
    answers with no column only when no column matches any of the names in
    this way. *)
Theorem find_col_name_sound (columns possible_names : list string) :
  match TargetingGeneral.find_col_name columns possible_names with
  | Some col =>
      In col columns
      /\ exists name, In name possible_names
                      /\ Py.strip (Py.lower col) = Py.strip (Py.lower name)
  | None =>
      forall col name, In col columns -> In name possible_names ->
                       Py.strip (Py.lower col) <> Py.strip (Py.lower name)
  end.
Proof.
  unfold TargetingGeneral.find_col_name.
  destruct (fold_left _ possible_names None) as [col |] eqn:E.
  - destruct (first_name_some _ columns _ _ _ E) as [E' | (name & Hin & E')];
      [discriminate E' |].
    destruct (pick_some_aux _ _ _ _ _ E') as [E'' | [Hc Hn]]; [discriminate E'' |].
    split; [exact Hc |]. exists name. split; [exact Hin | exact Hn].
  - destruct (first_name_none _ columns _ _ E) as [_ Hall].
    intros col name Hc Hn.
    destruct (pick_none_aux _ _ _ _ (Hall name Hn)) as [_ H]. apply H. exact Hc.
Qed.

(* ------------------------------------------------------------------ *)
(** ** Joins with the brief (name_assign.py) *)

Section JoinFacts.

Import NameAssign.

Lemma rows_assign (df : Frame.frame) (c : string) (f : row -> pyval) :
  Frame.rows (Frame.assign df c f) = map (fun r => Frame.set r c (f r)) (Frame.rows df).
Proof. reflexivity. Qed.

Lemma length_flat_map_ge {A B : Type} (f : A -> list B) (l : list A) :
  (forall a, f a <> []) -> (List.length l <= List.length (flat_map f l))%nat.
Proof.
  intros Hf. induction l as [| a l IH]; simpl; [lia |].
  rewrite length_app. specialize (Hf a). destruct (f a); [contradiction | simpl; lia].
Qed.

Lemma merge_left_keeps (left right : Frame.frame) (left_on right_on : string) :
  (List.length (Frame.rows left)
   <= List.length (Frame.rows (Frame.merge_left left right left_on right_on)))%nat.
Proof.
  unfold Frame.merge_left. cbn [Frame.rows]. apply length_flat_map_ge.
  intros l. destruct (filter _ (Frame.rows right)); simpl; discriminate.
Qed.

Lemma assign_length (df : Frame.frame) (c : string) (f : row -> pyval) :
  List.length (Frame.rows (Frame.assign df c f)) = List.length (Frame.rows df).
Proof. rewrite rows_assign. apply length_map. Qed.

Lemma drop_length (df : Frame.frame) (c : string) :
  List.length (Frame.rows (Frame.drop df c)) = List.length (Frame.rows df).
Proof. unfold Frame.drop. cbn [Frame.rows]. apply length_map. Qed.

Lemma fillna_length (df : Frame.frame) (c : string) (v : pyval) :
  List.length (Frame.rows (Frame.fillna df c v)) = List.length (Frame.rows df).
Proof. apply assign_length. Qed.

Lemma add_if_absent_length (df : Frame.frame) (c : string) (v : pyval) :
  List.length (Frame.rows (NameAssign.add_if_absent df c v)) = List.length (Frame.rows df).
Proof.
  unfold NameAssign.add_if_absent. destruct (Frame.has_col df c);
    [reflexivity | apply assign_length].
Qed.

Lemma fill_step_length (df : Frame.frame) (col : string) :
  List.length (Frame.rows (fill_step df col)) = List.length (Frame.rows df).
Proof.
  unfold fill_step. destruct (Frame.has_col df col);
    [apply fillna_length | apply assign_length].
Qed.

Lemma fill_step_rows (df : Frame.frame) (col : string) (r' : row) :
  In r' (Frame.rows (fill_step df col)) ->
  exists r v, In r (Frame.rows df) /\ r' = Frame.set r col v /\ isna v = false.
Proof.
  unfold fill_step, Frame.fillna.
  destruct (Frame.has_col df col); rewrite rows_assign; intros H;
    apply in_map_iff in H; destruct H as (r & <- & Hr);
    eexists r, _; (split; [exact Hr |]); (split; [reflexivity |]).
  - destruct (isna (get r col PNaN)) eqn:E; [reflexivity | exact E].
  - reflexivity.
Qed.

Lemma fill_step_fills (df : Frame.frame) (col : string) (r' : row) :
  In r' (Frame.rows (fill_step df col)) -> isna (get r' col PNaN) = false.
Proof.
  intros H. destruct (fill_step_rows _ _ _ H) as (r & v & _ & -> & Hv).
  rewrite get_set, String.eqb_refl. exact Hv.
Qed.

Lemma fill_step_keeps (df : Frame.frame) (col col0 : string) :
  (forall r, In r (Frame.rows df) -> isna (get r col0 PNaN) = false) ->
  forall r', In r' (Frame.rows (fill_step df col)) -> isna (get r' col0 PNaN) = false.
Proof.
  intros Hall r' H. destruct (fill_step_rows _ _ _ H) as (r & v & Hr & -> & Hv).
  rewrite get_set. destruct (String.eqb col col0); [exact Hv | apply Hall; exact Hr].
Qed.

Lemma merge_brief_fill (qa_df : Frame.frame) (t p : option Frame.frame) :
  exists merged_df,
    NameAssign.merge_brief qa_df t p
    = fill_step (fill_step (fill_step merged_df "brief_bvp_id") "brief_platform_media")
                "brief_geo_required"
    /\ (List.length (Frame.rows qa_df) <= List.length (Frame.rows merged_df))%nat.
Proof.
  unfold NameAssign.merge_brief.
  set (qa := Frame.assign qa_df "line_item_alternative_id" _).
  assert (List.length (Frame.rows qa) = List.length (Frame.rows qa_df)) as Hqa
    by apply assign_length.
  match goal with
  | |- context [let '(m, ph) := ?first in _] =>
      assert (List.length (Frame.rows qa_df) <= List.length (Frame.rows (fst first)))%nat
        as Hfirst; [| destruct first as [merged placeholder]]
  end.
  { destruct t as [t |]; [destruct (Frame.has_col t "merge_key_bvt_tg") |];
      cbn [fst]; rewrite ?drop_length, ?add_if_absent_length; try lia.
    rewrite <- Hqa. apply merge_left_keeps. }
  cbn [fst] in Hfirst.
  eexists. split; [reflexivity |].
  destruct p as [p |];
    [destruct (Frame.has_col p "merge_key_bvp_pl" && Frame.has_col merged "brief_bvp_id") |];
    rewrite ?drop_length, ?add_if_absent_length; try exact Hfirst.
  eapply Nat.le_trans; [| apply merge_left_keeps].
  rewrite assign_length. exact Hfirst.
Qed.

End JoinFacts.

(** X9. The joins of name_assign.py never lose a line item: the merged
    table has at least as many rows as the QA report. *)
Theorem joins_keep_line_items (qa_df : Frame.frame) (t p : option Frame.frame) :
  NameAssign.prepared qa_df t p = true ->
  (List.length (Frame.rows qa_df)
   <= List.length (Frame.rows (NameAssign.merge_brief qa_df t p)))%nat.
Proof.
  intros _. destruct (merge_brief_fill qa_df t p) as (merged & -> & H).
  rewrite !fill_step_length. exact H.
Qed.

Lemma joins_keep_line_items_witness :
  (List.length (Frame.rows NameAssign.qa_unmatched)
   <= List.length
        (Frame.rows (NameAssign.merge_brief NameAssign.qa_unmatched
                       (Some NameAssign.target_other) (Some NameAssign.placement_other))))%nat.
Proof. apply joins_keep_line_items. reflexivity. Defined.

(** X10. After the joins of name_assign.py no row holds a missing value in
    the columns brief_bvp_id, brief_platform_media and brief_geo_required,
    whether or not its line item found a Target and a Placement record. *)
Theorem joins_leave_no_missing_value (qa_df : Frame.frame) (t p : option Frame.frame)
    (r : row) (col : string) :
  NameAssign.prepared qa_df t p = true ->
  In r (Frame.rows (NameAssign.merge_brief qa_df t p)) ->
  In col ["brief_bvp_id"; "brief_platform_media"; "brief_geo_required"] ->
  isna (get r col PNaN) = false.
Proof.
  intros _ Hr Hcol. destruct (merge_brief_fill qa_df t p) as (merged & E & _).
  rewrite E in Hr. destruct Hcol as [<- | [<- | [<- | []]]].
  - revert r Hr. apply fill_step_keeps, fill_step_keeps. apply fill_step_fills.
  - revert r Hr. apply fill_step_keeps. apply fill_step_fills.
  - revert r Hr. apply fill_step_fills.
Qed.

Lemma joins_leave_no_missing_value_witness :
  isna (get [("line_item_name", PStr "MOA_SBV_Q1_24_GEO_BA_");
             ("line_item_alternative_id", PStr "bvt000000001");
             ("brief_bvp_id", PStr "nan"); ("brief_platform_media", PStr "N/A");
             ("brief_geo_required", PStr "N/A")]
            "brief_bvp_id" PNaN) = false.
Proof.
  apply (joins_leave_no_missing_value NameAssign.qa_unmatched
           (Some NameAssign.target_other) (Some NameAssign.placement_other)).
  - reflexivity.
  - vm_compute. left. reflexivity.
  - left. reflexivity.
Defined.

Section CampaignColumnFacts.

Import TargetingGeneral.

Lemma has_col_assign_same (df : Frame.frame) (c : string) (f : row -> pyval) :
  Frame.has_col (Frame.assign df c f) c = true.
Proof.
  unfold Frame.assign. cbn [Frame.columns]. unfold Frame.has_col. cbn [Frame.columns].
  destruct (Py.mem c (Frame.columns df)) eqn:E; [exact E |].
  apply mem_refl, in_or_app. right. left. reflexivity.
Qed.

Lemma mem_in (x : string) (l : list string) : Py.mem x l = true -> In x l.
Proof.
  unfold Py.mem. intros H. apply existsb_exists in H. destruct H as (y & Hy & E).
  apply String.eqb_eq in E. subst y. exact Hy.
Qed.

Lemma has_col_assign_keeps (df : Frame.frame) (c c' : string) (f : row -> pyval) :
  Frame.has_col df c' = true -> Frame.has_col (Frame.assign df c f) c' = true.
Proof.
  unfold Frame.assign. cbn [Frame.columns]. unfold Frame.has_col. cbn [Frame.columns].
  intros H. destruct (Py.mem c (Frame.columns df)); [exact H |].
  apply mem_refl, in_or_app. left. apply mem_in. exact H.
Qed.

Lemma has_col_merge_left (left right : Frame.frame) (left_on right_on c : string) :
  Frame.has_col left c = true ->
  Frame.has_col (Frame.merge_left left right left_on right_on) c = true.
Proof.
  unfold Frame.has_col, Frame.merge_left. cbn [Frame.columns]. intros H.
  apply mem_refl, in_or_app. left. apply mem_in. exact H.
Qed.

Lemma has_col_drop (df : Frame.frame) (c c' : string) :
  Frame.has_col df c' = true -> String.eqb c' c = false ->
  Frame.has_col (Frame.drop df c) c' = true.
Proof.
  unfold Frame.has_col, Frame.drop. cbn [Frame.columns]. intros H E.
  apply mem_refl, filter_In. split; [apply mem_in; exact H |]. rewrite E. reflexivity.
Qed.

Lemma has_col_add_if_absent (df : Frame.frame) (c c' : string) (v : pyval) :
  Frame.has_col df c' = true -> Frame.has_col (add_if_absent df c v) c' = true.
Proof.
  intros H. unfold add_if_absent. destruct (Frame.has_col df c);
    [exact H | apply has_col_assign_keeps; exact H].
Qed.

Lemma targeting_add_if_absent_length (df : Frame.frame) (c : string) (v : pyval) :
  List.length (Frame.rows (add_if_absent df c v)) = List.length (Frame.rows df).
Proof.
  unfold add_if_absent. destruct (Frame.has_col df c); [reflexivity | apply assign_length].
Qed.

(** The first loop adds every campaign-level column. *)
Lemma campaign_columns_added (value : string -> row -> pyval) (cols : list string) :
  forall df,
    let added := fold_left (fun df col => Frame.assign df col (value col)) cols df in
    List.length (Frame.rows added) = List.length (Frame.rows df)
    /\ forall c, In c cols \/ Frame.has_col df c = true -> Frame.has_col added c = true.
Proof.
  induction cols as [| col cols IH]; intros df; cbn [fold_left].
  - split; [reflexivity |]. intros c [[] | H]. exact H.
  - destruct (IH (Frame.assign df col (value col))) as [Hlen Hcols]. split.
    + rewrite Hlen. apply assign_length.
    + intros c [[<- | Hc] | Hc]; apply Hcols.
      * right. apply has_col_assign_same.
      * left. exact Hc.
      * right. apply has_col_assign_keeps. exact Hc.
Qed.

(** The last loop fills every column it finds. *)
Lemma present_columns_filled (cols : list string) :
  forall df,
    (forall c, In c cols -> Frame.has_col df c = true) ->
    let filled :=
      fold_left
        (fun df col => if Frame.has_col df col then Frame.fillna df col (PStr "N/A") else df)
        cols df in
    List.length (Frame.rows filled) = List.length (Frame.rows df)
    /\ (forall c0, (forall r, In r (Frame.rows df) -> isna (get r c0 PNaN) = false) ->
                   forall r, In r (Frame.rows filled) -> isna (get r c0 PNaN) = false)
    /\ forall c r, In c cols -> In r (Frame.rows filled) -> isna (get r c PNaN) = false.
Proof.
  induction cols as [| col cols IH]; intros df Hcols; cbn [fold_left].
  - split; [reflexivity |]. split; [intros c0 H; exact H | intros c r []].
  - rewrite (Hcols col (or_introl eq_refl)).
    assert (Frame.fillna df col (PStr "N/A") = NameAssign.fill_step df col) as Estep
      by (unfold NameAssign.fill_step; rewrite (Hcols col (or_introl eq_refl)); reflexivity).
    destruct (IH (Frame.fillna df col (PStr "N/A"))) as (Hlen & Hkeep & Hfill).
    { intros c Hc. apply has_col_assign_keeps. apply Hcols. right. exact Hc. }
    split; [rewrite Hlen; apply fillna_length |]. split.
    + intros c0 H0. apply Hkeep. rewrite Estep. apply fill_step_keeps. exact H0.
    + intros c r [<- | Hc] Hr.
      * revert r Hr. apply Hkeep. rewrite Estep. apply fill_step_fills.
      * apply (Hfill c r Hc Hr).
Qed.

Lemma merge_brief_campaign_columns (qa_df : Frame.frame) (campaign_values : row)
    (t p : option Frame.frame) :
  exists merged_df,
    merge_brief qa_df campaign_values t p
    = fold_left
        (fun df col => if Frame.has_col df col then Frame.fillna df col (PStr "N/A") else df)
        brief_cols merged_df
    /\ (List.length (Frame.rows qa_df) <= List.length (Frame.rows merged_df))%nat
    /\ forall c, In c brief_cols -> Frame.has_col merged_df c = true.
Proof.
  unfold merge_brief.
  match goal with
  | |- context [fold_left ?step brief_cols qa_df] =>
      destruct (campaign_columns_added
                  (fun col _ =>
                     let v := get campaign_values col PNone in
                     if String.eqb col "brief_viewability_goal" then v
                     else if notna v then v else PStr "N/A")
                  brief_cols qa_df) as [Hlen Hcols];
      cbv zeta in Hlen, Hcols;
      set (first := fold_left step brief_cols qa_df) in *
  end.
  assert (forall c, In c brief_cols -> Frame.has_col first c = true) as Hfirst
    by (intros c Hc; apply Hcols; left; exact Hc).
  assert (forall c, In c brief_cols ->
                    String.eqb c "merge_key_altid_lower" = false
                    /\ String.eqb c "merge_key_bvt_tg" = false
                    /\ String.eqb c "merge_key_bvp_lower" = false
                    /\ String.eqb c "merge_key_bvp_pl" = false) as Hother.
  { intros c Hc. unfold brief_cols in Hc.
    repeat (destruct Hc as [<- | Hc]; [repeat split; reflexivity |]). destruct Hc. }
  clearbody first. clear Hcols.
  eexists. split; [reflexivity |].
  match goal with
  | |- context [Frame.has_col ?second "brief_bvp_id"] => set (joined := second)
  end.
  assert ((List.length (Frame.rows qa_df) <= List.length (Frame.rows joined))%nat
          /\ forall c, In c brief_cols -> Frame.has_col joined c = true) as [Hlen2 Hsecond];
    [subst joined | clearbody joined].
  { destruct t as [t |];
      [destruct (find_col_name (Frame.columns qa_df) _) as [alt |] |]; split;
      rewrite ?drop_length, ?targeting_add_if_absent_length; try lia.
    - rewrite <- Hlen. rewrite <- (assign_length first "merge_key_altid_lower"
                                     (fun r => Frame.text_key (get r alt PNaN))).
      apply merge_left_keeps.
    - intros c Hc. destruct (Hother c Hc) as (E1 & E2 & _).
      apply has_col_drop; [apply has_col_drop; [| exact E1] | exact E2].
      apply has_col_merge_left, has_col_assign_keeps, Hfirst, Hc.
    - intros c Hc. repeat apply has_col_add_if_absent. apply Hfirst, Hc.
    - intros c Hc. repeat apply has_col_add_if_absent. apply Hfirst, Hc. }
  destruct p as [p |]; [destruct (Frame.has_col joined "brief_bvp_id") |]; split;
    rewrite ?drop_length, ?targeting_add_if_absent_length; try exact Hlen2;
    try (intros c Hc; repeat apply has_col_add_if_absent; apply Hsecond, Hc).
  - eapply Nat.le_trans; [| apply merge_left_keeps]. rewrite assign_length. exact Hlen2.
  - intros c Hc. destruct (Hother c Hc) as (_ & _ & E3 & E4).
    apply has_col_drop; [apply has_col_drop; [| exact E3] | exact E4].
    apply has_col_merge_left, has_col_assign_keeps, Hsecond, Hc.
Qed.

End CampaignColumnFacts.

(** X25. The joins of targeting_general.py never lose a line item, and
    after them no row holds a missing value in one of the six campaign-level
    columns, whatever the brief gave for them and whether or not the line
    item found a Target and a Placement record. *)
Theorem campaign_columns_never_missing (qa_df : Frame.frame) (campaign_values : row)
    (t p : option Frame.frame) :
  TargetingGeneral.prepared qa_df t p = true ->
  (List.length (Frame.rows qa_df)
   <= List.length (Frame.rows (TargetingGeneral.merge_brief qa_df campaign_values t p)))%nat
  /\ forall r col,
       In r (Frame.rows (TargetingGeneral.merge_brief qa_df campaign_values t p)) ->
       In col TargetingGeneral.brief_cols ->
       isna (get r col PNaN) = false.
Proof.
  intros _.
  destruct (merge_brief_campaign_columns qa_df campaign_values t p)
    as (merged & -> & Hlen & Hcols).
  destruct (present_columns_filled TargetingGeneral.brief_cols merged Hcols)
    as (Hsame & _ & Hfill).
  split; [rewrite Hsame; exact Hlen |].
  intros r col Hr Hcol. apply (Hfill col r Hcol Hr).
Qed.

Lemma campaign_columns_never_missing_witness :
  (List.length (Frame.rows TargetingGeneral.qa_unmatched)
   <= List.length
        (Frame.rows (TargetingGeneral.merge_brief TargetingGeneral.qa_unmatched
                       [("brief_viewability_goal", PNone)]
                       (Some TargetingGeneral.target_other)
                       (Some TargetingGeneral.placement_other))))%nat
  /\ forall r col,
       In r (Frame.rows (TargetingGeneral.merge_brief TargetingGeneral.qa_unmatched
                           [("brief_viewability_goal", PNone)]
                           (Some TargetingGeneral.target_other)
                           (Some TargetingGeneral.placement_other))) ->
       In col TargetingGeneral.brief_cols ->
       isna (get r col PNaN) = false.
Proof. apply campaign_columns_never_missing. reflexivity. Defined.

(* ------------------------------------------------------------------ *)
(** ** Naming rules (name_assign.py) *)

Section CaseFacts.

Import NameAssign.

(** A change of characters that the naming checks do not see. *)
Variable f : ascii -> ascii.
Hypothesis f_upper : forall c, Py.upper_char (f c) = Py.upper_char c.
Hypothesis f_space : forall c, Py.is_space (f c) = Py.is_space c.
Hypothesis f_allowed : forall c, allowed_char (f c) = allowed_char c.
Hypothesis f_blank : forall c, Ascii.eqb " " (f c) = Ascii.eqb " " c.

Lemma upper_smap (s : string) : Py.upper (Py.smap f s) = Py.upper s.
Proof.
  unfold Py.upper. induction s as [| c s IH]; simpl; [reflexivity |].
  rewrite f_upper, IH. reflexivity.
Qed.

Lemma lstrip_smap (s : string) :
  Py.lstrip_by Py.is_space (Py.smap f s) = Py.smap f (Py.lstrip_by Py.is_space s).
Proof.
  induction s as [| c s IH]; simpl; [reflexivity |].
  rewrite f_space. destruct (Py.is_space c); [exact IH | reflexivity].
Qed.

Lemma rstrip_smap (s : string) :
  Py.rstrip_by Py.is_space (Py.smap f s) = Py.smap f (Py.rstrip_by Py.is_space s).
Proof.
  induction s as [| c s IH]; simpl; [reflexivity |].
  rewrite IH, f_space.
  destruct (Py.rstrip_by Py.is_space s); simpl; [destruct (Py.is_space c) |]; reflexivity.
Qed.

Lemma strip_smap (s : string) : Py.strip (Py.smap f s) = Py.smap f (Py.strip s).
Proof. unfold Py.strip, Py.strip_by. rewrite lstrip_smap, rstrip_smap. reflexivity. Qed.

Lemma is_empty_smap (s : string) : Py.is_empty (Py.smap f s) = Py.is_empty s.
Proof. destruct s; reflexivity. Qed.

Lemma blank_smap (s : string) : Py.contains " " (Py.smap f s) = Py.contains " " s.
Proof.
  change " "%string with (String " "%char EmptyString). rewrite !contains_char.
  induction s as [| c s IH]; cbn [Py.smap list_ascii_of_string existsb]; [reflexivity |].
  rewrite f_blank, IH. reflexivity.
Qed.

Lemma all_chars_smap (s : string) :
  all_chars allowed_char (Py.smap f s) = all_chars allowed_char s.
Proof.
  induction s as [| c s IH]; cbn [Py.smap all_chars]; [reflexivity |].
  rewrite f_allowed, IH. reflexivity.
Qed.

Lemma check_naming_format_smap (s : string) (c : checks) :
  check_naming_format (PStr (Py.smap f s)) c = check_naming_format (PStr s) c.
Proof.
  unfold check_naming_format.
  rewrite strip_smap, is_empty_smap.
  destruct (Py.is_empty (Py.strip s)); [reflexivity |].
  cbv zeta. rewrite upper_smap, blank_smap, all_chars_smap. reflexivity.
Qed.

End CaseFacts.

Ltac each_char :=
  let c := fresh "c" in
  intros c; destruct c as [[|] [|] [|] [|] [|] [|] [|] [|]]; reflexivity.

(** X11. The naming checks do not depend on the case of the letters of the
    name: a name in ASCII, its upper-cased form and its lower-cased form get
    the same results under every configuration of checks. *)
Theorem naming_checks_ignore_case (name : string) (c : NameAssign.checks) :
  Py.isascii name = true ->
  NameAssign.check_naming_format (PStr (Py.upper name)) c
  = NameAssign.check_naming_format (PStr name) c
  /\ NameAssign.check_naming_format (PStr (Py.lower name)) c
     = NameAssign.check_naming_format (PStr name) c.
Proof.
  intros _. split; apply check_naming_format_smap; each_char.
Qed.

Lemma naming_checks_ignore_case_witness :
  NameAssign.check_naming_format (PStr (Py.upper "moa_sbv_q1_24_Geo_ba_"))
    (NameAssign.li_checks_config NameAssign.sample_brief NameAssign.unmatched_geo_row)
  = NameAssign.check_naming_format (PStr "moa_sbv_q1_24_Geo_ba_")
      (NameAssign.li_checks_config NameAssign.sample_brief NameAssign.unmatched_geo_row)
  /\ NameAssign.check_naming_format (PStr (Py.lower "moa_sbv_q1_24_Geo_ba_"))
       (NameAssign.li_checks_config NameAssign.sample_brief NameAssign.unmatched_geo_row)
     = NameAssign.check_naming_format (PStr "moa_sbv_q1_24_Geo_ba_")
         (NameAssign.li_checks_config NameAssign.sample_brief NameAssign.unmatched_geo_row).
Proof. apply naming_checks_ignore_case. reflexivity. Defined.

Section TokenFacts.

Import NameAssign.

Lemma prefix_app_l (a b s : string) :
  String.prefix (a ++ b) s = true -> String.prefix a s = true.
Proof.
  revert s. induction a as [| x a IH]; intros s; [destruct s; reflexivity |].
  destruct s as [| y s]; simpl; [discriminate |].
  destruct (ascii_dec x y); [apply IH | discriminate].
Qed.

Lemma contains_app_l (a b s : string) :
  Py.contains (a ++ b) s = true -> Py.contains a s = true.
Proof.
  induction s as [| y s IH]; cbn [Py.contains]; intros H;
    apply orb_true_iff in H; apply orb_true_iff; destruct H as [H | H].
  - left. apply (prefix_app_l _ _ _ H).
  - discriminate H.
  - left. apply (prefix_app_l _ _ _ H).
  - right. apply IH. exact H.
Qed.

Lemma mem_false (x : string) (l : list string) : Py.mem x l = false -> ~ In x l.
Proof. intros H Hin. rewrite (mem_refl x l Hin) in H. discriminate H. Qed.

Lemma shortform_known (pt : pyval) (form : string) :
  extract_product_type_shortform pt = Some form -> In form (map snd short_forms).
Proof.
  destruct pt as [| | s | | | |]; try discriminate. unfold extract_product_type_shortform.
  destruct (Py.contains "price promoter" _); [intros H; injection H as <-; simpl; tauto |].
  destruct (Py.contains "trip driver" _); [intros H; injection H as <-; simpl; tauto |].
  destruct (find _ short_forms) as [[k f] |] eqn:E.
  - intros H. injection H as <-. apply find_some in E. destruct E as [E _].
    apply (in_map snd) in E. exact E.
  - destruct (_ && _); [intros H; injection H as <-; simpl; tauto | discriminate].
Qed.

End TokenFacts.

(** X12. The viewability token check accepts exactly the names that hold
    _P_ or _PVIEWABILITY_ for the goal P: the spelling _P_VIEWABILITY_ is a
    case of the spelling _P_, so that any token _P_ of the name, whatever it
    stands for, satisfies the check. *)
Theorem viewability_token_spellings (pct : Z) (name_upper : string) :
  NameAssign.has_viewability pct name_upper
  = Py.contains ("_" ++ Py.str_of_Z pct ++ "VIEWABILITY_") name_upper
    || Py.contains ("_" ++ Py.str_of_Z pct ++ "_") name_upper.
Proof.
  unfold NameAssign.has_viewability.
  destruct (Py.contains ("_" ++ Py.str_of_Z pct ++ "_VIEWABILITY_") name_upper) eqn:E;
    [| reflexivity].
  replace ("_" ++ Py.str_of_Z pct ++ "_VIEWABILITY_")
    with (("_" ++ Py.str_of_Z pct ++ "_") ++ "VIEWABILITY_") in E
    by (rewrite !string_app_assoc; reflexivity).
  rewrite (contains_app_l _ _ _ E). rewrite !orb_true_r. reflexivity.
Qed.

(** X13. The product short forms read off the account's product type hold
    no short form twice, and each of them is one of the codes of the table
    of product types. *)
Theorem product_short_forms_distinct (product_type : pyval) :
  NoDup (NameAssign.derive_product_short_forms product_type)
  /\ forall form, In form (NameAssign.derive_product_short_forms product_type) ->
                  In form (map snd NameAssign.short_forms).
Proof.
  unfold NameAssign.derive_product_short_forms.
  destruct (notna product_type); [| split; [constructor | intros form []]].
  apply (fold_left_invariant
           (fun acc => NoDup acc /\ forall form, In form acc ->
                                                 In form (map snd NameAssign.short_forms))).
  - intros acc pt [Hnd Hin].
    destruct (Py.is_empty (Py.strip pt)); [split; assumption |].
    destruct (NameAssign.extract_product_type_shortform (PStr (Py.strip pt)))
      as [form |] eqn:E; [| split; assumption].
    destruct (Py.is_empty form); [split; assumption |]. cbn [orb].
    destruct (Py.mem form acc) eqn:Em; [split; assumption |].
    split.
    + apply NoDup_app; [exact Hnd | constructor; [intros [] | constructor] |].
      intros x Hx [<- | []]. apply (mem_false _ _ Em Hx).
    + intros x Hx. apply in_app_or in Hx. destruct Hx as [Hx | [<- | []]].
      * apply Hin. exact Hx.
      * apply (shortform_known _ _ E).
  - split; [constructor | intros form []].
Qed.

(** X14. A creative that carries the name of its line item, with no blank
    around it, never has a geo, platform or media-type mismatch: what the
    creative check takes over from the line item's name, the creative's
    name satisfies. *)
Theorem creative_named_as_line_item (b : NameAssign.brief) (r : row) (name : string) :
  get r "line_item_name" (PStr "") = PStr name ->
  get r "creative_name" (PStr "") = PStr name ->
  Py.strip name = name ->
  name <> EmptyString ->
  exists res,
    NameAssign.check_creative_name b r = Some res
    /\ NameAssign.geo_mismatch res = false
    /\ NameAssign.platform_mismatch res = false
    /\ NameAssign.media_type_mismatch res = false.
Proof.
  intros Hli Hcr Hstrip Hne.
  unfold NameAssign.check_creative_name, NameAssign.check_name.
  rewrite Hcr. cbn [py_str].
  destruct name as [| ch rest] eqn:Ename; [contradiction |]. rewrite <- Ename in *.
  assert (Py.is_empty name = false) as Eempty by (rewrite Ename; reflexivity).
  rewrite Eempty. eexists. split; [reflexivity |].
  unfold NameAssign.check_naming_format. rewrite Hstrip, Eempty. cbv zeta.
  unfold NameAssign.creative_checks_config, NameAssign.li_props_for_creative.
  rewrite Hli. cbn [py_str]. rewrite Eempty.
  destruct (NameAssign.row_platform_media r) as [platform media].
  cbn [NameAssign.c_type NameAssign.li_has_geo NameAssign.li_platform_prefix
       NameAssign.li_media_type_code NameAssign.geo_mismatch NameAssign.platform_mismatch
       NameAssign.media_type_mismatch NameAssign.p_li_has_geo
       NameAssign.p_li_platform_prefix NameAssign.p_li_media_type_code].
  split; [| split].
  - destruct (Py.contains "_GEO_" (Py.upper name)); reflexivity.
  - match goal with
    | |- match NameAssign.str_truthy ?found with _ => _ end = false =>
        destruct found as [p |] eqn:Efound; [| reflexivity]
    end.
    assert (Py.startswith (Py.upper name) (Py.upper p) = true) as Hstart.
    { destruct (NameAssign.get_platform_prefix platform) as [[| pfx pfxs] |];
        try discriminate Efound.
      apply find_some in Efound. apply Efound. }
    unfold NameAssign.str_truthy. destruct (Py.is_empty p); [reflexivity |].
    rewrite Hstart. destruct (_ && _); reflexivity.
  - match goal with
    | |- match NameAssign.str_truthy ?found with _ => _ end = false =>
        destruct found as [code |] eqn:Efound; [| reflexivity]
    end.
    assert (Py.contains (Py.upper code) (Py.upper name) = true) as Hhas.
    { destruct (NameAssign.str_truthy (NameAssign.get_media_type_code media)) as [code' |];
        [| discriminate Efound].
      destruct (Py.contains (Py.upper code') (Py.upper name)) eqn:E;
        [| discriminate Efound].
      injection Efound as <-. exact E. }
    unfold NameAssign.str_truthy. destruct (Py.is_empty code); [reflexivity |].
    rewrite Hhas. reflexivity.
Qed.

Lemma creative_named_as_line_item_witness :
  exists res,
    NameAssign.check_creative_name NameAssign.sample_brief
      [("line_item_name", PStr "MOA_SBV_Q1_24_GEO_BA_");
       ("creative_name", PStr "MOA_SBV_Q1_24_GEO_BA_");
       ("brief_platform_media", PStr "Mobile/Banner")] = Some res
    /\ NameAssign.geo_mismatch res = false
    /\ NameAssign.platform_mismatch res = false
    /\ NameAssign.media_type_mismatch res = false.
Proof.
  apply (creative_named_as_line_item NameAssign.sample_brief
           [("line_item_name", PStr "MOA_SBV_Q1_24_GEO_BA_");
            ("creative_name", PStr "MOA_SBV_Q1_24_GEO_BA_");
            ("brief_platform_media", PStr "Mobile/Banner")] "MOA_SBV_Q1_24_GEO_BA_");
    try reflexivity.
  discriminate.
Defined.

(* ------------------------------------------------------------------ *)
(** ** Date texts (brief_extractor.py) *)

Section DayFirstFacts.

Import BriefExtractor.

Lemma lower_digit (c : ascii) : Py.is_digit c = true -> Py.lower_char c = c.
Proof.
  intros H. unfold Py.lower_char.
  assert (Py.is_upper c = false) as ->; [| reflexivity].
  unfold Py.is_digit in H. unfold Py.is_upper.
  apply andb_true_iff in H. destruct H as [_ H2]. apply N.leb_le in H2.
  apply andb_false_iff. left. apply N.leb_gt. lia.
Qed.

Lemma days_in_month_ge (y m : Z) : 28 <= days_in_month y m.
Proof.
  unfold days_in_month.
  destruct (m =? 2); [destruct (is_leap y); lia |].
  destruct ((m =? 4) || (m =? 6) || (m =? 9) || (m =? 11)); lia.
Qed.

(** A month-first format does not read a text whose first number is
    above 12. *)
Lemma month_first_fails (sep : ascii) (a1 a2 b1 b2 y1 y2 y3 y4 : ascii) :
  Py.is_digit sep = false -> Py.lower_char sep = sep ->
  forallb Py.is_digit [a1; a2; b1; b2; y1; y2; y3; y4] = true ->
  12 < num2 a1 a2 ->
  parse_fmt [D_m; D_lit sep; D_d; D_lit sep; D_Y]
            (date_text a1 a2 b1 b2 y1 y2 y3 y4) (1900, 1, 1) = None.
Proof.
  intros Hsep Hlow H Hm. cbn [forallb] in H.
  repeat (apply andb_true_iff in H; destruct H as [? H]).
  unfold date_text. cbn [parse_fmt].
  replace (num2 a1 a2 <=? 12) with false by (symmetry; apply Z.leb_gt; lia).
  rewrite !andb_false_r. cbn [first_some].
  rewrite (lower_digit a2), Hlow, (digit_plain a2 sep) by assumption.
  destruct (Py.is_digit a1 && negb (Ascii.eqb a1 "0")); reflexivity.
Qed.

(** A format with dashes does not read a text with slashes. *)
Lemma dashes_fail (first : directive) (a1 a2 b1 b2 y1 y2 y3 y4 : ascii) (rest : list directive) :
  first = D_m \/ first = D_d ->
  forallb Py.is_digit [a1; a2; b1; b2; y1; y2; y3; y4] = true ->
  parse_fmt (first :: D_lit "-" :: rest)
            (date_text a1 a2 b1 b2 y1 y2 y3 y4) (1900, 1, 1) = None.
Proof.
  intros Hfirst H. cbn [forallb] in H.
  repeat (apply andb_true_iff in H; destruct H as [? H]).
  assert (Ascii.eqb (Py.lower_char a2) (Py.lower_char "-") = false) as E2
    by (rewrite (lower_digit a2) by assumption; apply digit_plain; [assumption | reflexivity]).
  assert (Ascii.eqb a1 " " = false) as E1 by (apply digit_plain; [assumption | reflexivity]).
  unfold date_text. destruct Hfirst as [-> | ->]; cbn [parse_fmt].
  - rewrite E2.
    replace (Ascii.eqb (Py.lower_char "/") (Py.lower_char "-")) with false by reflexivity.
    destruct (_ && _ && _ && _), (_ && _); reflexivity.
  - rewrite E2, E1.
    replace (Ascii.eqb (Py.lower_char "/") (Py.lower_char "-")) with false by reflexivity.
    destruct (_ && _ && _ && _), (_ && _); reflexivity.
Qed.

(** The day-first format with slashes reads a day-first text. *)
Lemma parse_fifth_format (a1 a2 b1 b2 y1 y2 y3 y4 : ascii) :
  forallb Py.is_digit [a1; a2; b1; b2; y1; y2; y3; y4] = true ->
  1 <= num2 a1 a2 <= 31 -> 1 <= num2 b1 b2 <= 12 ->
  parse_fmt [D_d; D_lit "/"; D_m; D_lit "/"; D_Y]
            (date_text a1 a2 b1 b2 y1 y2 y3 y4) (1900, 1, 1)
  = Some (PyFloat.Z_of_digits [y1; y2; y3; y4], num2 b1 b2, num2 a1 a2).
Proof.
  intros H Hd Hm. cbn [forallb] in H.
  repeat (apply andb_true_iff in H; destruct H as [? H]).
  unfold date_text. cbn [parse_fmt].
  repeat match goal with H : Py.is_digit _ = true |- _ => rewrite H; clear H end.
  replace (1 <=? num2 a1 a2) with true by (symmetry; apply Z.leb_le; lia).
  replace (num2 a1 a2 <=? 31) with true by (symmetry; apply Z.leb_le; lia).
  replace (1 <=? num2 b1 b2) with true by (symmetry; apply Z.leb_le; lia).
  replace (num2 b1 b2 <=? 12) with true by (symmetry; apply Z.leb_le; lia).
  reflexivity.
Qed.

Lemma day_first_shape (d : date) :
  valid_date d = true ->
  exists a1 a2 b1 b2 y1 y2 y3 y4,
    day_first_text d = date_text a1 a2 b1 b2 y1 y2 y3 y4
    /\ forallb Py.is_digit [a1; a2; b1; b2; y1; y2; y3; y4] = true
    /\ num2 a1 a2 = day d /\ num2 b1 b2 = month d
    /\ PyFloat.Z_of_digits [y1; y2; y3; y4] = year d.
Proof.
  intros H. apply valid_date_bounds in H. destruct H as (Hy & Hm & Hd).
  pose proof (two_digits_all (month d) ltac:(lia)) as Em.
  pose proof (two_digits_all (day d) ltac:(lia)) as Ed.
  pose proof (four_digits_all (year d) ltac:(lia)) as Ey.
  unfold two_digits_ok in Em, Ed. unfold four_digits_ok in Ey. unfold day_first_text.
  destruct (two_digits (month d)) as [| b1 [| b2 [| ? ?]]]; try discriminate Em.
  destruct (two_digits (day d)) as [| a1 [| a2 [| ? ?]]]; try discriminate Ed.
  destruct (four_digits (year d)) as [| y1 [| y2 [| y3 [| y4 [| ? ?]]]]]; try discriminate Ey.
  repeat match goal with
         | H : _ && _ = true |- _ => apply andb_true_iff in H; destruct H
         end.
  exists a1, a2, b1, b2, y1, y2, y3, y4.
  split; [reflexivity |].
  split.
  - cbn [forallb].
    repeat match goal with H : Py.is_digit _ = true |- _ => rewrite H; clear H end.
    reflexivity.
  - repeat split; apply Z.eqb_eq; assumption.
Qed.

(** What the formats read off a day-first text. *)
Lemma strptime_first_day_first (d : date) :
  valid_date d = true ->
  strptime_first (day_first_text d)
  = Some (if day d <=? 12 then mkDate (year d) (day d) (month d) else d).
Proof.
  intros Hv.
  destruct (day_first_shape d Hv)
    as (a1 & a2 & b1 & b2 & y1 & y2 & y3 & y4 & Es & Hdig & Ea & Eb & Ey).
  pose proof (valid_date_bounds d Hv) as (Hy & Hm & Hd).
  destruct (date_text_facts a1 a2 b1 b2 y1 y2 y3 y4 Hdig) as (_ & _ & Hfirst).
  rewrite Es. unfold strptime_first, date_formats. cbn [fold_right].
  unfold strptime at 1. rewrite Hfirst. cbn [first_some].
  destruct (day d <=? 12) eqn:E12.
  - apply Z.leb_le in E12.
    pose proof (parse_second_format a1 a2 b1 b2 y1 y2 y3 y4 Hdig
                  ltac:(rewrite Ea; lia) ltac:(rewrite Eb; lia)) as Hsecond.
    unfold strptime at 1. rewrite Hsecond, Ea, Eb, Ey.
    assert (valid_date (mkDate (year d) (day d) (month d)) = true) as ->; [| reflexivity].
    unfold valid_date. cbn [year month day].
    pose proof (days_in_month_ge (year d) (day d)).
    repeat (apply andb_true_iff; split); apply Z.leb_le; lia.
  - apply Z.leb_gt in E12.
    unfold strptime at 1.
    rewrite (month_first_fails "/") by (try reflexivity; try assumption; rewrite Ea; lia).
    cbn [first_some].
    unfold strptime at 1.
    rewrite (dashes_fail D_m) by (try assumption; left; reflexivity).
    cbn [first_some].
    unfold strptime at 1.
    rewrite (dashes_fail D_d) by (try assumption; right; reflexivity).
    cbn [first_some].
    unfold strptime at 1.
    rewrite (parse_fifth_format a1 a2 b1 b2 y1 y2 y3 y4 Hdig)
      by (rewrite ?Ea, ?Eb; lia).
    rewrite Ea, Eb, Ey.
    destruct d as [y m dd]. cbn [year month day] in *. rewrite Hv. reflexivity.
Qed.

Lemma day_first_strip (d : date) :
  valid_date d = true ->
  Py.strip (day_first_text d) = day_first_text d
  /\ Py.is_empty (day_first_text d) = false.
Proof.
  intros Hv.
  destruct (day_first_shape d Hv)
    as (a1 & a2 & b1 & b2 & y1 & y2 & y3 & y4 & Es & Hdig & _).
  rewrite Es. split; [apply (date_text_facts _ _ _ _ _ _ _ _ Hdig) | reflexivity].
Qed.

End DayFirstFacts.

(** X15. The normalized text of a date reads back as that date: the
    formats of the date normalization read MM/DD/YYYY month first. *)
Theorem date_text_reads_back (d : date) :
  BriefExtractor.valid_date d = true ->
  BriefExtractor.strptime_first (BriefExtractor.strftime d) = Some d.
Proof. apply strptime_first_strftime. Qed.

Lemma date_text_reads_back_witness :
  BriefExtractor.strptime_first (BriefExtractor.strftime (mkDate 2024 2 29))
  = Some (mkDate 2024 2 29).
Proof. apply date_text_reads_back. reflexivity. Defined.

(** X16. A date written day first, DD/MM/YYYY, is normalized to the right
    day only when its day is above 12; with a day of 12 or less the text is
    read month first, day and month exchanged, and comes back unchanged. *)
Theorem day_first_dates (to_datetime : pyval -> option date) (d : date) :
  BriefExtractor.valid_date d = true ->
  BriefExtractor.strptime_first (BriefExtractor.day_first_text d)
  = Some (if day d <=? 12 then mkDate (year d) (day d) (month d) else d)
  /\ BriefExtractor.standardize_date_format to_datetime
       (PStr (BriefExtractor.day_first_text d))
     = PStr (if day d <=? 12 then BriefExtractor.day_first_text d
             else BriefExtractor.strftime d).
Proof.
  intros Hv. pose proof (strptime_first_day_first d Hv) as Hread.
  destruct (day_first_strip d Hv) as [Hstrip Hne].
  split; [exact Hread |].
  unfold BriefExtractor.standardize_date_format.
  cbn [truthy isna py_str BriefExtractor.serial_day]. rewrite Hne. cbn [negb orb].
  rewrite Hstrip, Hread. destruct (day d <=? 12); reflexivity.
Qed.

Lemma day_first_dates_witness :
  BriefExtractor.standardize_date_format BriefExtractor.no_generic_parser
    (PStr (BriefExtractor.day_first_text (mkDate 2023 3 5)))
  = PStr (if 5 <=? 12 then BriefExtractor.day_first_text (mkDate 2023 3 5)
          else BriefExtractor.strftime (mkDate 2023 3 5)).
Proof.
  apply (day_first_dates BriefExtractor.no_generic_parser (mkDate 2023 3 5)). reflexivity.
Defined.

(* ------------------------------------------------------------------ *)
(** ** Years of two digits (brief_extractor.py) *)

Section ShortYearFacts.

Import BriefExtractor.

(** What is known of a digit of a date text. *)
Ltac digit_facts :=
  repeat match goal with
         | H : Py.is_digit ?c = true |- _ =>
             rewrite ?(lower_digit c H), ?(digit_plain c "/" H eq_refl),
               ?(digit_plain c "-" H eq_refl), ?(digit_plain c "." H eq_refl),
               ?(digit_plain c " " H eq_refl), ?H;
             revert H
         end;
  intros.

(** Tests on the characters of a format are computed. *)
Ltac closed_chars :=
  repeat match goal with
         | |- context [Py.lower_char (Ascii ?a ?b ?c ?d ?e ?f ?g ?h)] =>
             let v := eval vm_compute in (Py.lower_char (Ascii a b c d e f g h)) in
             change (Py.lower_char (Ascii a b c d e f g h)) with v
         | |- context [Py.is_digit (Ascii ?a ?b ?c ?d ?e ?f ?g ?h)] =>
             let v := eval vm_compute in (Py.is_digit (Ascii a b c d e f g h)) in
             change (Py.is_digit (Ascii a b c d e f g h)) with v
         | |- context [Ascii.eqb (Ascii ?a ?b ?c ?d ?e ?f ?g ?h)
                                 (Ascii ?a' ?b' ?c' ?d' ?e' ?f' ?g' ?h')] =>
             let v := eval vm_compute in
                        (Ascii.eqb (Ascii a b c d e f g h) (Ascii a' b' c' d' e' f' g' h')) in
             change (Ascii.eqb (Ascii a b c d e f g h) (Ascii a' b' c' d' e' f' g' h'))
               with v
         end.

Ltac settle :=
  repeat (cbn [parse_fmt first_some andb negb]; digit_facts; closed_chars;
          rewrite ?andb_false_r, ?andb_true_r;
          try reflexivity;
          match goal with
          | |- context [if ?c then _ else _] => destruct c
          end);
  try reflexivity.

Lemma year_first_fails (a b : ascii) (t : string) (rest : list directive) (acc : fields) :
  parse_fmt (D_Y :: rest) (String a (String b (String "/" t))) acc = None.
Proof.
  destruct t as [| e t]; cbn [parse_fmt]; [reflexivity |].
  closed_chars. rewrite andb_false_r. reflexivity.
Qed.

Lemma separator_fails (first : directive) (sep a b : ascii) (t : string)
    (rest : list directive) (acc : fields) :
  first = D_m \/ first = D_d \/ first = D_y ->
  sep = "-"%char \/ sep = "."%char ->
  Py.is_digit a = true -> Py.is_digit b = true ->
  parse_fmt (first :: D_lit sep :: rest) (String a (String b (String "/" t))) acc = None.
Proof.
  intros Hfirst Hsep Ha Hb.
  destruct Hfirst as [-> | [-> | ->]], Hsep as [-> | ->]; settle.
Qed.

Lemma long_year_fails (x y : directive) (m1 m2 d1 d2 y1 y2 : ascii) (acc : fields) :
  x = D_m \/ x = D_d -> y = D_m \/ y = D_d ->
  forallb Py.is_digit [m1; m2; d1; d2; y1; y2] = true ->
  parse_fmt [x; D_lit "/"; y; D_lit "/"; D_Y] (short_text m1 m2 d1 d2 y1 y2) acc = None.
Proof.
  intros Hx Hy H. cbn [forallb] in H.
  repeat (apply andb_true_iff in H; destruct H as [? H]).
  unfold short_text. destruct Hx as [-> | ->], Hy as [-> | ->]; settle.
Qed.

Lemma month_name_fails (c : ascii) (t : string) (rest : list directive) (acc : fields) :
  Py.is_digit c = true ->
  parse_fmt (D_B :: rest) (String c t) acc = None
  /\ parse_fmt (D_b :: rest) (String c t) acc = None.
Proof.
  intros Hc.
  assert (forall name, Py.is_digit (match name with String x _ => x | EmptyString => "a" end)
                       = false ->
                       name <> EmptyString ->
                       Py.startswith (Py.lower (String c t)) name = false) as Hname.
  { intros [| x name] Hx Hne; [contradiction |].
    unfold Py.startswith, Py.lower. cbn [Py.smap String.prefix].
    rewrite (lower_digit c Hc).
    destruct (ascii_dec x c) as [-> | _]; [congruence | reflexivity]. }
  split; cbn [parse_fmt month_names month_abbreviations fold_right fst snd];
    repeat (rewrite Hname by (try reflexivity; discriminate)); reflexivity.
Qed.

Lemma parse_ninth_format (m1 m2 d1 d2 y1 y2 : ascii) :
  forallb Py.is_digit [m1; m2; d1; d2; y1; y2] = true ->
  1 <= num2 m1 m2 <= 12 -> 1 <= num2 d1 d2 <= 31 ->
  parse_fmt [D_m; D_lit "/"; D_d; D_lit "/"; D_y] (short_text m1 m2 d1 d2 y1 y2) (1900, 1, 1)
  = Some (pivot_year (num2 y1 y2), num2 m1 m2, num2 d1 d2).
Proof.
  intros H Hm Hd. cbn [forallb] in H.
  repeat (apply andb_true_iff in H; destruct H as [? H]).
  unfold short_text. cbn [parse_fmt].
  repeat match goal with H : Py.is_digit _ = true |- _ => rewrite H; clear H end.
  replace (1 <=? num2 m1 m2) with true by (symmetry; apply Z.leb_le; lia).
  replace (num2 m1 m2 <=? 12) with true by (symmetry; apply Z.leb_le; lia).
  replace (1 <=? num2 d1 d2) with true by (symmetry; apply Z.leb_le; lia).
  replace (num2 d1 d2 <=? 31) with true by (symmetry; apply Z.leb_le; lia).
  reflexivity.
Qed.

Lemma day_first_short_fails (m1 m2 d1 d2 y1 y2 : ascii) :
  forallb Py.is_digit [m1; m2; d1; d2; y1; y2] = true ->
  12 < num2 d1 d2 ->
  parse_fmt [D_d; D_lit "/"; D_m; D_lit "/"; D_y] (short_text m1 m2 d1 d2 y1 y2) (1900, 1, 1)
  = None.
Proof.
  intros H Hd. cbn [forallb] in H.
  repeat (apply andb_true_iff in H; destruct H as [? H]).
  unfold short_text. cbn [parse_fmt]. digit_facts. closed_chars.
  replace (num2 d1 d2 <=? 12) with false by (symmetry; apply Z.leb_gt; lia).
  settle.
Qed.

Lemma short_year_shape (m d yy : Z) :
  1 <= m <= 12 -> 1 <= d <= 31 -> 0 <= yy <= 99 ->
  exists m1 m2 d1 d2 y1 y2,
    short_year_text m d yy = short_text m1 m2 d1 d2 y1 y2
    /\ forallb Py.is_digit [m1; m2; d1; d2; y1; y2] = true
    /\ num2 m1 m2 = m /\ num2 d1 d2 = d /\ num2 y1 y2 = yy.
Proof.
  intros Hm Hd Hy.
  pose proof (two_digits_all m ltac:(lia)) as Em.
  pose proof (two_digits_all d ltac:(lia)) as Ed.
  pose proof (two_digits_all yy ltac:(lia)) as Ey.
  unfold two_digits_ok in Em, Ed, Ey. unfold short_year_text.
  destruct (two_digits m) as [| m1 [| m2 [| ? ?]]]; try discriminate Em.
  destruct (two_digits d) as [| d1 [| d2 [| ? ?]]]; try discriminate Ed.
  destruct (two_digits yy) as [| y1 [| y2 [| ? ?]]]; try discriminate Ey.
  repeat match goal with
         | H : _ && _ = true |- _ => apply andb_true_iff in H; destruct H
         end.
  exists m1, m2, d1, d2, y1, y2.
  split; [reflexivity |].
  split.
  - cbn [forallb].
    repeat match goal with H : Py.is_digit _ = true |- _ => rewrite H; clear H end.
    reflexivity.
  - repeat split; apply Z.eqb_eq; assumption.
Qed.

End ShortYearFacts.

(** X17. A month-first text with a year of two digits, MM/DD/YY, is read
    with the pivot 69: the years 00 to 68 are 2000 to 2068 and the years 69
    to 99 are 1969 to 1999; a text that is no date of that year is read by
    no format. *)
Theorem short_years_pivot (m d yy : Z) :
  1 <= m <= 12 -> 1 <= d <= 31 -> 0 <= yy <= 99 ->
  BriefExtractor.strptime_first (BriefExtractor.short_year_text m d yy)
  = if BriefExtractor.valid_date (mkDate (BriefExtractor.pivot_year yy) m d)
    then Some (mkDate (BriefExtractor.pivot_year yy) m d) else None.
Proof.
  intros Hm Hd Hy.
  destruct (short_year_shape m d yy Hm Hd Hy)
    as (m1 & m2 & d1 & d2 & y1 & y2 & Es & Hdig & Em & Ed & Ey).
  assert (Py.is_digit m1 = true /\ Py.is_digit m2 = true) as [Hm1 Hm2].
  { cbn [forallb] in Hdig. repeat (apply andb_true_iff in Hdig; destruct Hdig as [? Hdig]).
    split; assumption. }
  rewrite Es. unfold BriefExtractor.strptime_first, BriefExtractor.date_formats.
  cbn [fold_right]. unfold BriefExtractor.strptime.
  unfold BriefExtractor.short_text at 1. rewrite year_first_fails.
  rewrite (long_year_fails BriefExtractor.D_m BriefExtractor.D_d)
    by (try assumption; auto).
  unfold BriefExtractor.short_text at 1.
  rewrite (separator_fails BriefExtractor.D_m "-") by auto.
  unfold BriefExtractor.short_text at 1.
  rewrite (separator_fails BriefExtractor.D_d "-") by auto.
  rewrite (long_year_fails BriefExtractor.D_d BriefExtractor.D_m)
    by (try assumption; auto).
  unfold BriefExtractor.short_text at 1.
  rewrite (proj1 (month_name_fails m1 _ _ _ Hm1)).
  unfold BriefExtractor.short_text at 1.
  rewrite (proj2 (month_name_fails m1 _ _ _ Hm1)).
  unfold BriefExtractor.short_text at 1. rewrite year_first_fails.
  rewrite (parse_ninth_format m1 m2 d1 d2 y1 y2 Hdig) by (rewrite ?Em, ?Ed; lia).
  rewrite Em, Ed, Ey. cbn [BriefExtractor.first_some].
  destruct (BriefExtractor.valid_date (mkDate (BriefExtractor.pivot_year yy) m d)) eqn:Ev;
    [reflexivity |].
  assert (12 < d) as Hd12.
  { unfold BriefExtractor.valid_date in Ev. cbn [year month day] in Ev.
    pose proof (days_in_month_ge (BriefExtractor.pivot_year yy) m).
    assert (1 <= BriefExtractor.pivot_year yy <= 9999)
      by (unfold BriefExtractor.pivot_year; destruct (yy <=? 68); lia).
    destruct (d <=? BriefExtractor.days_in_month (BriefExtractor.pivot_year yy) m) eqn:E.
    - exfalso. revert Ev.
      replace (1 <=? BriefExtractor.pivot_year yy) with true by (symmetry; apply Z.leb_le; lia).
      replace (BriefExtractor.pivot_year yy <=? 9999) with true
        by (symmetry; apply Z.leb_le; lia).
      replace (1 <=? m) with true by (symmetry; apply Z.leb_le; lia).
      replace (m <=? 12) with true by (symmetry; apply Z.leb_le; lia).
      replace (1 <=? d) with true by (symmetry; apply Z.leb_le; lia).
      discriminate.
    - apply Z.leb_gt in E. lia. }
  rewrite (day_first_short_fails m1 m2 d1 d2 y1 y2 Hdig) by (rewrite Ed; exact Hd12).
  unfold BriefExtractor.short_text at 1.
  rewrite (separator_fails BriefExtractor.D_y "-") by auto.
  unfold BriefExtractor.short_text at 1.
  rewrite (separator_fails BriefExtractor.D_m ".") by auto.
  unfold BriefExtractor.short_text at 1.
  rewrite (separator_fails BriefExtractor.D_d ".") by auto.
  unfold BriefExtractor.short_text at 1. rewrite year_first_fails.
  reflexivity.
Qed.

Lemma short_years_pivot_witness :
  BriefExtractor.strptime_first (BriefExtractor.short_year_text 1 2 69)
  = if BriefExtractor.valid_date (mkDate (BriefExtractor.pivot_year 69) 1 2)
    then Some (mkDate (BriefExtractor.pivot_year 69) 1 2) else None.
Proof. apply short_years_pivot; lia. Defined.

(* ------------------------------------------------------------------ *)
(** ** Sections of a brief (brief_extractor.py) *)

Section RecordFacts.

Import BriefExtractor.

Lemma record_set_in (r : record) (k0 v0 k v : string) :
  In (k, v) (record_set r k0 v0) -> (k = k0 /\ v = v0) \/ In (k, v) r.
Proof.
  induction r as [| [k' v'] t IH]; simpl.
  - intros [H | []]. injection H as <- <-. left. split; reflexivity.
  - destruct (String.eqb k' k0).
    + intros [H | H]; [injection H as <- <-; left; split; reflexivity | right; right; exact H].
    + intros [H | H]; [right; left; exact H |].
      destruct (IH H) as [E | Hin]; [left; exact E | right; right; exact Hin].
Qed.

Lemma record_set_key_in (r : record) (k0 v0 k : string) :
  In k (map fst (record_set r k0 v0)) -> k = k0 \/ In k (map fst r).
Proof.
  intros H. apply in_map_iff in H. destruct H as ([k' v'] & <- & H).
  destruct (record_set_in _ _ _ _ _ H) as [[E _] | Hin]; [left; exact E |].
  right. apply (in_map fst) in Hin. exact Hin.
Qed.

Lemma record_set_nodup (r : record) (k v : string) :
  NoDup (map fst r) -> NoDup (map fst (record_set r k v)).
Proof.
  induction r as [| [k' v'] t IH]; simpl; intros H.
  - constructor; [intros [] | constructor].
  - inversion H as [| x l Hnotin Hnd]; subst.
    destruct (String.eqb k' k) eqn:E.
    + apply String.eqb_eq in E. subst k'. simpl. constructor; assumption.
    + simpl. constructor; [| apply IH; exact Hnd].
      intros Hin. destruct (record_set_key_in _ _ _ _ Hin) as [-> | Hin'].
      * rewrite String.eqb_refl in E. discriminate E.
      * apply Hnotin. exact Hin'.
Qed.

Lemma value_after_trimmed (r : list pyval) (col_idx : nat) (value : string) :
  value_after r col_idx = Some value -> Py.strip value = value.
Proof.
  unfold value_after.
  destruct (nth_error r (col_idx + 1)) as [v1 |]; [| discriminate].
  destruct (notna v1); [intros H; injection H as <-; apply strip_idem |].
  destruct (nth_error r (col_idx + 2)) as [v2 |]; [| discriminate].
  destruct (notna v2); [intros H; injection H as <-; apply strip_idem | discriminate].
Qed.

Lemma account_cell_entries (r : list pyval) (acc : record) (cell : nat * pyval) :
  account_entries acc -> account_entries (account_cell r acc cell).
Proof.
  intros [Hnd Hall]. unfold account_cell.
  destruct (snd cell) as [| | val | | | |]; try (split; assumption).
  destruct (find _ account_fields) as [field |] eqn:Ef; [| split; assumption].
  destruct (value_after r (fst cell)) as [value |] eqn:Ev; [| split; assumption].
  destruct (Py.is_empty value) eqn:Ee; [split; assumption |].
  split; [apply record_set_nodup; exact Hnd |].
  intros k v Hin. destruct (record_set_in _ _ _ _ _ Hin) as [[-> ->] | Hin'].
  - apply find_some in Ef. split; [apply Ef |].
    split; [intros ->; discriminate Ee | apply (value_after_trimmed _ _ _ Ev)].
  - apply Hall. exact Hin'.
Qed.

End RecordFacts.

(** X18. The account record read off a brief holds fields of the list of
    account fields only, each at most once, and the text stored for a field
    is trimmed and never empty. *)
Theorem account_record_entries (brief_df : BriefExtractor.grid) :
  NoDup (map fst (BriefExtractor.extract_account_data_from_excel brief_df))
  /\ forall field value,
       In (field, value) (BriefExtractor.extract_account_data_from_excel brief_df) ->
       In field BriefExtractor.account_fields
       /\ value <> EmptyString /\ Py.strip value = value.
Proof.
  change (BriefExtractor.account_entries
            (BriefExtractor.extract_account_data_from_excel brief_df)).
  unfold BriefExtractor.extract_account_data_from_excel.
  apply fold_left_invariant.
  - intros acc r Hacc. apply fold_left_invariant; [| exact Hacc].
    intros a cell. apply account_cell_entries.
  - split; [constructor | intros k v []].
Qed.

Section CampaignFacts.

Import BriefExtractor.

Lemma ordered_fields_keys {V : Type} (h : string * V -> list (pyval * pyval))
    (fields : list (string * V)) :
  (forall x, h x = [] \/ exists value, h x = [(PStr (fst x), PStr value)]) ->
  NoDup (map fst fields) ->
  NoDup (map fst (flat_map h fields))
  /\ (List.length (flat_map h fields) <= List.length fields)%nat
  /\ forall fv, In fv (flat_map h fields) ->
                exists name value, fv = (PStr name, PStr value) /\ In name (map fst fields).
Proof.
  intros Hh. induction fields as [| x fields IH]; simpl; intros Hnd.
  - split; [constructor |]. split; [lia | intros fv []].
  - inversion Hnd as [| y l Hnotin Hnd']; subst.
    destruct (IH Hnd') as (IH1 & IH2 & IH3).
    destruct (Hh x) as [-> | (value & ->)]; simpl.
    + split; [exact IH1 |]. split; [lia |].
      intros fv Hfv. destruct (IH3 fv Hfv) as (name & value & E & Hin).
      exists name, value. split; [exact E | right; exact Hin].
    + split; [| split; [lia |]].
      * constructor; [| exact IH1].
        intros Hin. apply in_map_iff in Hin. destruct Hin as (fv & E & Hfv).
        destruct (IH3 fv Hfv) as (name & value' & -> & Hname).
        cbn [fst] in E. injection E as ->. apply Hnotin. exact Hname.
      * intros fv [<- | Hfv].
        -- exists (fst x), value. split; [reflexivity | left; reflexivity].
        -- destruct (IH3 fv Hfv) as (name & value' & E & Hin).
           exists name, value'. split; [exact E | right; exact Hin].
Qed.

Lemma target_fields_distinct : NoDup (map fst target_fields).
Proof.
  repeat (constructor;
          [cbn; intros H;
           repeat (destruct H as [H | H]; [discriminate H |]); exact H |]).
  constructor.
Qed.

Lemma record_get_app (found more : record) (k v : string) :
  record_get found k = Some v -> record_get (found ++ more)%list k = Some v.
Proof.
  induction found as [| [k' v'] found IH]; simpl; [discriminate |].
  destruct (String.eqb k' k); [intros H; exact H | exact IH].
Qed.

(** A cell adds a field or leaves the record as it is. *)
Lemma campaign_cell_keeps (to_datetime : pyval -> option date) (r : list pyval)
    (found : record) (cell : nat * pyval) (k v : string) :
  record_get found k = Some v ->
  record_get (campaign_cell to_datetime r found cell) k = Some v.
Proof.
  intros H. unfold campaign_cell. destruct (isna (snd cell)); [exact H |].
  destruct (find _ target_fields) as [[field variations] |]; [| exact H].
  apply record_get_app. exact H.
Qed.

Lemma campaign_scan_keeps (to_datetime : pyval -> option date) (rows : grid)
    (k v : string) :
  forall found,
    record_get found k = Some v ->
    record_get
      (fold_left
         (fun found r =>
            if all_na r then found
            else fold_left (campaign_cell to_datetime r) (enumerate_from 0 r) found)
         rows found) k
    = Some v.
Proof.
  induction rows as [| r rows IH]; intros found H; cbn [fold_left]; [exact H |].
  apply IH. destruct (all_na r); [exact H |].
  apply (fold_left_invariant (fun found => record_get found k = Some v)); [| exact H].
  intros a b Ha. apply campaign_cell_keeps. exact Ha.
Qed.

(** Rows that follow change no entry of the table. *)
Lemma campaign_table_extended (to_datetime : pyval -> option date)
    (brief_df more : grid) (table : list (pyval * pyval)) :
  extract_campaign_data_from_excel to_datetime brief_df = Some table ->
  exists longer,
    extract_campaign_data_from_excel to_datetime (brief_df ++ more)%list = Some longer
    /\ forall fv, In fv table -> In fv longer.
Proof.
  unfold extract_campaign_data_from_excel. rewrite firstn_app, fold_left_app.
  pose proof (campaign_scan_keeps to_datetime (firstn (30 - List.length brief_df) more))
    as Hkeep.
  match goal with
  | |- context [fold_left ?scan (firstn 30 brief_df) []] =>
      set (found := fold_left scan (firstn 30 brief_df) []) in *
  end.
  specialize (fun k v => Hkeep k v found).
  match goal with
  | |- context [fold_left ?scan (firstn (30 - List.length brief_df) more) found] =>
      set (later := fold_left scan (firstn (30 - List.length brief_df) more) found) in *
  end.
  clearbody later. clearbody found.
  destruct found as [| [k0 v0] rest]; [discriminate |].
  intros H.
  match type of H with
  | Some ?ordered = Some table => assert (table = ordered) as -> by congruence
  end.
  assert (record_get later k0 = Some v0) as Hhead
    by (apply Hkeep; cbn [record_get]; rewrite String.eqb_refl; reflexivity).
  destruct later as [| e later]; [discriminate Hhead |].
  eexists. split; [reflexivity |].
  intros fv Hin. apply in_flat_map in Hin. destruct Hin as (x & Hx & Hfv).
  apply in_flat_map. exists x. split; [exact Hx |].
  destruct (record_get ((k0, v0) :: rest) (fst x)) as [value |] eqn:E; [| destruct Hfv].
  rewrite (Hkeep _ _ E). exact Hfv.
Qed.

End CampaignFacts.

(** X19. The campaign table read off a brief holds each of the nine
    campaign fields at most once, and nothing but these fields; and a value
    once found is kept: whatever rows follow in the sheet, the labels they
    repeat change no entry of the table. *)
Theorem campaign_table_fields (to_datetime : pyval -> option date)
    (brief_df : BriefExtractor.grid) (table : list (pyval * pyval)) :
  BriefExtractor.extract_campaign_data_from_excel to_datetime brief_df = Some table ->
  NoDup (map fst table)
  /\ (List.length table <= 9)%nat
  /\ (forall fv, In fv table ->
                 exists name value,
                   fv = (PStr name, PStr value)
                   /\ In name (map fst BriefExtractor.target_fields))
  /\ forall more,
       exists longer,
         BriefExtractor.extract_campaign_data_from_excel to_datetime
           (brief_df ++ more)%list
         = Some longer
         /\ forall fv, In fv table -> In fv longer.
Proof.
  intros Htable.
  assert (NoDup (map fst table)
          /\ (List.length table <= 9)%nat
          /\ forall fv, In fv table ->
                        exists name value,
                          fv = (PStr name, PStr value)
                          /\ In name (map fst BriefExtractor.target_fields))
    as (H1 & H2 & H3).
  { revert Htable. unfold BriefExtractor.extract_campaign_data_from_excel.
    match goal with
    | |- context [fold_left ?scan (firstn 30 brief_df) []] =>
        destruct (fold_left scan (firstn 30 brief_df) []) as [| e found]; [discriminate |]
    end.
    intros H.
    match type of H with
    | Some ?ordered = Some table => assert (table = ordered) as -> by congruence
    end.
    change 9%nat with (List.length BriefExtractor.target_fields).
    apply (ordered_fields_keys _ BriefExtractor.target_fields);
      [| exact target_fields_distinct].
    intros x. destruct (BriefExtractor.record_get (e :: found) (fst x)) as [value |];
      [right; exists value; reflexivity | left; reflexivity]. }
  split; [exact H1 |]. split; [exact H2 |]. split; [exact H3 |].
  intros more. apply campaign_table_extended. exact Htable.
Qed.

Lemma campaign_table_fields_witness :
  NoDup (map fst [(PStr "LDA or Age Compliant", PStr "Yes"); (PStr "BV Budget", PStr "1000")])
  /\ (List.length [(PStr "LDA or Age Compliant", PStr "Yes"); (PStr "BV Budget", PStr "1000")]
      <= 9)%nat
  /\ (forall fv,
        In fv [(PStr "LDA or Age Compliant", PStr "Yes"); (PStr "BV Budget", PStr "1000")] ->
        exists name value,
          fv = (PStr name, PStr value) /\ In name (map fst BriefExtractor.target_fields))
  /\ forall more,
       exists longer,
         BriefExtractor.extract_campaign_data_from_excel BriefExtractor.no_generic_parser
           ([[PStr "BV Budget"; PInt 1000]; [PNaN; PNaN];
             [PStr "LDA or Age compliant"; PStr " Yes "]; [PStr "bv budget"; PInt 7]]
            ++ more)%list
         = Some longer
         /\ forall fv,
              In fv [(PStr "LDA or Age Compliant", PStr "Yes");
                     (PStr "BV Budget", PStr "1000")] ->
              In fv longer.
Proof.
  apply (campaign_table_fields BriefExtractor.no_generic_parser
           [[PStr "BV Budget"; PInt 1000]; [PNaN; PNaN];
            [PStr "LDA or Age compliant"; PStr " Yes "]; [PStr "bv budget"; PInt 7]]).
  vm_compute. reflexivity.
Defined.

Section TableFacts.

Import BriefExtractor.

Lemma count_absent (x : string) (l : list string) :
  ~ In x l -> count_occ_str x l = 0%nat.
Proof.
  unfold count_occ_str. induction l as [| h t IH]; simpl; [reflexivity |].
  intros H. destruct (String.eqb x h) eqn:E.
  - apply String.eqb_eq in E. subst h. exfalso. apply H. left. reflexivity.
  - apply IH. intros Hin. apply H. right. exact Hin.
Qed.

Lemma count_cons (x h : string) (t : list string) :
  count_occ_str x (h :: t)
  = ((if String.eqb x h then 1 else 0) + count_occ_str x t)%nat.
Proof. unfold count_occ_str. simpl. destruct (String.eqb x h); reflexivity. Qed.

Lemma count_present (x : string) (l : list string) :
  In x l -> (1 <= count_occ_str x l)%nat.
Proof.
  induction l as [| h t IH]; [intros [] |]. rewrite count_cons.
  intros [-> | H]; [rewrite String.eqb_refl; lia |]. specialize (IH H). lia.
Qed.

Lemma distinct_counts (l : list string) :
  NoDup l -> forall x, (count_occ_str x l <= 1)%nat.
Proof.
  induction 1 as [| h t Hnotin Hnd IH]; intros x; [unfold count_occ_str; simpl; lia |].
  rewrite count_cons. destruct (String.eqb x h) eqn:E.
  - apply String.eqb_eq in E. subst h. rewrite (count_absent x t Hnotin). lia.
  - specialize (IH x). lia.
Qed.

Lemma repeated_count (l : list string) :
  ~ NoDup l -> exists x, In x l /\ (2 <= count_occ_str x l)%nat.
Proof.
  induction l as [| h t IH]; intros H; [exfalso; apply H; constructor |].
  destruct (in_dec string_dec h t) as [Hin | Hnotin].
  - exists h. split; [left; reflexivity |]. rewrite count_cons, String.eqb_refl.
    pose proof (count_present h t Hin). lia.
  - destruct IH as (x & Hx & Hc).
    + intros Hnd. apply H. constructor; assumption.
    + exists x. split; [right; exact Hx |]. rewrite count_cons. lia.
Qed.

Lemma row_record_distinct (headers : list string) (cells : list (string * pyval)) :
  (forall x, (count_occ_str x headers <= 1)%nat) ->
  forall acc,
    (forall k v, In (k, v) acc -> In k headers) ->
    (forall c v, In (c, v) cells -> In c headers) ->
    exists rec, row_record headers cells acc = Ok rec
                /\ forall k v, In (k, v) rec -> In k headers.
Proof.
  intros Hc. induction cells as [| [col v] cells IH]; intros acc Hacc Hcells; simpl.
  - exists acc. split; [reflexivity | exact Hacc].
  - assert (Nat.ltb 1 (count_occ_str col headers) = false) as ->
      by (apply Nat.ltb_ge; apply Hc).
    apply IH.
    + destruct (notna v); [| exact Hacc].
      intros k v' Hin. destruct (record_set_in _ _ _ _ _ Hin) as [[-> _] | Hin'].
      * apply (Hcells col v). left. reflexivity.
      * apply (Hacc _ _ Hin').
    + intros c v' Hin. apply (Hcells c v'). right. exact Hin.
Qed.

Lemma row_record_repeated (headers : list string) (cells : list (string * pyval)) (x : string) :
  In x (map fst cells) -> (2 <= count_occ_str x headers)%nat ->
  forall acc, row_record headers cells acc = Raise "ValueError".
Proof.
  intros Hin Hc. induction cells as [| [col v] cells IH]; intros acc; [destruct Hin |].
  simpl. destruct (Nat.ltb 1 (count_occ_str col headers)) eqn:E; [reflexivity |].
  apply IH. destruct Hin as [Hin | Hin]; [| exact Hin].
  cbn [fst] in Hin. subst col. apply Nat.ltb_ge in E. lia.
Qed.

Lemma combine_keys {A B : Type} (l : list A) (r : list B) :
  List.length r = List.length l -> map fst (combine l r) = l.
Proof.
  revert r. induction l as [| a l IH]; intros [| b r] H; simpl in *;
    try reflexivity; try discriminate H.
  rewrite IH; [reflexivity | lia].
Qed.

Lemma combine_key_in {A B : Type} (l : list A) (r : list B) (a : A) (b : B) :
  In (a, b) (combine l r) -> In a l.
Proof. apply in_combine_l. Qed.

(** With distinct titles the rows of a table become records. *)
Lemma table_records_distinct (headers : list string) (data : list (list pyval)) :
  NoDup headers ->
  exists records,
    table_records headers data = Ok records
    /\ forall rec field value, In rec records -> In (field, value) rec -> In field headers.
Proof.
  intros Hnd. pose proof (distinct_counts headers Hnd) as Hc.
  induction data as [| r data IH]; simpl.
  - exists []. split; [reflexivity | intros rec field value []].
  - destruct (row_record_distinct headers (combine headers r) Hc [])
      as (rec & -> & Hrec).
    + intros k v [].
    + intros c v Hin. apply (combine_key_in _ _ _ _ Hin).
    + destruct IH as (records & -> & Hrecords). cbn [bind].
      eexists. split; [reflexivity |].
      intros rec' field value Hin Hfield.
      destruct rec as [| e rec]; [apply (Hrecords rec' field value Hin Hfield) |].
      destruct Hin as [<- | Hin];
        [apply (Hrec field value Hfield) | apply (Hrecords rec' field value Hin Hfield)].
Qed.

(** *** Finding the rows of a table *)

Lemma enumerate_in {A : Type} (l : list A) :
  forall start k i (a : A),
    In (i, a) (skipn k (enumerate_from start l)) ->
    (start + k <= i)%nat /\ nth_error l (i - start) = Some a.
Proof.
  induction l as [| x l IH]; intros start k i a H.
  - destruct k; destruct H.
  - destruct k as [| k]; cbn [enumerate_from skipn] in H.
    + destruct H as [H | H].
      * injection H as <- <-. split; [lia |]. rewrite Nat.sub_diag. reflexivity.
      * destruct (IH (S start) 0%nat i a H) as [Hle Hnth].
        split; [lia |].
        replace (i - start)%nat with (S (i - S start)) by lia. exact Hnth.
    + destruct (IH (S start) k i a H) as [Hle Hnth].
      split; [lia |].
      replace (i - start)%nat with (S (i - S start)) by lia. exact Hnth.
Qed.

Lemma rows_from_in (brief_df : grid) (k i : nat) (r : list pyval) :
  In (i, r) (rows_from k brief_df) ->
  (k <= i)%nat /\ In r brief_df
  /\ exists rest, skipn i brief_df = r :: rest.
Proof.
  unfold rows_from. intros H. destruct (enumerate_in _ _ _ _ _ H) as [Hle Hnth].
  rewrite Nat.sub_0_r in Hnth. split; [lia |].
  split; [apply (nth_error_In _ _ Hnth) |].
  clear H Hle. revert i Hnth. induction brief_df as [| x l IH]; intros [| i] Hnth;
    try discriminate Hnth.
  - injection Hnth as ->. exists l. reflexivity.
  - apply (IH i Hnth).
Qed.

Lemma first_row_found (p : list pyval -> result bool) (rows : list (nat * list pyval)) :
  (forall i r, In (i, r) rows -> exists b, p r = Ok b) ->
  exists found,
    first_row p rows = Ok found
    /\ forall idx, found = Some idx -> exists r, In (idx, r) rows /\ p r = Ok true.
Proof.
  induction rows as [| [i r] rows IH]; intros Hp; cbn [first_row].
  - exists None. split; [reflexivity | discriminate].
  - destruct (Hp i r (or_introl eq_refl)) as [b Hb]. rewrite Hb. cbn [bind].
    destruct b.
    + exists (Some i). split; [reflexivity |].
      intros idx E. injection E as <-. exists r. split; [left; reflexivity | exact Hb].
    + destruct IH as (found & E & Hfound);
        [intros i' r' H; apply (Hp i' r'); right; exact H |].
      exists found. split; [exact E |].
      intros idx Hidx. destruct (Hfound idx Hidx) as (r' & Hin & Hr').
      exists r'. split; [right; exact Hin | exact Hr'].
Qed.

Lemma cell_at_wide (r : list pyval) (i : nat) :
  (i < List.length r)%nat -> exists v, cell_at r i = Ok v.
Proof.
  intros H. unfold cell_at. destruct (nth_error r i) as [v |] eqn:E; [exists v; reflexivity |].
  apply nth_error_None in E. lia.
Qed.

Lemma ends_placements_total (r : list pyval) :
  (2 <= List.length r)%nat -> exists b, ends_placements r = Ok b.
Proof.
  intros H. unfold ends_placements. destruct (all_na r); [exists true; reflexivity |].
  destruct (cell_at_wide r 1 ltac:(lia)) as [v ->]. cbn [bind]. eexists. reflexivity.
Qed.

Lemma is_target_header_total (r : list pyval) :
  (4 <= List.length r)%nat -> exists b, is_target_header r = Ok b.
Proof.
  intros H. unfold is_target_header.
  destruct (cell_at_wide r 1 ltac:(lia)) as [v1 ->]. cbn [bind].
  destruct (_ && _); [| exists false; reflexivity].
  destruct (cell_at_wide r 2 ltac:(lia)) as [v2 ->]. cbn [bind].
  destruct (_ && _); [| exists false; reflexivity].
  destruct (cell_at_wide r 3 ltac:(lia)) as [v3 ->]. cbn [bind]. eexists. reflexivity.
Qed.

Lemma target_header_not_blank (r : list pyval) :
  is_target_header r = Ok true -> all_na r = false.
Proof.
  unfold is_target_header, cell_at.
  destruct (nth_error r 1) as [v1 |] eqn:E1; [| discriminate]. cbn [bind].
  destruct (notna v1) eqn:Hn; [| discriminate]. intros _.
  destruct (all_na r) eqn:Ha; [| reflexivity].
  unfold all_na in Ha. rewrite forallb_forall in Ha.
  specialize (Ha v1 (nth_error_In _ _ E1)). unfold notna in Hn. rewrite Ha in Hn.
  discriminate Hn.
Qed.

(** The placement table is read without an error from a sheet of two
    columns or more whose header row has distinct titles. *)
Lemma placements_read (brief_df : grid) :
  (forall r, In r brief_df -> (2 <= List.length r)%nat) ->
  (forall r, In r brief_df -> has_placement_marker r = true -> NoDup (headers_of r)) ->
  exists placements, extract_placement_data_from_excel brief_df = Ok placements.
Proof.
  intros Hwide Htitles. unfold extract_placement_data_from_excel.
  destruct (first_row_found (fun r => Ok (has_placement_marker r)) (rows_from 20 brief_df))
    as (found & -> & Hfound); [intros i r _; eexists; reflexivity |].
  cbn [bind]. destruct found as [header_idx |]; [| exists []; reflexivity].
  destruct (Hfound header_idx eq_refl) as (header & Hin & Hmark).
  injection Hmark as Hmark.
  destruct (rows_from_in _ _ _ _ Hin) as (_ & Hheader & rest & Hskip).
  destruct (first_row_found ends_placements (rows_from (S header_idx) brief_df))
    as (stop & -> & Hstop).
  { intros i r H. apply ends_placements_total. apply Hwide.
    apply (rows_from_in _ _ _ _ H). }
  cbn [bind]. destruct stop as [end_idx |]; [| exists []; reflexivity].
  destruct (Hstop end_idx eq_refl) as (r' & Hin' & _).
  destruct (rows_from_in _ _ _ _ Hin') as (Hle & _).
  rewrite Hskip.
  replace (end_idx - header_idx)%nat with (S (end_idx - header_idx - 1)) by lia.
  cbn [firstn].
  destruct (table_records_distinct (headers_of header)
              (firstn (end_idx - header_idx - 1) rest) (Htitles header Hheader Hmark))
    as (records & -> & _).
  exists records. reflexivity.
Qed.

(** The target table is read without an error from a sheet of four columns
    or more whose header row has distinct titles. *)
Lemma targets_read (brief_df : grid) :
  (forall r, In r brief_df -> (4 <= List.length r)%nat) ->
  (forall r, In r brief_df -> is_target_header r = Ok true -> NoDup (headers_of r)) ->
  exists targets, extract_target_data_from_excel brief_df = Ok targets.
Proof.
  intros Hwide Htitles. unfold extract_target_data_from_excel.
  destruct (first_row_found is_target_header (rows_from 20 brief_df))
    as (found & -> & Hfound).
  { intros i r H. apply is_target_header_total. apply Hwide.
    apply (rows_from_in _ _ _ _ H). }
  cbn [bind]. destruct found as [header_idx |]; [| exists []; reflexivity].
  destruct (Hfound header_idx eq_refl) as (header & Hin & Hhead).
  destruct (rows_from_in _ _ _ _ Hin) as (_ & Hheader & rest & Hskip).
  rewrite Hskip. cbn [until_blank]. rewrite (target_header_not_blank header Hhead).
  destruct (table_records_distinct (headers_of header) (until_blank rest)
              (Htitles header Hheader Hhead))
    as (records & -> & _).
  exists records. reflexivity.
Qed.

End TableFacts.

(** X20. Turning the rows of a table into records raises exactly when a
    title is repeated: with distinct titles every row gives a record whose
    fields are titles of the table, and with a repeated title the first
    data row already raises a ValueError. *)
Theorem table_records_repeated_title (headers : list string) (data : list (list pyval)) :
  (NoDup headers ->
   exists records,
     BriefExtractor.table_records headers data = BriefExtractor.Ok records
     /\ forall rec field value, In rec records -> In (field, value) rec -> In field headers)
  /\ (~ NoDup headers ->
      forall first rest,
        data = first :: rest -> List.length first = List.length headers ->
        BriefExtractor.table_records headers data = BriefExtractor.Raise "ValueError").
Proof.
  split.
  - apply table_records_distinct.
  - intros Hdup first rest -> Hlen.
    destruct (repeated_count headers Hdup) as (x & Hx & Hc). simpl.
    rewrite (row_record_repeated headers (combine headers first) x);
      [reflexivity | rewrite combine_keys by exact Hlen; exact Hx | exact Hc].
Qed.

Lemma table_records_repeated_title_witness :
  BriefExtractor.table_records ["BV Placement Name"; "Notes"; "Notes"]
    [[PStr "Spring Launch"; PNaN; PNaN]]
  = BriefExtractor.Raise "ValueError".
Proof.
  destruct (table_records_repeated_title ["BV Placement Name"; "Notes"; "Notes"]
              [[PStr "Spring Launch"; PNaN; PNaN]]) as [_ H].
  apply (H ltac:(intros Hnd; inversion Hnd as [| ? ? _ Hnd']; inversion Hnd' as [| ? ? Hn _];
                 apply Hn; left; reflexivity)
           [PStr "Spring Launch"; PNaN; PNaN] []); reflexivity.
Defined.

(* ------------------------------------------------------------------ *)
(** ** Viewability goals (name_assign.py, targeting_general.py) *)

Example viewability_percentage_ex :
  map (fun s => NameAssign.extract_viewability_percentage (PStr s))
      ["70%"; "0.7"; "70.5"; "1234%"; "view 80% min"; "70_view"; "150%"; " 85 "; "1e2"; "12a"]
  = [Some 70; Some 70; Some 70; None; Some 80; None; None; Some 85; Some 100; None].
Proof. vm_compute. reflexivity. Qed.

(** X21. A whole percentage from 0 to 100 written with a percent sign, with
    or without blanks, is read back as that percentage; written alone it is
    read back as itself too, except for 1, which is read as the fraction 1
    and gives 100. *)
Theorem percent_texts_read_back (n : Z) :
  0 <= n <= 100 ->
  NameAssign.extract_viewability_percentage (PStr (Py.str_of_Z n ++ "%")) = Some n
  /\ NameAssign.extract_viewability_percentage (PStr (" " ++ Py.str_of_Z n ++ " %")) = Some n
  /\ NameAssign.extract_viewability_percentage (PStr (Py.str_of_Z n))
     = Some (if n =? 1 then 100 else n).
Proof.
  intros Hn.
  assert (NameAssign.percent_texts_ok n = true) as H
    by (apply (zrange_check NameAssign.percent_texts_ok 0 101);
        [vm_compute; reflexivity | lia]).
  unfold NameAssign.percent_texts_ok in H.
  apply andb_true_iff in H. destruct H as [H H3].
  apply andb_true_iff in H. destruct H as [H1 H2].
  repeat split.
  - revert H1.
    match goal with
    | |- _ -> ?read = Some _ => destruct read as [q |]; [| discriminate]
    end.
    intros E. apply Z.eqb_eq in E. subst q. reflexivity.
  - revert H2.
    match goal with
    | |- _ -> ?read = Some _ => destruct read as [q |]; [| discriminate]
    end.
    intros E. apply Z.eqb_eq in E. subst q. reflexivity.
  - revert H3.
    match goal with
    | |- _ -> ?read = Some _ => destruct read as [q |]; [| discriminate]
    end.
    intros E. apply Z.eqb_eq in E. subst q. reflexivity.
Qed.

Lemma percent_texts_read_back_witness :
  NameAssign.extract_viewability_percentage (PStr (Py.str_of_Z 70 ++ "%")) = Some 70
  /\ NameAssign.extract_viewability_percentage (PStr (" " ++ Py.str_of_Z 70 ++ " %")) = Some 70
  /\ NameAssign.extract_viewability_percentage (PStr (Py.str_of_Z 70))
     = Some (if 70 =? 1 then 100 else 70).
Proof. apply percent_texts_read_back. lia. Defined.

(** X22. A goal written as a decimal fraction of two digits, 0.01 to 0.99,
    is multiplied by 100 as a float and truncated, not rounded: it gives the
    percentage it writes, except for 0.29, 0.57 and 0.58, which give 28, 56
    and 57. *)
Theorem decimal_goals_truncated (k : Z) :
  1 <= k <= 99 ->
  NameAssign.extract_viewability_percentage (PStr ("0." ++ two_digits k))
  = Some (if existsb (Z.eqb k) NameAssign.truncated_goals then k - 1 else k).
Proof.
  intros Hk.
  assert (NameAssign.decimal_text_ok k = true) as H
    by (apply (zrange_check NameAssign.decimal_text_ok 1 99);
        [vm_compute; reflexivity | lia]).
  unfold NameAssign.decimal_text_ok in H.
  revert H.
  match goal with
  | |- _ -> ?read = Some _ => destruct read as [q |]; [| discriminate]
  end.
  intros E. apply Z.eqb_eq in E. subst q. reflexivity.
Qed.

Lemma decimal_goals_truncated_witness :
  NameAssign.extract_viewability_percentage (PStr ("0." ++ two_digits 57))
  = Some (if existsb (Z.eqb 57) NameAssign.truncated_goals then 57 - 1 else 57).
Proof. apply decimal_goals_truncated. lia. Defined.

Example addon_between_bands :
  TargetingGeneral.get_viewability_addon_cpm (PStr "Mobile/Banner") (PStr "74.5%")
  = (0%float, "N/A")
  /\ TargetingGeneral.get_viewability_addon_cpm (PStr "Mobile/Banner") (PStr "1")
     = (0%float, "N/A")
  /\ TargetingGeneral.get_viewability_addon_cpm (PStr "Mobile/Banner") (PStr "0.8")
     = (0.4%float, "80.0%").
Proof. repeat split; vm_compute; reflexivity. Qed.

(** X23. A viewability add-on is given only for a goal that, as a
    percentage, lies in one of the four bands 60-74, 75-84, 85-94 and
    95-100, bounds included; any other goal, also one between two bands,
    gets the add-on 0 and is shown as N/A. *)
Theorem addon_only_in_bands (platform_media viewability_goal : pyval) :
  TargetingGeneral.get_viewability_addon_cpm platform_media viewability_goal
  <> (0%float, "N/A") ->
  exists viewability min_view max_view,
    TargetingGeneral.normalize_viewability_goal viewability_goal = Some viewability
    /\ In (min_view, max_view) [(60, 74); (75, 84); (85, 94); (95, 100)]
    /\ PrimFloat.leb (PyFloat.float_of_Z min_view) viewability = true
    /\ PrimFloat.leb viewability (PyFloat.float_of_Z max_view) = true.
Proof.
  unfold TargetingGeneral.get_viewability_addon_cpm.
  destruct (TargetingGeneral.normalize_viewability_goal viewability_goal) as [v |];
    [| intros H; exfalso; apply H; reflexivity].
  destruct (find _ TargetingGeneral.viewability_cpms) as [[k rules] |] eqn:Ek;
    [| intros H; exfalso; apply H; reflexivity].
  destruct (find (TargetingGeneral.in_range v) rules) as [[[lo hi] a] |] eqn:Er;
    [| intros H; exfalso; apply H; reflexivity].
  intros _. apply find_some in Ek, Er. destruct Ek as [Ek _]. destruct Er as [Er Hin].
  exists v, lo, hi. split; [reflexivity |].
  assert (forallb
            (fun kv => forallb
                         (fun b => existsb
                                     (fun p => (fst (fst b) =? fst p) && (snd (fst b) =? snd p))
                                     [(60, 74); (75, 84); (85, 94); (95, 100)])
                         (snd kv))
            TargetingGeneral.viewability_cpms = true) as Hall by (vm_compute; reflexivity).
  rewrite forallb_forall in Hall. specialize (Hall _ Ek). cbn [snd] in Hall.
  rewrite forallb_forall in Hall. specialize (Hall _ Er). cbn [fst snd] in Hall.
  apply existsb_exists in Hall. destruct Hall as ([lo' hi'] & Hband & E).
  cbn [fst snd] in E. apply andb_true_iff in E. destruct E as [E1 E2].
  apply Z.eqb_eq in E1, E2. subst lo' hi'.
  split; [exact Hband |].
  unfold TargetingGeneral.in_range in Hin. apply andb_true_iff in Hin. exact Hin.
Qed.

Lemma addon_only_in_bands_witness :
  exists viewability min_view max_view,
    TargetingGeneral.normalize_viewability_goal (PStr "0.8") = Some viewability
    /\ In (min_view, max_view) [(60, 74); (75, 84); (85, 94); (95, 100)]
    /\ PrimFloat.leb (PyFloat.float_of_Z min_view) viewability = true
    /\ PrimFloat.leb viewability (PyFloat.float_of_Z max_view) = true.
Proof.
  apply (addon_only_in_bands (PStr "Mobile/Banner") (PStr "0.8")).
  vm_compute. discriminate.
Defined.

(** X24. On a sheet of four columns or more whose table header rows have
    distinct titles no section aborts the others: the placement and the
    target extraction return without an error, and each of the four
    sections of the result is what its own extractor gives. *)
Theorem sections_extracted_independently (to_datetime : pyval -> option date)
    (brief_df : BriefExtractor.grid) :
  (forall r, In r brief_df -> (4 <= List.length r)%nat) ->
  (forall r, In r brief_df -> BriefExtractor.has_placement_marker r = true ->
             NoDup (BriefExtractor.headers_of r)) ->
  (forall r, In r brief_df ->
             BriefExtractor.is_target_header r = BriefExtractor.Ok true ->
             NoDup (BriefExtractor.headers_of r)) ->
  exists placements targets,
    BriefExtractor.extract_placement_data_from_excel brief_df = BriefExtractor.Ok placements
    /\ BriefExtractor.extract_target_data_from_excel brief_df = BriefExtractor.Ok targets
    /\ BriefExtractor.extract_structured_brief_data to_datetime (BriefExtractor.Ok brief_df)
       = BriefExtractor.mkStructured
           (BriefExtractor.account_section
              (BriefExtractor.extract_account_data_from_excel brief_df))
           (BriefExtractor.extract_campaign_data_from_excel to_datetime brief_df)
           (BriefExtractor.placement_section to_datetime placements)
           (BriefExtractor.target_section targets).
Proof.
  intros Hwide Hpl Htg.
  destruct (placements_read brief_df) as [placements Ep];
    [intros r Hr; specialize (Hwide r Hr); lia | exact Hpl |].
  destruct (targets_read brief_df Hwide Htg) as [targets Et].
  exists placements, targets. split; [exact Ep |]. split; [exact Et |].
  unfold BriefExtractor.extract_structured_brief_data. rewrite Ep, Et. reflexivity.
Qed.

Lemma sections_extracted_independently_witness :
  exists placements targets,
    BriefExtractor.extract_placement_data_from_excel BriefExtractor.plain_brief
    = BriefExtractor.Ok placements
    /\ BriefExtractor.extract_target_data_from_excel BriefExtractor.plain_brief
       = BriefExtractor.Ok targets
    /\ BriefExtractor.extract_structured_brief_data BriefExtractor.no_generic_parser
         (BriefExtractor.Ok BriefExtractor.plain_brief)
       = BriefExtractor.mkStructured
           (BriefExtractor.account_section
              (BriefExtractor.extract_account_data_from_excel BriefExtractor.plain_brief))
           (BriefExtractor.extract_campaign_data_from_excel BriefExtractor.no_generic_parser
              BriefExtractor.plain_brief)
           (BriefExtractor.placement_section BriefExtractor.no_generic_parser placements)
           (BriefExtractor.target_section targets).
Proof.
  apply (sections_extracted_independently BriefExtractor.no_generic_parser
           BriefExtractor.plain_brief).
  - intros r Hr. unfold BriefExtractor.plain_brief in Hr.
    repeat (destruct Hr as [<- | Hr]; [simpl; lia |]). destruct Hr.
  - intros r Hr Hm. unfold BriefExtractor.plain_brief in Hr.
    repeat (destruct Hr as [<- | Hr];
            [first [discriminate Hm
                   | repeat (constructor;
                             [cbn; intros H;
                              repeat (destruct H as [H | H]; [discriminate H |]); exact H |]);
                     constructor] |]).
    destruct Hr.
  - intros r Hr Hm. unfold BriefExtractor.plain_brief in Hr.
    repeat (destruct Hr as [<- | Hr];
            [first [discriminate Hm
                   | repeat (constructor;
                             [cbn; intros H;
                              repeat (destruct H as [H | H]; [discriminate H |]); exact H |]);
                     constructor] |]).
    destruct Hr.
Defined.
